(** * httpfs: the in-memory cache builder and the request serving pipeline

    A shallow embedding of the cache (findNames, the slash-count sort,
    findDirs, cacheFiles, cacheFS.Open / Ropen, file.Get, GetEncoding) and
    of httpfs.go (FileServer's handler, checkIfModifiedSince,
    localRedirect, prefix, toBaseName), with the properties of the
    specification stated over it.

    Go strings are byte strings: [string] over [ascii].  Go maps are
    [gmap]s.  The directory objects that [findDirs] shares by pointer live
    in the [dirs] map, and a pointer to one is its key in that map. *)

From Stdlib Require Import ZArith Ascii String List Lia Bool Sorted Permutation.
From stdpp Require Import base option list gmap strings fin_maps.

Local Open Scope Z_scope.

(** ** Go strings *)

Module GoString.

Definition bytes (s : string) : list ascii := list_ascii_of_string s.
Definition of_bytes (l : list ascii) : string := string_of_list_ascii l.

Definition slash : ascii := "/"%char.
Definition backslash : ascii := "\"%char.

Definition is_slash (c : ascii) : bool := Ascii.eqb c slash.

(** [strings.Count(s, "/")] *)
Fixpoint count_slash (s : string) : nat :=
  match s with
  | EmptyString => O
  | String c s' => (if is_slash c then 1 else 0)%nat + count_slash s'
  end.

(** [strings.HasPrefix(s, p)] *)
Fixpoint HasPrefix (s p : string) : bool :=
  match p, s with
  | EmptyString, _ => true
  | String _ _, EmptyString => false
  | String a p', String b s' => Ascii.eqb a b && HasPrefix s' p'
  end.

Definition rev_string (s : string) : string := of_bytes (rev (bytes s)).

(** [strings.HasSuffix(s, suffix)] *)
Definition HasSuffix (s suffix : string) : bool :=
  HasPrefix (rev_string s) (rev_string suffix).

(** [strings.TrimSuffix(s, suffix)] *)
Definition TrimSuffix (s suffix : string) : string :=
  if HasSuffix s suffix
  then of_bytes (take (length (bytes s) - length (bytes suffix)) (bytes s))
  else s.

Definition is_ascii (c : ascii) : bool := (nat_of_ascii c <? 128)%nat.

Definition lower_byte (c : ascii) : ascii :=
  let n := nat_of_ascii c in
  if ((65 <=? n) && (n <=? 90))%nat then ascii_of_nat (n + 32) else c.

(** First byte test [name == "" || name[0] != '/'] of cacheFS.Open. *)
Definition lacks_leading_slash (name : string) : bool :=
  match name with
  | EmptyString => true
  | String c _ => negb (is_slash c)
  end.

End GoString.

(** ** The [path] package of the Go standard library

    [path.Clean] is modelled on path elements: the byte loop of the library
    skips empty and "." elements, lets ".." remove the last real element
    (never the root, never a leading ".."), and joins what is left. *)

Module Path.
Import GoString.

(** The elements between slashes, as byte lists. *)
Fixpoint split_slash (l : list ascii) : list (list ascii) :=
  match l with
  | [] => [[]]
  | c :: l' =>
      if is_slash c then [] :: split_slash l'
      else match split_slash l' with
           | [] => [[c]]
           | e :: es => (c :: e) :: es
           end
  end.

Definition dot : list ascii := ["."%char].
Definition dotdot : list ascii := ["."%char; "."%char].

Definition is_dot (e : list ascii) : bool := bool_decide (e = dot).
Definition is_dotdot (e : list ascii) : bool := bool_decide (e = dotdot).

(** State of the loop: the elements written so far, last first, and how
    many of them form the leading "../.." prefix that must stay. *)
Definition clean_step (rooted : bool) (st : list (list ascii) * nat)
    (e : list ascii) : list (list ascii) * nat :=
  let '(out, keep) := st in
  match e with
  | [] => st
  | _ =>
      if is_dot e then st
      else if is_dotdot e then
        if (keep <? length out)%nat then (tail out, keep)
        else if rooted then st
        else (dotdot :: out, S keep)
      else (e :: out, keep)
  end.

Fixpoint join_slash (es : list (list ascii)) : list ascii :=
  match es with
  | [] => []
  | [e] => e
  | e :: es' => e ++ slash :: join_slash es'
  end.

Definition Clean (p : string) : string :=
  match p with
  | EmptyString => "."
  | String c _ =>
      let rooted := is_slash c in
      let '(out, _) := fold_left (clean_step rooted) (split_slash (bytes p)) ([], O) in
      let body := join_slash (rev out) in
      if rooted then of_bytes (slash :: body)
      else match body with [] => "." | _ => of_bytes body end
  end.

(** [path.Join(a, b)] *)
Definition Join (a b : string) : string :=
  match a, b with
  | EmptyString, EmptyString => EmptyString
  | EmptyString, _ => Clean b
  | _, _ => Clean (a +:+ "/" +:+ b)
  end.

(** The bytes after the last slash, given the reversed string. *)
Fixpoint last_element_rev (r : list ascii) : list ascii :=
  match r with
  | [] => []
  | c :: r' => if is_slash c then [] else c :: last_element_rev r'
  end.

(** The reversed string up to and including its last slash. *)
Fixpoint upto_last_slash_rev (r : list ascii) : list ascii :=
  match r with
  | [] => []
  | c :: r' => if is_slash c then r else upto_last_slash_rev r'
  end.

(** [path.Split(p)]: [dir] ends with the last slash of [p]. *)
Definition Split (p : string) : string * string :=
  let r := rev (bytes p) in
  (of_bytes (rev (upto_last_slash_rev r)), of_bytes (rev (last_element_rev r))).

(** [path.Dir(p)] *)
Definition Dir (p : string) : string := Clean (fst (Split p)).

Fixpoint strip_slashes_rev (r : list ascii) : list ascii :=
  match r with
  | c :: r' => if is_slash c then strip_slashes_rev r' else r
  | [] => []
  end.

(** [path.Base(p)] *)
Definition Base (p : string) : string :=
  match p with
  | EmptyString => "."
  | _ =>
      let r := strip_slashes_rev (rev (bytes p)) in
      match last_element_rev r with
      | [] => "/"
      | e => of_bytes (rev e)
      end
  end.

End Path.

(** ** Errors, time, file modes *)

Inductive error : Type :=
  | os_ErrNotExist                              (* os.ErrNotExist *)
  | errPreconditionFailed                       (* errors.New("precondition failed") *)
  | Errorf_w (msg : string) (e : error)         (* fmt.Errorf(msg + ": %w", e) *)
  | time_ParseError (value : string)            (* what http.ParseTime returns *)
  | nil_ReadSeeker                              (* a read through the nil ReadSeeker of a dir *)
  | ext_error (what : string).                  (* any error of a provider, codec or renderer *)

Global Instance error_eq_dec : EqDecision error.
Proof. solve_decision. Defined.


Inductive result (A : Type) : Type :=
  | Ok (a : A)
  | Err (e : error).
Arguments Ok {A} a.
Arguments Err {A} e.

Global Instance result_ret : MRet result := fun A a => Ok a.
Global Instance result_bind : MBind result := fun A B k m =>
  match m with Ok a => k a | Err e => Err e end.
Global Instance result_fmap : FMap result := fun A B g m =>
  match m with Ok a => Ok (g a) | Err e => Err e end.

(** [time.Time] as an instant: seconds and nanoseconds since the zero time
    (January 1, year 1, 00:00:00 UTC).  [UTC()] changes the location only,
    never the instant, and [Before] and [IsZero] look at the instant. *)
Record Time : Type := mkTime { t_sec : Z; t_nsec : Z }.

Global Instance Time_eq_dec : EqDecision Time.
Proof. solve_decision. Defined.

Module time.
Definition IsZero (t : Time) : bool := (t_sec t =? 0) && (t_nsec t =? 0).
Definition UTC (t : Time) : Time := t.
Definition Before (t u : Time) : bool :=
  (t_sec t <? t_sec u) || ((t_sec t =? t_sec u) && (t_nsec t <? t_nsec u)).
(** [t.Add(1 * time.Second)] *)
Definition Add_Second (t : Time) : Time := mkTime (t_sec t + 1) (t_nsec t).
End time.

(** [os.FileMode] is a uint32; [os.ModeDir] is its top bit. *)
Definition FileMode : Type := Z.
Definition os_ModeDir : FileMode := Z.shiftl 1 31.

(** ** The cache: fileInfo, dir, file *)

Record fileInfo : Type := mkFileInfo {
  fi_baseName : string;
  fi_modTime : Time;
  fi_isDir : bool;
  fi_mode : FileMode
}.

Definition newFileInfo (baseName : string) (mode : FileMode) (modTime : Time) : fileInfo :=
  {| fi_baseName := baseName;
     fi_modTime := modTime;
     fi_mode := mode;
     fi_isDir := (mode =? os_ModeDir) |}.

(** An element of [dir.children], a slice of [os.FileInfo]: a [*fileInfo],
    or a [*dir], which is the key of that directory in the [dirs] map. *)
Inductive child : Type :=
  | Child_fileInfo (fi : fileInfo)
  | Child_dir (key : string).

Record dir : Type := mkDir {
  d_FileInfo : fileInfo;          (* the embedded os.FileInfo, a *fileInfo *)
  d_name : string;
  d_baseName : string;
  d_children : list child
}.

Definition newDir (fi : fileInfo) (fullname : string) : dir :=
  let baseName := Path.Base fullname in
  {| d_FileInfo := newFileInfo baseName os_ModeDir (fi_modTime fi);
     d_name := fullname;
     d_baseName := baseName;
     d_children := [] |}.

Definition contents : Type := list Byte.byte.

(** The struct [file] serves as store entry ([algs] filled, no reader) and
    as served file ([algs] nil, [alg] and the reader filled).  A nil map
    reads as the empty map. *)
Record file : Type := mkFile {
  f_ReadSeeker : option contents;
  f_algs : gmap string contents;
  f_alg : string;
  f_name : string;
  f_baseName : string;
  f_info : fileInfo
}.

Definition newFile (name : string) (fi : fileInfo) (algs : gmap string contents) : file :=
  {| f_ReadSeeker := None;
     f_algs := algs;
     f_alg := "";
     f_name := name;
     f_baseName := Path.Base name;
     f_info := fi |}.

(** ** The interfaces [os.FileInfo], [http.File], [http.FileSystem] *)

(** What a provider other than the cache hands out as [os.FileInfo]. *)
Record provider_info : Type := mkProviderInfo {
  pi_name : string;
  pi_size : Z;
  pi_mode : FileMode;
  pi_modTime : Time;
  pi_isDir : bool
}.

(** An [os.FileInfo] value by dynamic type. *)
Inductive FileInfo : Type :=
  | FI_fileInfo (fi : fileInfo)
  | FI_dir (d : dir)
  | FI_provider (p : provider_info).

Module os_FileInfo.
Definition Name (i : FileInfo) : string :=
  match i with
  | FI_fileInfo fi => fi_baseName fi
  | FI_dir d => d_baseName d
  | FI_provider p => pi_name p
  end.
Definition Mode (i : FileInfo) : FileMode :=
  match i with
  | FI_fileInfo fi => fi_mode fi
  | FI_dir d => fi_mode (d_FileInfo d)
  | FI_provider p => pi_mode p
  end.
Definition ModTime (i : FileInfo) : Time :=
  match i with
  | FI_fileInfo fi => fi_modTime fi
  | FI_dir d => fi_modTime (d_FileInfo d)
  | FI_provider p => pi_modTime p
  end.
Definition IsDir (i : FileInfo) : bool :=
  match i with
  | FI_fileInfo fi => fi_isDir fi
  | FI_dir d => fi_isDir (d_FileInfo d)
  | FI_provider p => pi_isDir p
  end.
(** [func (fi *fileInfo) Size() int64 { return 0 }], promoted to [*dir]. *)
Definition Size (i : FileInfo) : Z :=
  match i with
  | FI_fileInfo _ => 0
  | FI_dir _ => 0
  | FI_provider p => pi_size p
  end.
End os_FileInfo.

(** A file of another provider: what its methods return. *)
Record provider_file : Type := mkProviderFile {
  pf_Stat : result provider_info;
  pf_Readdir : result (list provider_info);
  pf_ReadAll : result contents
}.

(** An [http.File] value by dynamic type.  A [*dir] comes with the map it
    lives in, through which the [*dir] children are reached. *)
Inductive File : Type :=
  | File_file (f : file)
  | File_dir (dirs : gmap string dir) (d : dir)
  | File_provider (p : provider_file).

(** The [os.FileInfo] behind an element of [children]. *)
Definition child_FileInfo (dirs : gmap string dir) (c : child) : option FileInfo :=
  match c with
  | Child_fileInfo fi => Some (FI_fileInfo fi)
  | Child_dir key => FI_dir <$> dirs !! key
  end.

Module http_File.
Definition Stat (f : File) : result FileInfo :=
  match f with
  | File_file ff => Ok (FI_fileInfo (f_info ff))
  | File_dir _ d => Ok (FI_fileInfo (d_FileInfo d))
  | File_provider p => FI_provider <$> pf_Stat p
  end.
Definition Readdir (f : File) : result (list FileInfo) :=
  match f with
  | File_file _ => Err os_ErrNotExist
  | File_dir dirs d => Ok (omap (child_FileInfo dirs) (d_children d))
  | File_provider p => fmap (M:=list) FI_provider <$> pf_Readdir p
  end.
(** [ioutil.ReadAll(f)] *)
Definition ReadAll (f : File) : result contents :=
  match f with
  | File_file ff =>
      match f_ReadSeeker ff with Some c => Ok c | None => Err nil_ReadSeeker end
  | File_dir _ _ => Err nil_ReadSeeker
  | File_provider p => pf_ReadAll p
  end.
End http_File.

Definition FileSystem : Type := string -> result File.

(** ** httpfs.go: the string helpers *)

(** [prefix(s, prefix)] *)
Definition prefix (s p : string) : string :=
  if negb (GoString.HasPrefix s p) then p +:+ s else s.

Definition is_separator (c : ascii) : bool :=
  GoString.is_slash c || Ascii.eqb c GoString.backslash.

(** [toBaseName] on the reversed string: a trailing separator is dropped
    and the search starts again; otherwise the bytes after the last
    separator are the result. *)
Fixpoint toBaseName_rev (r : list ascii) : list ascii :=
  match r with
  | [] => []
  | c :: r' =>
      if is_separator c then toBaseName_rev r'
      else (fix rest (l : list ascii) : list ascii :=
              match l with
              | [] => []
              | x :: l' => if is_separator x then [] else x :: rest l'
              end) r
  end.

Definition toBaseName (s : string) : string :=
  GoString.of_bytes (rev (toBaseName_rev (rev (GoString.bytes s)))).

(** ** [net/http]: the part of a request the package reads *)

Record Request : Type := mkRequest {
  Method : string;
  URL_Path : string;
  URL_RawQuery : string;
  RequestURI : string;
  Header : gmap string string
}.

(** [http.Header.Get(key)]: the empty string when the key is absent. *)
Definition Header_Get (h : gmap string string) (key : string) : string :=
  default "" (h !! key).

(** ** The cache: findNames *)

(** [findNames(fs, name)].  The provider decides whether the walk ends
    (a provider may list a directory inside itself under another name), so
    the recursion is bounded by [fuel]; [None] is "fuel used up". *)
Fixpoint findNames (fuel : nat) (fs : FileSystem) (name : string)
    : option (result (list string)) :=
  match fuel with
  | O => None
  | S fuel' =>
      match fs name with
      | Err e => Some (Err e)
      | Ok f =>
          match http_File.Stat f with
          | Err e => Some (Err e)
          | Ok fi =>
              if negb (os_FileInfo.IsDir fi) then Some (Ok [name])
              else
                match http_File.Readdir f with
                | Err e => Some (Err e)
                | Ok fileinfos =>
                    (fix loop (infos : list FileInfo) (files : list string)
                       : option (result (list string)) :=
                       match infos with
                       | [] => Some (Ok files)
                       | info :: infos' =>
                           let filename := toBaseName (os_FileInfo.Name info) in
                           let fullname := Path.Join name filename in
                           if bool_decide (fullname = name) then loop infos' files
                           else
                             match findNames fuel' fs fullname with
                             | None => None
                             | Some (Err e) => Some (Err e)
                             | Some (Ok rfiles) => loop infos' (files ++ rfiles)
                             end
                       end) fileinfos []
                end
          end
      end
  end.

(** ** [sort.Slice]

    The library sorts short slices by insertion from the right end of the
    sorted part; for longer ones it may order elements that the [less]
    function does not distinguish differently.  [insert_back] works on the
    sorted part held last element first. *)
Section SortSlice.
Context {A : Type} (less : A -> A -> bool).

Fixpoint insert_back (x : A) (sorted_rev : list A) : list A :=
  match sorted_rev with
  | [] => [x]
  | y :: ys => if less x y then y :: insert_back x ys else x :: sorted_rev
  end.

Definition sort_Slice (l : list A) : list A :=
  reverse (fold_left (fun acc x => insert_back x acc) l []).
End SortSlice.

(** The [less] function that [Cache] hands to [sort.Slice]:
    [strings.Count(names[j], "/") > strings.Count(names[i], "/")]. *)
Definition names_less (name_i name_j : string) : bool :=
  (GoString.count_slash name_i <? GoString.count_slash name_j)%nat.

Definition sort_names (names : list string) : list string :=
  sort_Slice names_less names.

(** ** The cache: findDirs *)

Definition append_child (c : child) (d : dir) : dir :=
  {| d_FileInfo := d_FileInfo d; d_name := d_name d;
     d_baseName := d_baseName d; d_children := d_children d ++ [c] |}.

(** One round of the loop of [findDirs].  [d] and [parent] are pointers
    into [dirs]: each append goes through the map, so that it is seen
    through every other pointer to the same directory ([parent] is [d]
    itself when [dirName] is the root). *)
Definition findDirs_step (fs : FileSystem) (dirs : gmap string dir) (name : string)
    : result (gmap string dir) :=
  f ← fs name;
  inf ← http_File.Stat f;
  let dirName := Path.Dir name in
  let dirs1 :=
    match dirs !! dirName with
    | Some _ => dirs
    | None =>
        let fi := newFileInfo (Path.Base dirName) os_ModeDir (os_FileInfo.ModTime inf) in
        <[dirName := newDir fi dirName]> dirs
    end in
  let fi := newFileInfo (Path.Base name) (os_FileInfo.Mode inf) (os_FileInfo.ModTime inf) in
  let parentName := Path.Dir dirName in
  let dirs2 :=
    match dirs1 !! parentName with
    | Some _ => alter (append_child (Child_dir dirName)) parentName dirs1
    | None => dirs1
    end in
  Ok (alter (append_child (Child_fileInfo fi)) dirName dirs2).

Fixpoint findDirs_loop (fs : FileSystem) (names : list string) (dirs : gmap string dir)
    : result (gmap string dir) :=
  match names with
  | [] => Ok dirs
  | name :: names' =>
      dirs' ← findDirs_step fs dirs name;
      findDirs_loop fs names' dirs'
  end.

Definition findDirs (fs : FileSystem) (names : list string) : result (gmap string dir) :=
  findDirs_loop fs names ∅.

(** ** The cache over a provider *)

Record CacheOptions : Type := mkCacheOptions {
  CompressMinSize : Z;
  CompressIgnore : option (string -> bool);   (* nil, or MatchString of the pattern *)
  Encodings : list string
}.

(** [fileMap] *)
Abbreviation fileMap := (gmap string file).

(** [cacheFS]; the field [ttc], a wall-clock duration, is left out. *)
Record cacheFS : Type := mkCacheFS {
  c_n : nat;
  c_dirs : gmap string dir;
  c_files : fileMap;
  c_algs : list string
}.

(** [GetEncoding(f)]; [None] is the nil interface value. *)
Definition GetEncoding (f : option File) : string * bool :=
  match f with
  | None => ("", false)
  | Some (File_file ff) => (f_alg ff, true)
  | Some _ => ("", false)
  end.

(** [file.Get(alg)].  When [alg] has no entry the method calls itself with
    the empty name, and again if that one is missing too: [fuel] bounds the
    calls and [None] is "fuel used up". *)
Fixpoint file_Get (fuel : nat) (f : file) (alg : string) : option (result File) :=
  match fuel with
  | O => None
  | S fuel' =>
      match f_algs f !! alg with
      | Some c =>
          Some (Ok (File_file {| f_name := f_name f;
                                 f_baseName := f_baseName f;
                                 f_info := f_info f;
                                 f_alg := alg;
                                 f_ReadSeeker := Some c;
                                 f_algs := ∅ |}))
      | None => file_Get fuel' f ""
      end
  end.

(** [name == "" || name[0] != '/'] then [name = "/" + name] *)
Definition rooted_name (name : string) : string :=
  if GoString.lacks_leading_slash name then "/" +:+ name else name.

(** [cacheFS.Open(name)] *)
Definition Open (fuel : nat) (c : cacheFS) (name : string) : option (result File) :=
  let name := rooted_name name in
  match c_dirs c !! name with
  | Some d => Some (Ok (File_dir (c_dirs c) d))
  | None =>
      match c_files c !! name with
      | Some f => file_Get fuel f ""
      | None => Some (Err os_ErrNotExist)
      end
  end.

(** The bytes the provider gives for [name]. *)
Definition provider_contents (fs : FileSystem) (name : string) : result contents :=
  f ← fs name; http_File.ReadAll f.

Section Collaborators.

(** The codec registry, [github.com/kataras/compress], of which the
    package uses three entry points.  [compress_Write alg c] stands for
    [NewWriter(buf, alg, -1)], [Write(c)], [Close()] and [buf.Bytes()]
    on an empty buffer; [compress_GetEncoding r offers] for the
    negotiation [compress.GetEncoding(r, offers)]. *)
Variable compress_Write : string -> contents -> result contents.
Variable compress_GetEncoding : Request -> list string -> string * option error.

(** [strings.ToLower] beyond ASCII follows the Unicode tables. *)
Variable unicode_ToLower : string -> string.

Definition strings_ToLower (s : string) : string :=
  if forallb GoString.is_ascii (GoString.bytes s)
  then GoString.of_bytes (map GoString.lower_byte (GoString.bytes s))
  else unicode_ToLower s.

(** The name under which [cacheFiles] stores and compresses [alg]. *)
Definition alg_key (alg : string) : string :=
  if bool_decide (alg = "brotli") then "br" else alg.

(** The inner loop of [cacheFiles], over [compressAlgs]. *)
Fixpoint compress_loop (compressAlgs : list string) (c : contents)
    (algs : gmap string contents) : result (gmap string contents) :=
  match compressAlgs with
  | [] => Ok algs
  | alg :: rest =>
      let alg := alg_key alg in
      dest ← compress_Write (strings_ToLower alg) c;
      compress_loop rest c (<[alg := dest]> algs)
  end.

Definition matches (compressIgnore : option (string -> bool)) (name : string) : bool :=
  match compressIgnore with
  | Some MatchString => MatchString name
  | None => false
  end.

(** One round of the outer loop of [cacheFiles].  The entry put into
    [list] holds the map [algs] by reference, so the variants stored
    after [list[name] = newFile(...)] are variants of that entry. *)
Definition cacheFiles_step (fs : FileSystem) (compressAlgs : list string)
    (compressMinSize : Z) (compressIgnore : option (string -> bool))
    (list : fileMap) (name : string) : result fileMap :=
  f ← fs name;
  inf ← http_File.Stat f;
  let fi := newFileInfo (Path.Base name) (os_FileInfo.Mode inf) (os_FileInfo.ModTime inf) in
  c ← http_File.ReadAll f;
  let algs : gmap string contents := {[ "" := c ]} in
  if (0 <? compressMinSize) && (Z.of_nat (length c) <? compressMinSize)
  then Ok (<[name := newFile name fi algs]> list)
  else if matches compressIgnore name
  then Ok (<[name := newFile name fi algs]> list)
  else
    algs' ← compress_loop compressAlgs c algs;
    Ok (<[name := newFile name fi algs']> list).

Fixpoint cacheFiles_loop (fs : FileSystem) (names : list string)
    (compressAlgs : list string) (compressMinSize : Z)
    (compressIgnore : option (string -> bool)) (list : fileMap) : result fileMap :=
  match names with
  | [] => Ok list
  | name :: names' =>
      list' ← cacheFiles_step fs compressAlgs compressMinSize compressIgnore list name;
      cacheFiles_loop fs names' compressAlgs compressMinSize compressIgnore list'
  end.

Definition cacheFiles (fs : FileSystem) (names : list string)
    (compressAlgs : list string) (compressMinSize : Z)
    (compressIgnore : option (string -> bool)) : result fileMap :=
  cacheFiles_loop fs names compressAlgs compressMinSize compressIgnore ∅.

(** [Cache(fs, options)]; on an error the caller keeps [fs]. *)
Definition Cache (fuel : nat) (fs : FileSystem) (options : CacheOptions)
    : option (result cacheFS) :=
  match findNames fuel fs "/" with
  | None => None
  | Some (Err e) => Some (Err e)
  | Some (Ok names) =>
      let names := sort_names names in
      Some (dirs ← findDirs fs names;
            files ← cacheFiles fs names (Encodings options)
                      (CompressMinSize options) (CompressIgnore options);
            Ok {| c_n := length names; c_dirs := dirs; c_files := files;
                  c_algs := Encodings options |})
  end.

(** [cacheFS.Ropen(name, r)] *)
Definition Ropen (fuel : nat) (c : cacheFS) (name : string) (r : Request)
    : option (result File) :=
  let name := rooted_name name in
  match c_dirs c !! name with
  | Some d => Some (Ok (File_dir (c_dirs c) d))
  | None =>
      match c_files c !! name with
      | Some f =>
          let '(encoding, _) := compress_GetEncoding r (c_algs c) in
          file_Get fuel f encoding
      | None => Some (Err os_ErrNotExist)
      end
  end.

(** The store entry that one round of [cacheFiles] builds for [name]. *)
Definition cache_entry (fs : FileSystem) (compressAlgs : list string)
    (compressMinSize : Z) (compressIgnore : option (string -> bool))
    (name : string) : result file :=
  f ← fs name;
  inf ← http_File.Stat f;
  let fi := newFileInfo (Path.Base name) (os_FileInfo.Mode inf) (os_FileInfo.ModTime inf) in
  c ← http_File.ReadAll f;
  let algs : gmap string contents := {[ "" := c ]} in
  if (0 <? compressMinSize) && (Z.of_nat (length c) <? compressMinSize)
  then Ok (newFile name fi algs)
  else if matches compressIgnore name
  then Ok (newFile name fi algs)
  else
    algs' ← compress_loop compressAlgs c algs;
    Ok (newFile name fi algs').

(** [bs] is what the registry makes of [c] under the name [k]. *)
Definition variant_of (c : contents) (k : string) (bs : contents) : Prop :=
  compress_Write (strings_ToLower k) c = Ok bs.

End Collaborators.

(** ** Sample providers *)

Module Sample.

Definition mtime : Time := mkTime 63800000000 0.

Definition reg (name : string) (c : contents) : provider_file :=
  {| pf_Stat := Ok (mkProviderInfo name (Z.of_nat (length c)) 420 mtime false);
     pf_Readdir := Err (ext_error "not a directory");
     pf_ReadAll := Ok c |}.

Definition dir_info (name : string) : provider_info :=
  mkProviderInfo name 0 (Z.lor os_ModeDir 493) mtime true.

Definition reg_info (name : string) (size : Z) : provider_info :=
  mkProviderInfo name size 420 mtime false.

Definition folder (name : string) (entries : list provider_info) : provider_file :=
  {| pf_Stat := Ok (dir_info name);
     pf_Readdir := Ok entries;
     pf_ReadAll := Err (ext_error "is a directory") |}.

Definition hello : contents := [Byte.x68; Byte.x69].
Definition world : contents := [Byte.x79; Byte.x6f; Byte.x75].

(** A provider that holds exactly the files /a/b.txt and /a/c/d.txt.
    [c_first] is the order in which it lists the directory /a. *)
Definition tree (c_first : bool) : FileSystem := fun name =>
  if bool_decide (name = "/") then Ok (File_provider (folder "/" [dir_info "a"]))
  else if bool_decide (name = "/a") then
    Ok (File_provider (folder "a"
          (if c_first then [dir_info "c"; reg_info "b.txt" 2]
           else [reg_info "b.txt" 2; dir_info "c"])))
  else if bool_decide (name = "/a/b.txt") then Ok (File_provider (reg "b.txt" hello))
  else if bool_decide (name = "/a/c") then
    Ok (File_provider (folder "c" [reg_info "d.txt" 3]))
  else if bool_decide (name = "/a/c/d.txt") then Ok (File_provider (reg "d.txt" world))
  else Err os_ErrNotExist.

(** A codec registry that knows four names and marks its output. *)
Definition codec (alg : string) (c : contents) : result contents :=
  if bool_decide (alg = "gzip") then Ok (Byte.x01 :: c)
  else if bool_decide (alg = "deflate") then Ok (Byte.x02 :: c)
  else if bool_decide (alg = "br") then Ok (Byte.x03 :: c)
  else if bool_decide (alg = "snappy") then Ok (Byte.x04 :: c)
  else Err (ext_error "compress: not supported").

Definition no_unicode (s : string) : string := s.

End Sample.

(** ** httpfs.go: the response side of [net/http] *)

(** What the package does to an [http.ResponseWriter]: it sets and deletes
    headers and writes a status; the first [WriteHeader] wins. *)
Record ResponseWriter : Type := mkResponseWriter {
  w_Header : gmap string string;
  w_status : option Z
}.

Definition Header_Set (key value : string) (w : ResponseWriter) : ResponseWriter :=
  {| w_Header := <[key := value]> (w_Header w); w_status := w_status w |}.

Definition Header_Del (key : string) (w : ResponseWriter) : ResponseWriter :=
  {| w_Header := delete key (w_Header w); w_status := w_status w |}.

Definition WriteHeader (code : Z) (w : ResponseWriter) : ResponseWriter :=
  match w_status w with
  | Some _ => w
  | None => {| w_Header := w_Header w; w_status := Some code |}
  end.

Definition StatusMovedPermanently : Z := 301.
Definition StatusNotModified : Z := 304.
Definition StatusNotFound : Z := 404.
Definition StatusInternalServerError : Z := 500.

(** [compress.AddCompressHeaders(h, encoding)] of the codec registry: it
    sets "Vary" to "Accept-Encoding" and "Content-Encoding" to the
    encoding. *)
Definition AddCompressHeaders (encoding : string) (w : ResponseWriter) : ResponseWriter :=
  Header_Set "Content-Encoding" encoding (Header_Set "Vary" "Accept-Encoding" w).

(** [writeNotModified] *)
Definition writeNotModified (w : ResponseWriter) : ResponseWriter :=
  let w := Header_Del "Content-Type" w in
  let w := Header_Del "Content-Length" w in
  let w := if bool_decide (Header_Get (w_Header w) "ETag" ≠ "")
           then Header_Del "Last-Modified" w else w in
  WriteHeader StatusNotModified w.

(** [localRedirect] *)
Definition localRedirect (w : ResponseWriter) (r : Request) (newPath : string)
    : ResponseWriter :=
  let newPath :=
    if bool_decide (URL_RawQuery r ≠ "") then newPath +:+ "?" +:+ URL_RawQuery r
    else newPath in
  WriteHeader StatusMovedPermanently (Header_Set "Location" newPath w).

Definition MethodGet : string := "GET".
Definition MethodHead : string := "HEAD".



(** The query part that [localRedirect] appends. *)
Definition query_suffix (r : Request) : string :=
  if bool_decide (URL_RawQuery r ≠ "") then "?" +:+ URL_RawQuery r else "".

(** The stream handed to [http.ServeContent]: the open file, or the open
    file behind a [rateReadSeeker] with its limiter. *)
Inductive content : Type :=
  | Content_file (f : File)
  | Content_rate (f : File) (limit : Z) (burst : Z).

Definition content_File (c : content) : File :=
  match c with
  | Content_file f => f
  | Content_rate f _ _ => f
  end.

(** The bytes a read of the open file gives, where the package decides
    them. *)
Definition File_bytes (f : File) : result contents := http_File.ReadAll f.

(** The call [http.ServeContent(w, r, name, modtime, content)].
    [sc_compress] tells whether the [w] passed is the compressing writer of
    [compress.NewResponseWriter], and with which encoding. *)
Record ServeCall : Type := mkServeCall {
  sc_compress : option string;
  sc_name : string;
  sc_modtime : Time;
  sc_content : content
}.

(** What one run of the handler leaves behind: the writer, the pushes
    made, the call of [http.ServeContent] if it got there, and whether the
    run ended in a run-time panic instead of returning. *)
Record outcome : Type := mkOutcome {
  o_w : ResponseWriter;
  o_pushed : list (string * option (gmap string string));
  o_served : option ServeCall;
  o_panic : bool
}.

Definition finish (w : ResponseWriter) : outcome :=
  {| o_w := w; o_pushed := []; o_served := None; o_panic := false |}.

(** The run stops in a panic, after the pushes [pushed]. *)
Definition panicked (w : ResponseWriter)
    (pushed : list (string * option (gmap string string))) : outcome :=
  {| o_w := w; o_pushed := pushed; o_served := None; o_panic := true |}.

(** [Attachments]; of the float [Limit] only the test [Limit > 0] and the
    value passed to the limiter are used. *)
Record Attachments : Type := mkAttachments {
  Enable : bool;
  Limit : Z;
  Burst : Z;
  NameFunc : option (string -> string)
}.

(** The [dirOptions Options] that a [DirListFunc] receives.  [Options]
    holds the renderer and the renderer takes the [Options], so the value
    is passed here as all its fields but [DirList]: at the call that
    field is the renderer that is running. *)
Record DirOptions : Type := mkDirOptions {
  dir_IndexName : string;
  dir_PushTargets : gmap string (list string);
  dir_PushTargetsRegexp : gmap string (string -> bool);
  dir_Compress : bool;
  dir_ShowList : bool;
  dir_Attachments : Attachments;
  dir_Allow : option (ResponseWriter -> Request -> string -> ResponseWriter * bool)
}.

(** [DirListFunc]: [(w, r, dirOptions, dirName, dir)] to the writer it
    leaves and its error. *)
Definition DirListFunc : Type :=
  ResponseWriter -> Request -> DirOptions -> string -> File -> ResponseWriter * option error.

(** [Options].  A pattern of [PushTargetsRegexp] is its [MatchString]. *)
Record Options : Type := mkOptions {
  IndexName : string;
  PushTargets : gmap string (list string);
  PushTargetsRegexp : gmap string (string -> bool);
  Compress : bool;
  ShowList : bool;
  DirList : option DirListFunc;
  opt_Attachments : Attachments;
  Allow : option (ResponseWriter -> Request -> string -> ResponseWriter * bool)
}.

(** The options as the handler hands them to the renderer. *)
Definition dirOptions (options : Options) : DirOptions :=
  {| dir_IndexName := IndexName options;
     dir_PushTargets := PushTargets options;
     dir_PushTargetsRegexp := PushTargetsRegexp options;
     dir_Compress := Compress options;
     dir_ShowList := ShowList options;
     dir_Attachments := opt_Attachments options;
     dir_Allow := Allow options |}.

Section Server.

(** [http.ParseTime]: the time, or the message of the parse error. *)
Variable http_ParseTime : string -> Time + string.
(** [modtime.UTC().Format(http.TimeFormat)] *)
Variable http_TimeFormat : Time -> string.
(** [compress.NewResponseWriter(w, r, -1)]: the encoding of the writer it
    returns, or its error. *)
Variable compress_NewResponseWriter : Request -> result string.
(** [filepath.ToSlash] and the default listing renderer [DirList]. *)
Variable filepath_ToSlash : string -> string.
Variable default_DirList : DirListFunc.
(** [w.(http.Pusher)]: [None] when the writer cannot push, else what
    [Push(target, opts)] returns. *)
Variable pusher : option (string -> option (gmap string string) -> option error).

(** [checkIfModifiedSince(r, modtime)] *)
Definition checkIfModifiedSince (r : Request) (modtime : Time) : bool * option error :=
  if bool_decide (Method r ≠ MethodGet) && bool_decide (Method r ≠ MethodHead)
  then (false, Some (Errorf_w "method" errPreconditionFailed))
  else
    let ims := Header_Get (Header r) "If-Modified-Since" in
    if bool_decide (ims = "") || time.IsZero modtime
    then (false, Some (Errorf_w "zero time" errPreconditionFailed))
    else
      match http_ParseTime ims with
      | inr msg => (false, Some (time_ParseError msg))
      | inl t =>
          if time.Before (time.UTC modtime) (time.Add_Second t)
          then (false, None)
          else (true, None)
      end.

(** [writeLastModified] *)
Definition writeLastModified (w : ResponseWriter) (modtime : Time) : ResponseWriter :=
  if negb (time.IsZero modtime)
  then Header_Set "Last-Modified" (http_TimeFormat modtime) w
  else w.

(** The set-up of [FileServer] before the handler is built. *)
Definition FileServer_options (options : Options) : Options :=
  {| IndexName := if bool_decide (IndexName options ≠ "")
                  then prefix (IndexName options) "/" else IndexName options;
     PushTargets := fmap (M:=list) filepath_ToSlash <$> PushTargets options;
     PushTargetsRegexp := PushTargetsRegexp options;
     Compress := Compress options;
     ShowList := ShowList options;
     DirList := match DirList options with
                | None => if ShowList options then Some default_DirList else None
                | Some l => Some l
                end;
     opt_Attachments := opt_Attachments options;
     Allow := Allow options |}.

(** The loop over the literal push targets of the request path:
    [indexAsset[0]] on an empty target is an index out of range, which
    ends the run in a panic ([true]) after the pushes made so far; a
    target without leading slash is joined to the request URI; the loop
    stops at the first error of [Push]. *)
Fixpoint push_literal (push : string -> option (gmap string string) -> option error)
    (pushOpts : option (gmap string string)) (uri : string) (indexAssets : list string)
    : list (string * option (gmap string string)) * bool :=
  match indexAssets with
  | [] => ([], false)
  | indexAsset :: rest =>
      match GoString.bytes indexAsset with
      | [] => ([], true)
      | c :: _ =>
          let indexAsset :=
            if negb (GoString.is_slash c) then Path.Join uri indexAsset else indexAsset in
          match push indexAsset pushOpts with
          | Some _ => ([(indexAsset, pushOpts)], false)
          | None =>
              let '(pushed, panic) := push_literal push pushOpts uri rest in
              ((indexAsset, pushOpts) :: pushed, panic)
          end
      end
  end.

(** The loop over the names that match the pattern: it stops at the
    first error of [Push]. *)
Fixpoint push_assets (push : string -> option (gmap string string) -> option error)
    (pushOpts : option (gmap string string)) (targets : list string)
    : list (string * option (gmap string string)) :=
  match targets with
  | [] => []
  | t :: rest =>
      (t, pushOpts) ::
      match push t pushOpts with
      | Some _ => []
      | None => push_assets push pushOpts rest
      end
  end.

(** The index substitution: [(indexFound, info, f)]. *)
Definition substitute_index (open : string -> Request -> result File)
    (options : Options) (name : string) (r : Request) (info : FileInfo) (f : File)
    : bool * FileInfo * File :=
  if os_FileInfo.IsDir info && bool_decide (IndexName options ≠ "") then
    let index := GoString.TrimSuffix name "/" +:+ IndexName options in
    match open index r with
    | Ok fIndex =>
        match http_File.Stat fIndex with
        | Ok infoIndex => (true, infoIndex, fIndex)
        | Err _ => (false, info, f)
        end
    | Err _ => (false, info, f)
    end
  else (false, info, f).

(** The attachment block: the headers and the stream to serve. *)
Definition attach (options : Options) (indexFound : bool) (info : FileInfo)
    (f : File) (w : ResponseWriter) : ResponseWriter * content :=
  let a := opt_Attachments options in
  if negb indexFound && Enable a then
    let destName := os_FileInfo.Name info in
    let destName := match NameFunc a with
                    | Some nameFunc => nameFunc destName
                    | None => destName
                    end in
    let w := Header_Set "Content-Disposition" ("attachment;filename=" +:+ destName) w in
    if 0 <? Limit a then (w, Content_rate f (Limit a) (Burst a))
    else (w, Content_file f)
  else (w, Content_file f).

(** The encoding block: the writer's headers and whether [w] becomes
    the compressing writer. *)
Definition encode (options : Options) (r : Request) (f : File) (w : ResponseWriter)
    : ResponseWriter * option string * string :=
  let '(encoding, isCached) := GetEncoding (Some f) in
  if isCached then
    if bool_decide (encoding ≠ "") then (AddCompressHeaders encoding w, None, encoding)
    else (w, None, encoding)
  else if Compress options then
    match compress_NewResponseWriter r with
    | Ok enc => (w, Some enc, encoding)
    | Err _ => (w, None, encoding)
    end
  else (w, None, encoding).

(** The push block: the pushes made and whether the block ended in a
    panic.  [None] when the walk of [findNames] runs out of fuel. *)
Definition push_targets (fuel : nat) (fs : FileSystem) (options : Options)
    (r : Request) (name : string) (indexFound : bool) (encoding : string)
    : option (list (string * option (gmap string string)) * bool) :=
  match pusher with
  | Some push =>
      if (bool_decide (PushTargets options ≠ ∅) || bool_decide (PushTargetsRegexp options ≠ ∅))
         && indexFound && negb (Enable (opt_Attachments options))
      then
        let pushOpts := if bool_decide (encoding ≠ "") then Some (Header r) else None in
        let '(literal, panic) :=
          match PushTargets options !! URL_Path r with
          | Some indexAssets => push_literal push pushOpts (RequestURI r) indexAssets
          | None => ([], false)
          end in
        if panic then Some (literal, true)
        else
          match PushTargetsRegexp options !! URL_Path r with
          | Some regex =>
              let prefixURL := GoString.TrimSuffix (RequestURI r) name in
              let prefixURL := if bool_decide (prefixURL = "") then "/" else prefixURL in
              match findNames fuel fs name with
              | None => None
              | Some (Err _) => Some (literal, false)
              | Some (Ok names) =>
                  Some (literal ++
                        push_assets push pushOpts
                          (map (Path.Join prefixURL)
                             (filter (fun indexAsset =>
                                        negb (GoString.HasSuffix ("/" +:+ indexAsset) (IndexName options))
                                        && regex indexAsset) names)),
                        false)
              end
          | None => Some (literal, false)
          end
      else Some ([], false)
  | None => Some ([], false)
  end.

(** [open]: the [Ropen] of [fs] when it has one, else its [Open]. *)
Definition opener (fs : FileSystem) (ropen : option (string -> Request -> result File))
    : string -> Request -> result File :=
  match ropen with
  | Some ro => ro
  | None => fun name _ => fs name
  end.

(** [r.URL.Path = name] *)
Definition with_Path (r : Request) (name : string) : Request :=
  {| Method := Method r; URL_Path := name; URL_RawQuery := URL_RawQuery r;
     RequestURI := RequestURI r; Header := Header r |}.

(** The handler that [FileServer(fs, options)] builds, run on one
    request; [options] are the options after [FileServer_options], which
    put a listing renderer there once [ShowList] is set: the call of a
    nil renderer is a panic. *)
Definition handler (fuel : nat) (fs : FileSystem)
    (ropen : option (string -> Request -> result File)) (options : Options)
    (w : ResponseWriter) (r : Request) : option outcome :=
  let open := opener fs ropen in
  let name := prefix (URL_Path r) "/" in
  let r := with_Path r name in
  match open name r with
  | Err _ => Some (finish (WriteHeader StatusNotFound w))
  | Ok f =>
      match http_File.Stat f with
      | Err _ => Some (finish (WriteHeader StatusNotFound w))
      | Ok info =>
          let '(indexFound, info, f) := substitute_index open options name r info f in
          if os_FileInfo.IsDir info then
            if negb (ShowList options) then Some (finish (WriteHeader StatusNotFound w))
            else
              match checkIfModifiedSince r (os_FileInfo.ModTime info) with
              | (false, None) => Some (finish (writeNotModified w))
              | _ =>
                  let w := writeLastModified w (os_FileInfo.ModTime info) in
                  match DirList options with
                  | None => Some (panicked w [])
                  | Some list =>
                      match list w r (dirOptions options) (os_FileInfo.Name info) f with
                      | (w, Some _) => Some (finish (WriteHeader StatusInternalServerError w))
                      | (w, None) => Some (finish w)
                      end
                  end
              end
          else if bool_decide (IndexName options ≠ "")
                  && GoString.HasSuffix name (IndexName options)
          then Some (finish (localRedirect w r "./"))
          else
            let '(w, allowed) := match Allow options with
                                 | Some allow => allow w r name
                                 | None => (w, true)
                                 end in
            if negb allowed then Some (finish w)
            else
              let '(w, content) := attach options indexFound info f w in
              let '(w, compressing, encoding) := encode options r f w in
              match push_targets fuel fs options r name indexFound encoding with
              | None => None
              | Some (pushed, true) => Some (panicked w pushed)
              | Some (pushed, false) =>
                  Some {| o_w := w;
                          o_pushed := pushed;
                          o_served := Some {| sc_compress := compressing;
                                              sc_name := os_FileInfo.Name info;
                                              sc_modtime := os_FileInfo.ModTime info;
                                              sc_content := content |};
                          o_panic := false |}
              end
      end
  end.

(** [FileServer(fs, options)], run on one request. *)
Definition FileServer (fuel : nat) (fs : FileSystem)
    (ropen : option (string -> Request -> result File)) (options : Options)
    (w : ResponseWriter) (r : Request) : option outcome :=
  handler fuel fs ropen (FileServer_options options) w r.

End Server.

(** ** The sample cache *)

(** The names that a directory of the cache lists. *)
Definition listing (c : cacheFS) (name : string) : option (result (list string)) :=
  match Open 2 c name with
  | Some (Ok f) => Some (map os_FileInfo.Name <$> http_File.Readdir f)
  | Some (Err e) => Some (Err e)
  | None => None
  end.

Definition sample_options : CacheOptions :=
  {| CompressMinSize := 3;
     CompressIgnore := Some (fun name => GoString.HasSuffix name ".jpg");
     Encodings := ["gzip"; "brotli"] |}.

Definition sample_cache (c_first : bool) : option (result cacheFS) :=
  Cache Sample.codec Sample.no_unicode 10 (Sample.tree c_first) sample_options.

(** The cache of the sample tree, as [Cache] computes it. *)
Definition sample_cacheFS : cacheFS :=
  Eval vm_compute in
    match sample_cache false with
    | Some (Ok c) => c
    | _ => {| c_n := O; c_dirs := ∅; c_files := ∅; c_algs := [] |}
    end.

Definition sample_request : Request :=
  {| Method := "GET"; URL_Path := "/a/c/d.txt"; URL_RawQuery := "";
     RequestURI := "/a/c/d.txt"; Header := {[ "Accept-Encoding" := "gzip" ]} |}.

(** A negotiation that takes the first offer when the request accepts
    anything. *)
Definition sample_negotiate (r : Request) (offers : list string) : string * option error :=
  match Header r !! "Accept-Encoding", offers with
  | Some _, offer :: _ => (offer, None)
  | _, _ => ("", Some (ext_error "compress: no acceptable encoding"))
  end.

(** The store entry of /a/c/d.txt, three bytes long, and what [Open]
    returns for it. *)
Definition sample_entry : file :=
  Eval vm_compute in
    default (newFile "" (newFileInfo "" 0 (mkTime 0 0)) ∅)
      (c_files sample_cacheFS !! "/a/c/d.txt").

Definition sample_opened : File :=
  Eval vm_compute in
    match Open 2 sample_cacheFS "/a/c/d.txt" with
    | Some (Ok f) => f
    | _ => File_file sample_entry
    end.

(** The [Ropen] of the sample cache as [FileServer] sees it. *)
Definition sample_ropen (name : string) (r : Request) : result File :=
  match Ropen sample_negotiate 2 sample_cacheFS name r with
  | Some answer => answer
  | None => Err (ext_error "no answer")
  end.

(** A provider with an index file in a directory: /app2/index.html. *)
Definition sample_site : FileSystem := fun name =>
  if bool_decide (name = "/") then
    Ok (File_provider (Sample.folder "/" [Sample.dir_info "app2"]))
  else if bool_decide (name = "/app2") then
    Ok (File_provider (Sample.folder "app2" [Sample.reg_info "index.html" 2]))
  else if bool_decide (name = "/app2/index.html") then
    Ok (File_provider (Sample.reg "index.html" Sample.hello))
  else Err os_ErrNotExist.

(** A provider with a file whose name ends with the letters of the
    index name: /app2/myindex.html. *)
Definition sample_myindex_site : FileSystem := fun name =>
  if bool_decide (name = "/") then
    Ok (File_provider (Sample.folder "/" [Sample.dir_info "app2"]))
  else if bool_decide (name = "/app2") then
    Ok (File_provider (Sample.folder "app2" [Sample.reg_info "myindex.html" 2]))
  else if bool_decide (name = "/app2/myindex.html") then
    Ok (File_provider (Sample.reg "myindex.html" Sample.hello))
  else Err os_ErrNotExist.

Definition sample_myindex_request : Request :=
  {| Method := "GET"; URL_Path := "/app2/myindex.html"; URL_RawQuery := "";
     RequestURI := "/app2/myindex.html"; Header := ∅ |}.

Definition sample_index_request : Request :=
  {| Method := "GET"; URL_Path := "/app2/index.html"; URL_RawQuery := "x=1";
     RequestURI := "/app2/index.html?x=1"; Header := ∅ |}.

Definition sample_Options : Options :=
  {| IndexName := "index.html";
     PushTargets := ∅;
     PushTargetsRegexp := ∅;
     Compress := true;
     ShowList := false;
     DirList := None;
     opt_Attachments := {| Enable := false; Limit := 0; Burst := 0; NameFunc := None |};
     Allow := None |}.

Definition sample_writer : ResponseWriter := {| w_Header := ∅; w_status := None |}.

(** Collaborators of the server for the samples: no date parses, times
    print as nothing, the compressing writer always picks gzip, paths are
    slash paths already, the listing renderer writes nothing. *)
Definition sample_ParseTime (s : string) : Time + string := inr s.
Definition sample_TimeFormat (t : Time) : string := "".
Definition sample_NewResponseWriter (r : Request) : result string := Ok "gzip".
Definition sample_ToSlash (s : string) : string := s.
Definition sample_DirList : DirListFunc := fun w _ _ _ _ => (w, None).

Definition sample_serve (fs : FileSystem)
    (ropen : option (string -> Request -> result File))
    (w : ResponseWriter) (r : Request) : option outcome :=
  FileServer sample_ParseTime sample_TimeFormat sample_NewResponseWriter
    sample_ToSlash sample_DirList None 10 fs ropen sample_Options w r.

(** The run of the server over the sample cache on [sample_request]. *)
Definition sample_outcome : outcome :=
  Eval vm_compute in
    default (finish sample_writer)
      (sample_serve (Sample.tree false) (Some sample_ropen) sample_writer sample_request).

Definition sample_call : ServeCall :=
  Eval vm_compute in
    default {| sc_compress := None; sc_name := ""; sc_modtime := mkTime 0 0;
               sc_content := Content_file sample_opened |}
      (o_served sample_outcome).

(** Key comparisons of a sort by a numeric key. *)
Definition key_less {A : Type} (key : A -> nat) (a b : A) : bool := (key a <? key b)%nat.
Definition key_ge {A : Type} (key : A -> nat) (a b : A) : Prop := (key b <= key a)%nat.

(** ** Names for the loops inside the functions above *)

(** The inner loop of [toBaseName_rev]: the bytes before the first
    separator. *)
Fixpoint until_separator (l : list ascii) : list ascii :=
  match l with
  | [] => []
  | x :: l' => if is_separator x then [] else x :: until_separator l'
  end.

(** The loop of [findNames] over the entries of one directory, [rec]
    being the walk of a child. *)
Fixpoint findNames_children (rec : string -> option (result (list string)))
    (name : string) (infos : list FileInfo) (files : list string)
    : option (result (list string)) :=
  match infos with
  | [] => Some (Ok files)
  | info :: infos' =>
      let filename := toBaseName (os_FileInfo.Name info) in
      let fullname := Path.Join name filename in
      if bool_decide (fullname = name) then findNames_children rec name infos' files
      else
        match rec fullname with
        | None => None
        | Some (Err e) => Some (Err e)
        | Some (Ok rfiles) => findNames_children rec name infos' (files ++ rfiles)
        end
  end.

(** A string that starts with a slash. *)
Definition rooted (name : string) : Prop := GoString.HasPrefix name "/" = true.

(** A path that the provider opens as something that is not a directory. *)
Definition opens_as_file (fs : FileSystem) (name : string) : Prop :=
  exists f info, fs name = Ok f /\ http_File.Stat f = Ok info /\
                 os_FileInfo.IsDir info = false.

Definition no_separator (l : list ascii) : Prop :=
  forallb (fun c => negb (is_separator c)) l = true.

(** What [Stat] of the provider says about a path. *)
Definition provider_stat (fs : FileSystem) (name : string) : result FileInfo :=
  f ← fs name; http_File.Stat f.

(** The [*fileInfo] that [findDirs] and [cacheFiles] make for a name. *)
Definition cached_info (fs : FileSystem) (name : string) : option fileInfo :=
  match provider_stat fs name with
  | Ok inf => Some (newFileInfo (Path.Base name) (os_FileInfo.Mode inf)
                      (os_FileInfo.ModTime inf))
  | Err _ => None
  end.

(** The [*fileInfo] children of a directory, and the keys of its [*dir]
    children, each in the order of [children]. *)
Definition file_children (d : dir) : list fileInfo :=
  omap (fun c => match c with Child_fileInfo fi => Some fi | Child_dir _ => None end)
    (d_children d).

Definition dir_children (d : dir) : list string :=
  omap (fun c => match c with Child_dir key => Some key | Child_fileInfo _ => None end)
    (d_children d).

(** The fields of a directory that [findDirs] sets once. *)
Definition dir_header (d : dir) : fileInfo * string * string :=
  (d_FileInfo d, d_name d, d_baseName d).

(** What one round of [findDirs] for a file of directory [dirName] does
    to the entry stored under [k]. *)
Definition findDirs_touch (dirName : string) (fi : fileInfo) (k : string) (d : dir) : dir :=
  let d := if decide (Path.Dir dirName = k)
           then append_child (Child_dir dirName) d else d in
  if decide (dirName = k) then append_child (Child_fileInfo fi) d else d.

(** Every [*dir] child of an entry is the entry of a directory whose
    [path.Dir] is the entry's path. *)
Definition children_sound (dirs : gmap string dir) : Prop :=
  forall k d k', dirs !! k = Some d -> Child_dir k' ∈ d_children d ->
    Path.Dir k' = k /\ is_Some (dirs !! k').

(** The options with another access predicate. *)
Definition with_Allow (options : Options)
    (allow : option (ResponseWriter -> Request -> string -> ResponseWriter * bool))
    : Options :=
  {| IndexName := IndexName options;
     PushTargets := PushTargets options;
     PushTargetsRegexp := PushTargetsRegexp options;
     Compress := Compress options;
     ShowList := ShowList options;
     DirList := DirList options;
     opt_Attachments := opt_Attachments options;
     Allow := allow |}.

(** ** [FormatBytes]: the choice of the unit *)

(** An int64 result, wrapped as the machine wraps it. *)
Definition int64 (z : Z) : Z := (z + 2 ^ 63) mod 2 ^ 64 - 2 ^ 63.

(** The bytes of the unit table "kMGTPE". *)
Definition unit_letters : list ascii :=
  ["k"; "M"; "G"; "T"; "P"; "E"]%char.

(** What [FormatBytes] hands to the formatter: the number itself below
    1000 ("%d B"), else the number, its divisor and the unit letter
    ("%.1f %cB" of the quotient); [Format_panic] is the index past the
    end of the unit table. *)
Inductive format : Type :=
  | Format_bytes (b : Z)
  | Format_scaled (b div : Z) (unit : ascii)
  | Format_panic.

(** [for n := b / unit; n >= unit; n /= unit { div *= unit; exp++ }];
    [None] is "fuel used up". *)
Fixpoint FormatBytes_loop (fuel : nat) (n div : Z) (exp : nat) : option (Z * nat) :=
  match fuel with
  | O => None
  | S fuel' =>
      if 1000 <=? n
      then FormatBytes_loop fuel' (int64 (Z.quot n 1000)) (int64 (div * 1000)) (S exp)
      else Some (div, exp)
  end.

Definition FormatBytes (fuel : nat) (b : Z) : option format :=
  if b <? 1000 then Some (Format_bytes b)
  else
    match FormatBytes_loop fuel (int64 (Z.quot b 1000)) 1000 O with
    | None => None
    | Some (div, exp) =>
        Some (match unit_letters !! exp with
              | Some c => Format_scaled b div c
              | None => Format_panic
              end)
    end.

(** ** Further samples *)

Definition sample_names : list string := ["/a/b.txt"; "/a/c/d.txt"].

(** The directory /a of the sample cache, and the file that [Open]
    returns for /a/c/d.txt. *)
Definition sample_dir_a : dir :=
  Eval vm_compute in
    default (newDir (newFileInfo "" 0 (mkTime 0 0)) "") (c_dirs sample_cacheFS !! "/a").

Definition sample_served : file :=
  Eval vm_compute in
    match sample_opened with
    | File_file g => g
    | _ => sample_entry
    end.

(** Options with an encoding that the sample registry does not know. *)
Definition sample_bad_options : CacheOptions :=
  {| CompressMinSize := 0; CompressIgnore := None; Encodings := ["lzma"] |}.

(** The sample server with other options and a writer that may push. *)
Definition sample_server
    (pusher : option (string -> option (gmap string string) -> option error))
    (fs : FileSystem) (ropen : option (string -> Request -> result File))
    (options : Options) (w : ResponseWriter) (r : Request) : option outcome :=
  FileServer sample_ParseTime sample_TimeFormat sample_NewResponseWriter
    sample_ToSlash sample_DirList pusher 10 fs ropen options w r.

Definition sample_pusher : option (string -> option (gmap string string) -> option error) :=
  Some (fun _ _ => None).

Definition sample_push_Options : Options :=
  {| IndexName := "index.html";
     PushTargets := {[ "/app2" := ["main.js"] ]};
     PushTargetsRegexp := ∅;
     Compress := false;
     ShowList := false;
     DirList := None;
     opt_Attachments := {| Enable := false; Limit := 0; Burst := 0; NameFunc := None |};
     Allow := None |}.

(** The same with an empty literal target after the first. *)
Definition sample_panic_Options : Options :=
  {| IndexName := "index.html";
     PushTargets := {[ "/app2" := ["main.js"; ""] ]};
     PushTargetsRegexp := ∅;
     Compress := false;
     ShowList := false;
     DirList := None;
     opt_Attachments := {| Enable := false; Limit := 0; Burst := 0; NameFunc := None |};
     Allow := None |}.

Definition sample_attach_Options : Options :=
  {| IndexName := "index.html";
     PushTargets := ∅;
     PushTargetsRegexp := ∅;
     Compress := false;
     ShowList := true;
     DirList := None;
     opt_Attachments := {| Enable := true; Limit := 50; Burst := 100; NameFunc := None |};
     Allow := None |}.

Definition sample_deny : ResponseWriter -> Request -> string -> ResponseWriter * bool :=
  fun w _ _ => (WriteHeader 403 w, false).

Definition sample_deny_Options : Options := with_Allow sample_attach_Options (Some sample_deny).

Definition sample_dir_request : Request :=
  {| Method := "GET"; URL_Path := "/app2"; URL_RawQuery := "";
     RequestURI := "/app2"; Header := ∅ |}.

Definition sample_file_request : Request :=
  {| Method := "GET"; URL_Path := "/a/b.txt"; URL_RawQuery := "";
     RequestURI := "/a/b.txt"; Header := ∅ |}.

Definition sample_list_request : Request :=
  {| Method := "GET"; URL_Path := "/a"; URL_RawQuery := "";
     RequestURI := "/a"; Header := ∅ |}.

Definition sample_missing_request : Request :=
  {| Method := "GET"; URL_Path := "/missing"; URL_RawQuery := "";
     RequestURI := "/missing"; Header := ∅ |}.

Definition sample_index_file : File := File_provider (Sample.reg "index.html" Sample.hello).
Definition sample_index_info : FileInfo :=
  FI_provider (mkProviderInfo "index.html" 2 420 Sample.mtime false).
Definition sample_app2 : File :=
  File_provider (Sample.folder "app2" [Sample.reg_info "index.html" 2]).
Definition sample_app2_info : FileInfo := FI_provider (Sample.dir_info "app2").
Definition sample_b_file : File := File_provider (Sample.reg "b.txt" Sample.hello).
Definition sample_b_info : FileInfo :=
  FI_provider (mkProviderInfo "b.txt" 2 420 Sample.mtime false).
Definition sample_a : File :=
  File_provider (Sample.folder "a" [Sample.reg_info "b.txt" 2; Sample.dir_info "c"]).
Definition sample_a_info : FileInfo := FI_provider (Sample.dir_info "a").

(** The runs of the sample server on a directory with an index file. *)
Definition sample_push_outcome : outcome :=
  Eval vm_compute in
    default (finish sample_writer)
      (sample_server sample_pusher sample_site None sample_push_Options sample_writer
         sample_dir_request).

Definition sample_panic_outcome : outcome :=
  Eval vm_compute in
    default (finish sample_writer)
      (sample_server sample_pusher sample_site None sample_panic_Options sample_writer
         sample_dir_request).

Definition sample_index_outcome : outcome :=
  Eval vm_compute in
    default (finish sample_writer)
      (sample_server None sample_site None sample_attach_Options sample_writer
         sample_dir_request).

Definition sample_index_call : ServeCall :=
  Eval vm_compute in
    default {| sc_compress := None; sc_name := ""; sc_modtime := mkTime 0 0;
               sc_content := Content_file sample_index_file |}
      (o_served sample_index_outcome).

(** * Properties *)

(** ** The order in which [Cache] hands the names on *)

Definition slashes (name : string) : nat := GoString.count_slash name.

(** Deepest first: no path has fewer slashes than its successor. *)
Definition deepest_first (names : list string) : Prop :=
  forall (i : nat) (a b : string),
    names !! i = Some a -> names !! S i = Some b -> (slashes b <= slashes a)%nat.

(** Shallowest first: no path has more slashes than its successor. *)
Definition shallowest_first (names : list string) : Prop :=
  forall (i : nat) (a b : string),
    names !! i = Some a -> names !! S i = Some b -> (slashes a <= slashes b)%nat.

Section SortSliceFacts.
Context {A : Type} (key : A -> nat).

Abbreviation less := (key_less key).
Abbreviation ge := (key_ge key).

Lemma insert_back_Permutation (x : A) (l : list A) :
  Permutation (insert_back less x l) (x :: l).
Proof.
  induction l as [|y ys IH]; simpl; [reflexivity|].
  destruct (less x y); [|reflexivity].
  rewrite IH. apply perm_swap.
Qed.

Lemma sort_Slice_Permutation (l : list A) : Permutation (sort_Slice less l) l.
Proof.
  unfold sort_Slice. rewrite reverse_Permutation.
  assert (G : forall acc, Permutation (fold_left (fun acc x => insert_back less x acc) l acc)
                            (l ++ acc)).
  { induction l as [|x l IH]; intros acc; simpl; [reflexivity|].
    rewrite IH, insert_back_Permutation. symmetry. apply Permutation_middle. }
  rewrite G, app_nil_r. reflexivity.
Qed.

Lemma insert_back_HdRel (x y : A) (l : list A) :
  ge y x -> HdRel ge y l -> HdRel ge y (insert_back less x l).
Proof.
  intros Hx Hl. destruct l as [|z zs]; simpl; [by constructor|].
  destruct (less x z); constructor; [by inversion Hl | done].
Qed.

Lemma insert_back_Sorted (x : A) (l : list A) :
  Sorted ge l -> Sorted ge (insert_back less x l).
Proof.
  induction 1 as [|y ys Hs IH Hd]; simpl; [by repeat constructor|].
  destruct (less x y) eqn:E; unfold less in E.
  - constructor; [done|]. apply insert_back_HdRel; [|done].
    apply Nat.ltb_lt in E. unfold ge. lia.
  - constructor; [by constructor|]. constructor.
    apply Nat.ltb_ge in E. done.
Qed.

Lemma fold_insert_back_Sorted (l acc : list A) :
  Sorted ge acc -> Sorted ge (fold_left (fun acc x => insert_back less x acc) l acc).
Proof.
  revert acc. induction l as [|x l IH]; intros acc Hacc; simpl; [done|].
  apply IH, insert_back_Sorted, Hacc.
Qed.

Lemma Sorted_adjacent (l : list A) (i : nat) (a b : A) :
  Sorted ge l -> l !! i = Some a -> l !! S i = Some b -> ge a b.
Proof.
  intros Hs. revert i. induction Hs as [|y ys Hs IH Hd]; intros i Ha Hb; [done|].
  destruct i as [|i]; simpl in *.
  - inversion Ha; subst. destruct ys as [|z zs]; [done|].
    simpl in Hb. inversion Hb; subst. by inversion Hd.
  - by apply (IH i).
Qed.

(** After [sort.Slice] with [less], keys never go down from one element
    to the next. *)
Lemma sort_Slice_adjacent (l : list A) (i : nat) (a b : A) :
  sort_Slice less l !! i = Some a -> sort_Slice less l !! S i = Some b ->
  (key a <= key b)%nat.
Proof.
  unfold sort_Slice.
  set (acc := fold_left _ l []).
  assert (Hs : Sorted ge acc) by (apply fold_insert_back_Sorted; constructor).
  intros Ha Hb.
  assert (Hlen : (S i < length acc)%nat).
  { apply lookup_lt_Some in Hb. by rewrite length_reverse in Hb. }
  rewrite reverse_lookup in Ha by lia.
  rewrite reverse_lookup in Hb by lia.
  replace (length acc - S i)%nat with (S (length acc - S (S i))) in Ha by lia.
  exact (Sorted_adjacent acc _ b a Hs Hb Ha).
Qed.
End SortSliceFacts.

(** Whatever order [sort.Slice] gives to names of equal slash count, a
    result in which no later name is [less] than an earlier one is
    shallowest first. *)
Lemma sorted_by_names_less_shallowest_first (out : list string) :
  (forall i j a b, (i < j)%nat -> out !! i = Some a -> out !! j = Some b ->
     names_less b a = false) ->
  shallowest_first out.
Proof.
  intros H i a b Ha Hb. specialize (H i (S i) a b (Nat.lt_succ_diag_r i) Ha Hb).
  unfold names_less in H. apply Nat.ltb_ge in H. exact H.
Qed.

(** C2, as the code has it: [Cache] reorders the names it found so that
    the slash count never goes down from one path to the next, the
    shallowest paths first, and hands exactly the names it found, in that
    order, to the directory construction. *)
Theorem Cache_sorts_shallowest_first (names : list string) :
  Permutation (sort_names names) names /\ shallowest_first (sort_names names).
Proof.
  split.
  - apply (sort_Slice_Permutation slashes).
  - intros i a b Ha Hb. exact (sort_Slice_adjacent slashes names i a b Ha Hb).
Qed.

(** C2 as stated fails: of the two names found in the sample tree the
    sort puts the one with two slashes before the one with three. *)
Lemma Cache_sort_not_deepest_first :
  ~ deepest_first (sort_names ["/a/c/d.txt"; "/a/b.txt"]).
Proof.
  intros H. specialize (H O "/a/b.txt" "/a/c/d.txt" eq_refl eq_refl).
  vm_compute in H. lia.
Qed.

(** C1 on the code: over the provider that holds exactly /a/b.txt and
    /a/c/d.txt, in whichever order it lists /a, the cache is built, /a
    lists b.txt and c, /a/c lists d.txt, and the directory index has no
    entry for the root: opening "/" fails with [os.ErrNotExist]. *)
Theorem Cache_sample_tree_has_no_root (c_first : bool) :
  exists c : cacheFS,
    sample_cache c_first = Some (Ok c) /\
    listing c "/a" = Some (Ok ["b.txt"; "c"]) /\
    listing c "/a/c" = Some (Ok ["d.txt"]) /\
    c_dirs c !! "/" = None /\
    Open 2 c "/" = Some (Err os_ErrNotExist) /\
    listing c "/" = Some (Err os_ErrNotExist).
Proof.
  destruct c_first.
  - eexists. split; [vm_compute; reflexivity|].
    repeat split; vm_compute; reflexivity.
  - eexists. split; [vm_compute; reflexivity|].
    repeat split; vm_compute; reflexivity.
Qed.

(** ** What [cacheFiles] stores for a name *)

Lemma bind_Ok {A B : Type} (m : result A) (k : A -> result B) (b : B) :
  m ≫= k = Ok b -> exists a, m = Ok a /\ k a = Ok b.
Proof. destruct m as [a|e]; simpl; [eauto | discriminate]. Qed.

Ltac bind_inv H :=
  let a := fresh "x" in
  let Ha := fresh "Hx" in
  apply bind_Ok in H as (a & Ha & H).

Section CacheFilesFacts.
Variable compress_Write : string -> contents -> result contents.
Variable unicode_ToLower : string -> string.

Abbreviation ToLower := (strings_ToLower unicode_ToLower).
Abbreviation loop := (compress_loop compress_Write unicode_ToLower).
Abbreviation cache_entry := (cache_entry compress_Write unicode_ToLower).
Abbreviation variant_of := (variant_of compress_Write unicode_ToLower).

Lemma cacheFiles_step_entry fs algs m ign (list : fileMap) name :
  cacheFiles_step compress_Write unicode_ToLower fs algs m ign list name =
  (f ← cache_entry fs algs m ign name; Ok (<[name := f]> list)).
Proof.
  unfold cacheFiles_step, cache_entry.
  destruct (fs name) as [f|e]; simpl; [|done].
  destruct (http_File.Stat f) as [inf|e]; simpl; [|done].
  destruct (http_File.ReadAll f) as [c|e]; simpl; [|done].
  destruct (_ && _); [done|].
  destruct (matches ign name); [done|].
  destruct (loop algs c _); done.
Qed.

(** Every entry of the map that [cacheFiles] returns is the entry built
    for its key. *)
Lemma cacheFiles_loop_entries fs algs m ign names (list list' : fileMap) :
  cacheFiles_loop compress_Write unicode_ToLower fs names algs m ign list = Ok list' ->
  (forall name f, list !! name = Some f -> cache_entry fs algs m ign name = Ok f) ->
  forall name f, list' !! name = Some f -> cache_entry fs algs m ign name = Ok f.
Proof.
  revert list. induction names as [|n names IH]; intros list Hrun Hinv; simpl in Hrun.
  - by inversion Hrun; subst.
  - bind_inv Hrun. rewrite cacheFiles_step_entry in Hx. bind_inv Hx.
    inversion Hx; subst. apply (IH _ Hrun).
    intros name f. destruct (decide (n = name)) as [->|Hne].
    + rewrite lookup_insert_eq. by intros [= <-].
    + rewrite lookup_insert_ne by done. apply Hinv.
Qed.

Lemma cacheFiles_entries fs algs m ign names (list : fileMap) :
  cacheFiles compress_Write unicode_ToLower fs names algs m ign = Ok list ->
  forall name f, list !! name = Some f -> cache_entry fs algs m ign name = Ok f.
Proof.
  intros Hrun. apply (cacheFiles_loop_entries _ _ _ _ _ _ _ Hrun).
  intros name f. by rewrite lookup_empty.
Qed.

(** Keys present before the inner loop stay. *)
Lemma compress_loop_keeps algs c (m0 m : gmap string contents) k :
  loop algs c m0 = Ok m -> is_Some (m0 !! k) -> is_Some (m !! k).
Proof.
  revert m0. induction algs as [|alg algs IH]; intros m0 Hrun Hk; simpl in Hrun.
  - by inversion Hrun; subst.
  - bind_inv Hrun. apply (IH _ Hrun).
    destruct (decide (alg_key alg = k)) as [->|Hne].
    + rewrite lookup_insert_eq. eauto.
    + by rewrite lookup_insert_ne.
Qed.

(** Whatever the inner loop leaves in the map was there before or is
    the compression of [c] under its key. *)
Lemma compress_loop_origin algs c (m0 m : gmap string contents) k bs :
  loop algs c m0 = Ok m -> m !! k = Some bs ->
  m0 !! k = Some bs \/ (variant_of c k bs /\ exists alg, alg ∈ algs /\ k = alg_key alg).
Proof.
  revert m0. induction algs as [|alg algs IH]; intros m0 Hrun Hk; simpl in Hrun.
  - inversion Hrun; subst. by left.
  - bind_inv Hrun.
    destruct (IH _ Hrun Hk) as [Hin | (Hv & alg' & Hel & ->)].
    + destruct (decide (alg_key alg = k)) as [<-|Hne].
      * rewrite lookup_insert_eq in Hin. injection Hin as ->.
        right. split; [exact Hx|]. exists alg. split; [left|done].
      * rewrite lookup_insert_ne in Hin by done. by left.
    + right. split; [done|]. exists alg'. split; [by right|done].
Qed.

(** Every configured encoding has its variant after the inner loop. *)
Lemma compress_loop_all algs c (m0 m : gmap string contents) alg :
  loop algs c m0 = Ok m -> alg ∈ algs ->
  exists bs, m !! alg_key alg = Some bs /\ variant_of c (alg_key alg) bs.
Proof.
  revert m0. induction algs as [|a algs IH]; intros m0 Hrun Hel; simpl in Hrun.
  - by apply elem_of_nil in Hel.
  - bind_inv Hrun. apply elem_of_cons in Hel as [->|Hel].
    + destruct (compress_loop_keeps _ _ _ _ (alg_key a) Hrun) as [bs Hbs].
      { rewrite lookup_insert_eq. eauto. }
      exists bs. split; [done|].
      destruct (compress_loop_origin _ _ _ _ _ _ Hrun Hbs) as [Hin | [Hv _]]; [|done].
      rewrite lookup_insert_eq in Hin. injection Hin as ->. exact Hx.
    + by apply (IH _ Hrun).
Qed.

(** The three ways a store entry comes out of one round. *)
Lemma cache_entry_cases fs algs m ign name f :
  cache_entry fs algs m ign name = Ok f ->
  exists c, provider_contents fs name = Ok c /\ f_name f = name /\
    ((0 <? m) && (Z.of_nat (length c) <? m) = true /\ f_algs f = {[ "" := c ]}
     \/ (0 <? m) && (Z.of_nat (length c) <? m) = false /\ matches ign name = true
        /\ f_algs f = {[ "" := c ]}
     \/ (0 <? m) && (Z.of_nat (length c) <? m) = false /\ matches ign name = false
        /\ loop algs c {[ "" := c ]} = Ok (f_algs f)).
Proof.
  unfold cache_entry, provider_contents. intros H.
  bind_inv H. bind_inv H. bind_inv H. rewrite Hx. simpl. exists x1.
  split; [done|].
  destruct (_ && _) eqn:Esize.
  { inversion H; subst; simpl. split; [done|]. left. done. }
  destruct (matches ign name) eqn:Eign.
  { inversion H; subst; simpl. split; [done|]. right; left. done. }
  bind_inv H. inversion H; subst; simpl. split; [done|]. right; right. done.
Qed.

End CacheFilesFacts.

Section CacheFacts.
Variable compress_Write : string -> contents -> result contents.
Variable unicode_ToLower : string -> string.
Variable compress_GetEncoding : Request -> list string -> string * option error.

Abbreviation build := (Cache compress_Write unicode_ToLower).

Lemma Cache_parts fuel fs options c :
  build fuel fs options = Some (Ok c) ->
  exists names,
    findDirs fs names = Ok (c_dirs c) /\
    cacheFiles compress_Write unicode_ToLower fs names (Encodings options)
      (CompressMinSize options) (CompressIgnore options) = Ok (c_files c) /\
    c_algs c = Encodings options.
Proof.
  unfold Cache. intros H.
  destruct (findNames fuel fs "/") as [[names|e]|]; [|done|done].
  injection H as H. bind_inv H. bind_inv H. inversion H; subst; simpl.
  eauto.
Qed.

Lemma Cache_entry fuel fs options c name f :
  build fuel fs options = Some (Ok c) ->
  c_files c !! name = Some f ->
  cache_entry compress_Write unicode_ToLower fs (Encodings options)
    (CompressMinSize options) (CompressIgnore options) name = Ok f.
Proof.
  intros Hc Hf. destruct (Cache_parts _ _ _ _ Hc) as (names & _ & Hfiles & _).
  exact (cacheFiles_entries _ _ _ _ _ _ _ _ Hfiles name f Hf).
Qed.

(** The empty name has a variant in every entry that [Cache] stores. *)
Lemma Cache_entry_has_original fuel fs options c name f :
  build fuel fs options = Some (Ok c) ->
  c_files c !! name = Some f ->
  is_Some (f_algs f !! "").
Proof.
  intros Hc Hf.
  destruct (cache_entry_cases _ _ _ _ _ _ _ _ (Cache_entry _ _ _ _ _ _ Hc Hf))
    as (orig & _ & _ & [(_ & ->) | [(_ & _ & ->) | (_ & _ & Hloop)]]).
  - rewrite lookup_singleton_eq. eauto.
  - rewrite lookup_singleton_eq. eauto.
  - apply (compress_loop_keeps _ _ _ _ _ _ _ Hloop).
    rewrite lookup_singleton_eq. eauto.
Qed.

(** [file.Get] answers within two calls once the empty name has a
    variant, and with the variant asked for when there is one. *)
Lemma file_Get_answers (n : nat) (f : file) (alg : string) (orig : contents) :
  f_algs f !! "" = Some orig ->
  exists g,
    file_Get (S (S n)) f alg = Some (Ok (File_file g)) /\
    f_name g = f_name f /\ f_info g = f_info f /\
    match f_algs f !! alg with
    | Some bs => f_alg g = alg /\ f_ReadSeeker g = Some bs
    | None => f_alg g = "" /\ f_ReadSeeker g = Some orig
    end.
Proof.
  intros Horig. simpl. destruct (f_algs f !! alg) as [bs|] eqn:E.
  - eexists. split; [reflexivity|]. simpl. auto.
  - destruct n; rewrite Horig; (eexists; split; [reflexivity|]); simpl; auto.
Qed.

Lemma alg_key_empty (alg : string) : alg_key alg = "" -> alg = "".
Proof. unfold alg_key. case_bool_decide; [discriminate | done]. Qed.

(** C4: in every entry that [Cache] stores, the empty name holds the
    bytes the provider gave for the file, whether or not the file was
    compressed, and every other name [a] of the variant map holds what
    the registry makes of those same bytes under [a], which
    [cacheFiles] passes to the registry in lower case.  The registry
    has no algorithm of the empty name, should the options list one. *)
Theorem Cache_variants_of_original fuel fs options c name f :
  ("" ∈ Encodings options -> forall x bs, compress_Write "" x <> Ok bs) ->
  build fuel fs options = Some (Ok c) ->
  c_files c !! name = Some f ->
  exists orig,
    provider_contents fs name = Ok orig /\
    f_algs f !! "" = Some orig /\
    forall a bs, a <> "" -> f_algs f !! a = Some bs ->
      compress_Write (strings_ToLower unicode_ToLower a) orig = Ok bs.
Proof.
  intros Hreg Hc Hf.
  destruct (cache_entry_cases _ _ _ _ _ _ _ _ (Cache_entry _ _ _ _ _ _ Hc Hf))
    as (orig & Horig & _ & [(_ & ->) | [(_ & _ & ->) | (_ & _ & Hloop)]]);
    exists orig; (split; [exact Horig|]).
  - split; [by rewrite lookup_singleton_eq|].
    intros a bs Ha. by rewrite lookup_singleton_ne.
  - split; [by rewrite lookup_singleton_eq|].
    intros a bs Ha. by rewrite lookup_singleton_ne.
  - split.
    + destruct (compress_loop_keeps _ _ _ _ _ _ "" Hloop) as [bs Hbs].
      { rewrite lookup_singleton_eq. eauto. }
      destruct (compress_loop_origin _ _ _ _ _ _ _ _ Hloop Hbs)
        as [Hin | (Hv & alg & Hel & Hkey)].
      * rewrite lookup_singleton_eq in Hin. by rewrite Hbs, Hin.
      * exfalso. symmetry in Hkey. apply alg_key_empty in Hkey. subst alg.
        exact (Hreg Hel _ _ Hv).
    + intros a bs Ha Hbs.
      destruct (compress_loop_origin _ _ _ _ _ _ _ _ Hloop Hbs) as [Hin | [Hv _]].
      * by rewrite lookup_singleton_ne in Hin.
      * exact Hv.
Qed.

(** C6: with a minimum size [m > 0] and an ignore pattern [p], a file of
    exactly [m] bytes whose path [p] does not match has a variant for
    every configured encoding, made of the file's bytes; a file of
    [m - 1] bytes has the uncompressed variant alone; and so has a file
    whose path matches [p], whatever its size. *)
Theorem Cache_thresholds fuel fs options c name f orig (p : string -> bool) :
  build fuel fs options = Some (Ok c) ->
  c_files c !! name = Some f ->
  provider_contents fs name = Ok orig ->
  CompressIgnore options = Some p ->
  0 < CompressMinSize options ->
  (Z.of_nat (length orig) = CompressMinSize options -> p name = false ->
     forall alg, alg ∈ Encodings options ->
       exists bs, f_algs f !! alg_key alg = Some bs /\
         compress_Write (strings_ToLower unicode_ToLower (alg_key alg)) orig = Ok bs)
  /\ (Z.of_nat (length orig) = CompressMinSize options - 1 ->
        f_algs f = {[ "" := orig ]})
  /\ (p name = true -> f_algs f = {[ "" := orig ]}).
Proof.
  intros Hc Hf Horig Hp Hm.
  pose proof (cache_entry_cases _ _ _ _ _ _ _ _ (Cache_entry _ _ _ _ _ _ Hc Hf))
    as (orig' & Horig' & _ & Hcases).
  rewrite Horig in Horig'. injection Horig' as <-.
  rewrite Hp in Hcases. simpl in Hcases.
  split; [|split].
  - intros Hlen Hno alg Hel.
    destruct Hcases as [(Hsz & _) | [(_ & Hyes & _) | (_ & _ & Hloop)]].
    + apply andb_true_iff in Hsz as [_ Hsz]. apply Z.ltb_lt in Hsz. lia.
    + congruence.
    + exact (compress_loop_all _ _ _ _ _ _ alg Hloop Hel).
  - intros Hlen.
    destruct Hcases as [(_ & ->) | [(Hsz & _) | (Hsz & _)]]; [done| |].
    + apply andb_false_iff in Hsz as [Hsz|Hsz];
        [apply Z.ltb_ge in Hsz | apply Z.ltb_ge in Hsz]; lia.
    + apply andb_false_iff in Hsz as [Hsz|Hsz];
        [apply Z.ltb_ge in Hsz | apply Z.ltb_ge in Hsz]; lia.
  - intros Hyes.
    destruct Hcases as [(_ & ->) | [(_ & _ & ->) | (_ & Hno & _)]]; [done|done|].
    congruence.
Qed.

(** C10: for a cache that [Cache] built, [file.Get] answers every
    algorithm name, within two calls and never with an error, with a
    file to serve: it keeps the name and the [os.FileInfo] of the entry,
    its [Stat] gives that [os.FileInfo], and it reads the variant of the
    name asked for when the entry has one; when it has none the answer
    is that of [Get("")], which reads the bytes kept under the empty
    name, there in every entry.  [Open] and [Ropen] answer a path of
    either index with a file whose [Stat] succeeds, and a path of
    neither index with [os.ErrNotExist]; they give no other error. *)
Theorem Cache_Get_Open_total fuel fs options c :
  build fuel fs options = Some (Ok c) ->
  (forall (n : nat) name f a, c_files c !! name = Some f ->
     exists orig g,
       f_algs f !! "" = Some orig /\
       file_Get (S (S n)) f a = Some (Ok (File_file g)) /\
       f_name g = f_name f /\ f_baseName g = f_baseName f /\
       http_File.Stat (File_file g) = Ok (FI_fileInfo (f_info f)) /\
       match f_algs f !! a with
       | Some bs => f_alg g = a /\ File_bytes (File_file g) = Ok bs
       | None =>
           file_Get (S (S n)) f a = file_Get (S n) f "" /\
           f_alg g = "" /\ File_bytes (File_file g) = Ok orig
       end)
  /\ (forall (n : nat) name r,
        let key := rooted_name name in
        (is_Some (c_dirs c !! key) \/ is_Some (c_files c !! key) ->
           (exists f info, Open (S (S n)) c name = Some (Ok f) /\
                           http_File.Stat f = Ok info) /\
           (exists f info, Ropen compress_GetEncoding (S (S n)) c name r = Some (Ok f) /\
                           http_File.Stat f = Ok info))
        /\ (c_dirs c !! key = None -> c_files c !! key = None ->
              Open (S (S n)) c name = Some (Err os_ErrNotExist) /\
              Ropen compress_GetEncoding (S (S n)) c name r = Some (Err os_ErrNotExist)))
  /\ (forall (n : nat) name r e,
        Open (S (S n)) c name = Some (Err e) \/
        Ropen compress_GetEncoding (S (S n)) c name r = Some (Err e) ->
        e = os_ErrNotExist /\
        c_dirs c !! rooted_name name = None /\ c_files c !! rooted_name name = None).
Proof.
  intros Hc.
  assert (HGet : forall (n : nat) name f a, c_files c !! name = Some f ->
            exists g, file_Get (S (S n)) f a = Some (Ok (File_file g))).
  { intros n name f a Hf.
    destruct (Cache_entry_has_original _ _ _ _ _ _ Hc Hf) as [orig Horig].
    destruct (file_Get_answers n f a orig Horig) as (g & Hg & _). eauto. }
  split; [|split].
  - intros n name f a Hf.
    destruct (Cache_entry_has_original _ _ _ _ _ _ Hc Hf) as [orig Horig].
    exists orig. cbn [file_Get]. destruct (f_algs f !! a) as [bs|] eqn:Ea.
    + eexists. split; [done|]. split; [reflexivity|]. simpl. done.
    + destruct n; rewrite Horig; (eexists; split; [done|]; split; [reflexivity|]);
        simpl; done.
  - intros n name r key. subst key. split.
    + intros Hin. unfold Open, Ropen.
      destruct (c_dirs c !! rooted_name name) as [d|] eqn:Ed.
      { split; eexists _, _; (split; [reflexivity|]); reflexivity. }
      destruct (c_files c !! rooted_name name) as [f|] eqn:Ef.
      2: { destruct Hin as [[? H]|[? H]]; discriminate H. }
      split.
      * destruct (HGet n _ f "" Ef) as [g Hg]. rewrite Hg.
        eexists _, _. split; reflexivity.
      * destruct (compress_GetEncoding r (c_algs c)) as [encoding err].
        destruct (HGet n _ f encoding Ef) as [g Hg]. rewrite Hg.
        eexists _, _. split; reflexivity.
    + intros Hd Hf. unfold Open, Ropen. by rewrite Hd, Hf.
  - intros n name r e. unfold Open, Ropen.
    destruct (c_dirs c !! rooted_name name) as [d|] eqn:Ed.
    { intros [H|H]; discriminate H. }
    destruct (c_files c !! rooted_name name) as [f|] eqn:Ef.
    + intros [H|H].
      * destruct (HGet n _ f "" Ef) as [g Hg]. rewrite Hg in H. discriminate H.
      * destruct (compress_GetEncoding r (c_algs c)) as [encoding err].
        destruct (HGet n _ f encoding Ef) as [g Hg]. rewrite Hg in H. discriminate H.
    + intros [H|H]; injection H as <-; done.
Qed.

(** C5: for a path that the cache holds as a file, [Ropen] asks the
    registry for an encoding among the configured ones.  When the answer
    is not empty and the file has a variant of that name, the file
    returned reads that variant and [GetEncoding] reports the name;
    otherwise it reads the variant of the empty name and [GetEncoding]
    reports the empty name. *)
Theorem Ropen_negotiated_variant (n : nat) (c : cacheFS) name r f orig :
  c_dirs c !! rooted_name name = None ->
  c_files c !! rooted_name name = Some f ->
  f_algs f !! "" = Some orig ->
  let encoding := (compress_GetEncoding r (c_algs c)).1 in
  exists g,
    Ropen compress_GetEncoding (S (S n)) c name r = Some (Ok g) /\
    (forall bs, encoding <> "" -> f_algs f !! encoding = Some bs ->
       File_bytes g = Ok bs /\ GetEncoding (Some g) = (encoding, true)) /\
    (encoding = "" \/ f_algs f !! encoding = None ->
       File_bytes g = Ok orig /\ GetEncoding (Some g) = ("", true)).
Proof.
  intros Hd Hf Horig encoding. unfold Ropen. rewrite Hd, Hf.
  subst encoding. destruct (compress_GetEncoding r (c_algs c)) as [encoding err].
  cbn [fst].
  destruct (file_Get_answers n f encoding orig Horig) as (g & Hg & _ & _ & Hcase).
  exists (File_file g). split; [exact Hg|]. split.
  - intros bs _ Hbs. rewrite Hbs in Hcase. destruct Hcase as [Halg Hread].
    unfold File_bytes. simpl. by rewrite Hread, Halg.
  - intros [-> | Hnone].
    + rewrite Horig in Hcase. destruct Hcase as [Halg Hread].
      unfold File_bytes. simpl. by rewrite Hread, Halg.
    + rewrite Hnone in Hcase. destruct Hcase as [Halg Hread].
      unfold File_bytes. simpl. by rewrite Hread, Halg.
Qed.

(** C9: whatever [Open] or [Ropen] of a cache returns, file or
    directory, its [Stat] succeeds and the [os.FileInfo] it gives
    reports size 0, whatever the length of the bytes the entry reads. *)
Theorem cache_Stat_Size_zero (fuel : nat) (c : cacheFS) name r (f : File) :
  Open fuel c name = Some (Ok f) \/
  Ropen compress_GetEncoding fuel c name r = Some (Ok f) ->
  exists info, http_File.Stat f = Ok info /\ os_FileInfo.Size info = 0.
Proof.
  assert (HGet : forall fuel' ff a g, file_Get fuel' ff a = Some (Ok g) ->
            exists info, http_File.Stat g = Ok info /\ os_FileInfo.Size info = 0).
  { induction fuel' as [|fuel' IH]; intros ff a g; simpl; [done|].
    destruct (f_algs ff !! a).
    - intros [= <-]. simpl. eauto.
    - apply IH. }
  unfold Open, Ropen. intros [H|H].
  - destruct (c_dirs c !! rooted_name name) as [d|].
    { injection H as <-. simpl. eauto. }
    destruct (c_files c !! rooted_name name) as [ff|]; [|done].
    exact (HGet _ _ _ _ H).
  - destruct (c_dirs c !! rooted_name name) as [d|].
    { injection H as <-. simpl. eauto. }
    destruct (c_files c !! rooted_name name) as [ff|]; [|done].
    destruct (compress_GetEncoding r (c_algs c)) as [encoding err].
    exact (HGet _ _ _ _ H).
Qed.

End CacheFacts.

(** ** The serving pipeline *)

Section ServerFacts.
Variable http_ParseTime : string -> Time + string.
Variable http_TimeFormat : Time -> string.
Variable compress_NewResponseWriter : Request -> result string.
Variable filepath_ToSlash : string -> string.
Variable default_DirList : DirListFunc.
Variable pusher : option (string -> option (gmap string string) -> option error).

Abbreviation check := (checkIfModifiedSince http_ParseTime).
Abbreviation setup := (FileServer_options filepath_ToSlash default_DirList).
Abbreviation serve :=
  (FileServer http_ParseTime http_TimeFormat compress_NewResponseWriter
     filepath_ToSlash default_DirList pusher).

(** [Before] on an instant moved by one second, in numbers. *)
Lemma Before_Add_Second (m t : Time) :
  time.Before (time.UTC m) (time.Add_Second t) = true <->
  t_sec m < t_sec t + 1 \/ (t_sec m = t_sec t + 1 /\ t_nsec m < t_nsec t).
Proof.
  unfold time.Before, time.UTC, time.Add_Second. simpl.
  rewrite orb_true_iff, andb_true_iff, !Z.ltb_lt, Z.eqb_eq. tauto.
Qed.



Lemma bytes_append (a b : string) :
  GoString.bytes (a +:+ b) = GoString.bytes a ++ GoString.bytes b.
Proof.
  induction a as [|c a IH]; [reflexivity|].
  change (c :: GoString.bytes (a +:+ b) = c :: (GoString.bytes a ++ GoString.bytes b)).
  by rewrite IH.
Qed.

Lemma of_bytes_append (a b : list ascii) :
  GoString.of_bytes (a ++ b) = GoString.of_bytes a +:+ GoString.of_bytes b.
Proof.
  induction a as [|c a IH]; [reflexivity|].
  change (String c (GoString.of_bytes (a ++ b))
          = String c (GoString.of_bytes a +:+ GoString.of_bytes b)).
  by rewrite IH.
Qed.

Lemma upto_last_slash_rev_app (e r : list ascii) :
  forallb (fun c => negb (GoString.is_slash c)) e = true ->
  Path.upto_last_slash_rev (e ++ GoString.slash :: r) = GoString.slash :: r.
Proof.
  induction e as [|c e IH]; simpl.
  - intros _. reflexivity.
  - intros H. apply andb_true_iff in H as [Hc He].
    destruct (GoString.is_slash c); [discriminate|]. exact (IH He).
Qed.

(** The reference "./" of the redirect names the directory of the request
    path, which is the path up to and including its last slash: for the
    request of the index file [base] in [d] that is [d] with its slash. *)
Lemma directory_of_index_request (d base : string) :
  forallb (fun c => negb (GoString.is_slash c)) (GoString.bytes base) = true ->
  (Path.Split (d +:+ "/" +:+ base)).1 = d +:+ "/".
Proof.
  intros Hbase. unfold Path.Split. cbn [fst].
  rewrite !bytes_append, !rev_app_distr. simpl.
  rewrite <- app_assoc. simpl.
  rewrite upto_last_slash_rev_app.
  2: { rewrite forallb_forall in *. intros c Hc. apply Hbase.
       apply in_rev. exact Hc. }
  simpl. rewrite rev_involutive, of_bytes_append.
  unfold GoString.of_bytes at 1. unfold GoString.bytes.
  rewrite string_of_list_ascii_of_string. reflexivity.
Qed.

(** The index name that the handler tests is the configured one with a
    leading slash. *)
Lemma FileServer_options_IndexName (options : Options) :
  IndexName options <> "" ->
  IndexName (setup options) = prefix (IndexName options) "/" /\
  IndexName (setup options) <> "".
Proof.
  intros Hname. simpl. rewrite bool_decide_eq_true_2 by done. split; [done|].
  unfold prefix. destruct (negb _); [done|exact Hname].
Qed.

(** C7: when the entry the handler holds after the index substitution is
    a file and the request path ends with the configured index name
    taken with its leading slash, which [FileServer] adds to a name that
    lacks it, the response is 301 with the Location header "./", the
    relative reference to the directory of the request path, followed
    by "?" and the raw query when there is one; nothing is pushed and
    [http.ServeContent] is not called. *)
Theorem index_request_is_redirected fuel fs ropen options w r f0 info0 :
  let options' := setup options in
  let name := prefix (URL_Path r) "/" in
  let r' := with_Path r name in
  opener fs ropen name r' = Ok f0 ->
  http_File.Stat f0 = Ok info0 ->
  os_FileInfo.IsDir (substitute_index (opener fs ropen) options' name r' info0 f0).1.2
    = false ->
  IndexName options <> "" ->
  GoString.HasSuffix name (prefix (IndexName options) "/") = true ->
  w_status w = None ->
  serve fuel fs ropen options w r =
    Some {| o_w := {| w_Header := <["Location" := "./" +:+ query_suffix r]> (w_Header w);
                      w_status := Some 301 |};
            o_pushed := [];
            o_served := None;
            o_panic := false |}.
Proof.
  intros options' name r' Hopen Hstat Hfile Hname Hsuffix Hfresh.
  destruct (FileServer_options_IndexName options Hname) as [Hindex Hname'].
  fold options' in Hindex, Hname'. rewrite <- Hindex in Hsuffix.
  unfold FileServer, handler. fold options' name r'.
  rewrite Hopen, Hstat.
  destruct (substitute_index (opener fs ropen) options' name r' info0 f0)
    as [[indexFound info] f]. simpl in Hfile. rewrite Hfile.
  rewrite Hsuffix. rewrite bool_decide_eq_true_2 by done. cbn [andb].
  unfold finish, localRedirect, WriteHeader, Header_Set, query_suffix. simpl.
  rewrite Hfresh. destruct (bool_decide (URL_RawQuery r ≠ "")); reflexivity.
Qed.

(** C7 as stated fails: with the index name configured as "index.html"
    the path /app2/myindex.html of a file ends with the configured name,
    and the file is served under its own name: no status is written
    before [http.ServeContent] and there is no Location header. *)
Lemma index_suffix_without_slash_is_served :
  exists info o call,
    provider_stat sample_myindex_site "/app2/myindex.html" = Ok info /\
    os_FileInfo.IsDir info = false /\
    GoString.HasSuffix "/app2/myindex.html" (IndexName sample_Options) = true /\
    sample_serve sample_myindex_site None sample_writer sample_myindex_request = Some o /\
    w_status (o_w o) <> Some StatusMovedPermanently /\
    w_Header (o_w o) !! "Location" = None /\
    o_served o = Some call /\
    sc_name call = "myindex.html" /\
    File_bytes (content_File (sc_content call)) = Ok Sample.hello.
Proof.
  eexists _, _, _. split; [vm_compute; reflexivity|].
  split; [reflexivity|]. split; [vm_compute; reflexivity|].
  split; [vm_compute; reflexivity|].
  split; [vm_compute; discriminate|].
  split; [vm_compute; reflexivity|].
  split; [vm_compute; reflexivity|].
  split; vm_compute; reflexivity.
Qed.

(** The file the handler holds after the index substitution is one that
    [open] returned. *)
Lemma substitute_index_opened (open : string -> Request -> result File)
    options name r info0 f0 :
  open name r = Ok f0 ->
  exists n, open n r = Ok (substitute_index open options name r info0 f0).2.
Proof.
  intros Hopen. unfold substitute_index.
  destruct (os_FileInfo.IsDir info0 && bool_decide (IndexName options ≠ ""));
    [|exists name; exact Hopen].
  destruct (open (GoString.TrimSuffix name "/" +:+ IndexName options) r)
    as [fi|e] eqn:Hi; [|exists name; exact Hopen].
  destruct (http_File.Stat fi); [eexists; exact Hi | exists name; exact Hopen].
Qed.

(** C8: whenever the handler reaches [http.ServeContent], the stream it
    serves reads a file that the provider's open returned for this
    request.  When [GetEncoding] reports that file as cached, the writer
    passed on is not a compressing writer, whatever [Options.Compress]
    is, and a recorded encoding that is not empty is the
    Content-Encoding header of the response.  The writer passed on is a
    compressing writer only for a file that is not cached, with
    [Options.Compress] set and [compress.NewResponseWriter] succeeding. *)
Theorem cached_file_is_served_as_stored fuel fs ropen options w r o call :
  serve fuel fs ropen options w r = Some o ->
  o_served o = Some call ->
  let f := content_File (sc_content call) in
  let r' := with_Path r (prefix (URL_Path r) "/") in
  (exists name, opener fs ropen name r' = Ok f)
  /\ (forall encoding, GetEncoding (Some f) = (encoding, true) ->
        sc_compress call = None /\
        (encoding <> "" -> w_Header (o_w o) !! "Content-Encoding" = Some encoding))
  /\ (forall enc, sc_compress call = Some enc ->
        GetEncoding (Some f) = ("", false) /\ Compress options = true /\
        compress_NewResponseWriter r' = Ok enc).
Proof.
  unfold FileServer, handler.
  set (options' := setup options). set (name := prefix (URL_Path r) "/").
  set (r' := with_Path r name). set (open := opener fs ropen).
  intros Hrun Hserved.
  destruct (open name r') as [f0|e] eqn:Hopen.
  2: { injection Hrun as <-. done. }
  destruct (http_File.Stat f0) as [info0|e] eqn:Hstat.
  2: { injection Hrun as <-. done. }
  pose proof (substitute_index_opened open options' name r' info0 f0 Hopen) as Hsub.
  destruct (substitute_index open options' name r' info0 f0)
    as [[indexFound info] f]. simpl in Hsub.
  destruct (os_FileInfo.IsDir info).
  { destruct (negb (ShowList options')); [injection Hrun as <-; done|].
    destruct (check r' (os_FileInfo.ModTime info)) as [[|] [err|]];
      try (destruct (DirList options') as [list|];
           [destruct (list _ _ _ _ _) as [w1 [err1|]]|]);
      injection Hrun as <-; done. }
  destruct (_ && _); [injection Hrun as <-; done|].
  destruct (match Allow options' with Some allow => allow w r' name | None => (w, true) end)
    as [w1 allowed].
  destruct allowed; simpl in Hrun; [|injection Hrun as <-; done].
  destruct (attach options' indexFound info f w1) as [w2 content0] eqn:Hatt.
  destruct (encode compress_NewResponseWriter options' r' f w2)
    as [[w3 compressing] encoding0] eqn:Henc.
  destruct (push_targets _ _ _ _ _ _ _ _) as [[pushed [|]]|];
    [injection Hrun as <-; done| |done].
  injection Hrun as <-. simpl in Hserved. injection Hserved as <-.
  cbn [sc_content sc_compress o_w].
  assert (Hf : content_File content0 = f).
  { unfold attach in Hatt. destruct (_ && _) in Hatt.
    - destruct (0 <? _) in Hatt; injection Hatt as _ <-; done.
    - injection Hatt as _ <-; done. }
  rewrite Hf. split; [exact Hsub|].
  unfold encode in Henc. destruct (GetEncoding (Some f)) as [enc0 isCached] eqn:Hget.
  destruct isCached.
  - destruct (bool_decide (enc0 ≠ "")) eqn:Hne; injection Henc as <- <- <-.
    + split.
      * intros encoding [= <-]. split; [done|]. intros _.
        unfold AddCompressHeaders, Header_Set. simpl. apply lookup_insert_eq.
      * intros enc H. done.
    + split.
      * intros encoding [= <-]. split; [done|].
        apply bool_decide_eq_false in Hne. intros H. by destruct Hne.
      * intros enc H. done.
  - assert (Henc0 : enc0 = "").
    { unfold GetEncoding in Hget. destruct f; by injection Hget as <-. }
    subst enc0. destruct (Compress options') eqn:Hcomp.
    + destruct (compress_NewResponseWriter r') as [enc1|e] eqn:Hnew;
        injection Henc as <- <- <-.
      * split; [intros encoding H; done|]. intros enc [= <-]. done.
      * split; [intros encoding H; done|]. intros enc H. done.
    + injection Henc as <- <- <-.
      split; [intros encoding H; done|]. intros enc H. done.
Qed.

End ServerFacts.

(** ** Which directories get an entry *)

Lemma findDirs_step_dom fs (dirs dirs' : gmap string dir) name :
  findDirs_step fs dirs name = Ok dirs' ->
  dom dirs' = {[ Path.Dir name ]} ∪ dom dirs.
Proof.
  unfold findDirs_step. intros H. bind_inv H. bind_inv H.
  injection H as <-. rewrite dom_alter_L.
  set (dirs1 := match dirs !! Path.Dir name with Some _ => dirs | None => _ end).
  assert (Hd1 : dom dirs1 = {[ Path.Dir name ]} ∪ dom dirs).
  { subst dirs1. destruct (dirs !! Path.Dir name) eqn:E.
    - symmetry. apply subseteq_union_1_L, singleton_subseteq_l, elem_of_dom. eauto.
    - apply dom_insert_L. }
  destruct (dirs1 !! Path.Dir (Path.Dir name)); [rewrite dom_alter_L|]; exact Hd1.
Qed.

Lemma findDirs_loop_dom fs names (dirs dirs' : gmap string dir) :
  findDirs_loop fs names dirs = Ok dirs' ->
  dom dirs' = list_to_set (Path.Dir <$> names) ∪ dom dirs.
Proof.
  revert dirs. induction names as [|n names IH]; intros dirs H; simpl in H.
  - injection H as <-. simpl. by rewrite (left_id_L ∅ (∪)).
  - bind_inv H. rewrite (IH _ H), (findDirs_step_dom _ _ _ _ Hx). simpl.
    rewrite (assoc_L (∪)). f_equal. apply (comm_L (∪)).
Qed.

(** The directories that [findDirs] gives an entry are exactly those with
    a file directly in them, the [path.Dir] of the names. *)
Lemma findDirs_dom fs names (dirs : gmap string dir) :
  findDirs fs names = Ok dirs ->
  dom dirs = list_to_set (Path.Dir <$> names).
Proof.
  intros H. rewrite (findDirs_loop_dom _ _ _ _ H), dom_empty_L.
  apply (right_id_L ∅ (∪)).
Qed.

(** ** The properties on the sample providers *)

(** Handed the same two names deepest first, [findDirs] would leave the
    directory c out of the listing of /a: the parent has to be there
    before the child is reached. *)
Lemma findDirs_deepest_first_misses_subdirectory :
  match findDirs (Sample.tree false) ["/a/c/d.txt"; "/a/b.txt"] with
  | Ok dirs =>
      listing {| c_n := 2; c_dirs := dirs; c_files := ∅; c_algs := [] |} "/a"
      = Some (Ok ["b.txt"])
  | Err _ => False
  end.
Proof. vm_compute. reflexivity. Qed.

Lemma Cache_variants_of_original_witness :
  ("" ∈ Encodings sample_options -> forall x bs, Sample.codec "" x <> Ok bs) /\
  sample_cache false = Some (Ok sample_cacheFS) /\
  c_files sample_cacheFS !! "/a/c/d.txt" = Some sample_entry /\
  exists orig,
    provider_contents (Sample.tree false) "/a/c/d.txt" = Ok orig /\
    f_algs sample_entry !! "" = Some orig /\
    forall a bs, a <> "" -> f_algs sample_entry !! a = Some bs ->
      Sample.codec (strings_ToLower Sample.no_unicode a) orig = Ok bs.
Proof.
  assert (H1 : "" ∈ Encodings sample_options -> forall x bs, Sample.codec "" x <> Ok bs).
  { intros _ x bs H. vm_compute in H. discriminate H. }
  assert (H2 : sample_cache false = Some (Ok sample_cacheFS)).
  { vm_compute. reflexivity. }
  assert (H3 : c_files sample_cacheFS !! "/a/c/d.txt" = Some sample_entry).
  { vm_compute. reflexivity. }
  split; [exact H1|]. split; [exact H2|]. split; [exact H3|].
  exact (Cache_variants_of_original Sample.codec Sample.no_unicode 10 (Sample.tree false)
           sample_options sample_cacheFS "/a/c/d.txt" sample_entry H1 H2 H3).
Defined.

Lemma Cache_thresholds_witness :
  sample_cache false = Some (Ok sample_cacheFS) /\
  c_files sample_cacheFS !! "/a/c/d.txt" = Some sample_entry /\
  provider_contents (Sample.tree false) "/a/c/d.txt" = Ok Sample.world /\
  Z.of_nat (length Sample.world) = CompressMinSize sample_options /\
  forall alg, alg ∈ Encodings sample_options ->
    exists bs, f_algs sample_entry !! alg_key alg = Some bs /\
      Sample.codec (strings_ToLower Sample.no_unicode (alg_key alg)) Sample.world = Ok bs.
Proof.
  assert (H1 : sample_cache false = Some (Ok sample_cacheFS)).
  { vm_compute. reflexivity. }
  assert (H2 : c_files sample_cacheFS !! "/a/c/d.txt" = Some sample_entry).
  { vm_compute. reflexivity. }
  assert (H3 : provider_contents (Sample.tree false) "/a/c/d.txt" = Ok Sample.world).
  { vm_compute. reflexivity. }
  assert (H4 : CompressIgnore sample_options
               = Some (fun name => GoString.HasSuffix name ".jpg")).
  { reflexivity. }
  assert (H5 : 0 < CompressMinSize sample_options).
  { vm_compute. reflexivity. }
  split; [exact H1|]. split; [exact H2|]. split; [exact H3|].
  split; [vm_compute; reflexivity|].
  apply (Cache_thresholds Sample.codec Sample.no_unicode 10 (Sample.tree false)
           sample_options sample_cacheFS "/a/c/d.txt" sample_entry Sample.world
           (fun name => GoString.HasSuffix name ".jpg") H1 H2 H3 H4 H5).
  - vm_compute. reflexivity.
  - vm_compute. reflexivity.
Defined.

Lemma Cache_Get_Open_total_witness :
  sample_cache false = Some (Ok sample_cacheFS) /\
  c_files sample_cacheFS !! "/a/c/d.txt" = Some sample_entry /\
  (exists g, file_Get 2 sample_entry "snappy" = Some (Ok (File_file g)) /\
             f_alg g = "" /\ File_bytes (File_file g) = Ok Sample.world) /\
  (exists g, file_Get 2 sample_entry "gzip" = Some (Ok (File_file g)) /\
             f_alg g = "gzip" /\ File_bytes (File_file g) = Ok (Byte.x01 :: Sample.world)) /\
  Open 2 sample_cacheFS "/" = Some (Err os_ErrNotExist).
Proof.
  assert (H1 : sample_cache false = Some (Ok sample_cacheFS)).
  { vm_compute. reflexivity. }
  assert (H2 : c_files sample_cacheFS !! "/a/c/d.txt" = Some sample_entry).
  { vm_compute. reflexivity. }
  destruct (Cache_Get_Open_total Sample.codec Sample.no_unicode sample_negotiate 10
              (Sample.tree false) sample_options sample_cacheFS H1) as (HGet & HOpen & _).
  split; [exact H1|]. split; [exact H2|]. split; [|split].
  - destruct (HGet O "/a/c/d.txt" sample_entry "snappy" H2)
      as (orig & g & Horig & Hg & _ & _ & _ & Hcase).
    exists g. split; [exact Hg|].
    change (f_algs sample_entry !! "snappy") with (@None contents) in Hcase.
    destruct Hcase as (_ & Halg & Hbytes). split; [exact Halg|].
    assert (Hw : f_algs sample_entry !! "" = Some Sample.world).
    { vm_compute. reflexivity. }
    rewrite Hw in Horig. injection Horig as <-. exact Hbytes.
  - destruct (HGet O "/a/c/d.txt" sample_entry "gzip" H2)
      as (orig & g & _ & Hg & _ & _ & _ & Hcase).
    exists g. split; [exact Hg|].
    change (f_algs sample_entry !! "gzip") with (Some (Byte.x01 :: Sample.world)) in Hcase.
    exact Hcase.
  - destruct (HOpen O "/" sample_request) as [_ Habsent].
    apply Habsent; vm_compute; reflexivity.
Defined.

Lemma Ropen_negotiated_variant_witness :
  c_dirs sample_cacheFS !! rooted_name "/a/c/d.txt" = None /\
  c_files sample_cacheFS !! rooted_name "/a/c/d.txt" = Some sample_entry /\
  f_algs sample_entry !! "" = Some Sample.world /\
  exists g,
    Ropen sample_negotiate 2 sample_cacheFS "/a/c/d.txt" sample_request = Some (Ok g) /\
    File_bytes g = Ok (Byte.x01 :: Sample.world) /\
    GetEncoding (Some g) = ("gzip", true).
Proof.
  assert (H1 : c_dirs sample_cacheFS !! rooted_name "/a/c/d.txt" = None).
  { vm_compute. reflexivity. }
  assert (H2 : c_files sample_cacheFS !! rooted_name "/a/c/d.txt" = Some sample_entry).
  { vm_compute. reflexivity. }
  assert (H3 : f_algs sample_entry !! "" = Some Sample.world).
  { vm_compute. reflexivity. }
  split; [exact H1|]. split; [exact H2|]. split; [exact H3|].
  destruct (Ropen_negotiated_variant sample_negotiate O sample_cacheFS "/a/c/d.txt"
              sample_request sample_entry Sample.world H1 H2 H3) as (g & Hg & Hyes & _).
  exists g. split; [exact Hg|].
  apply Hyes.
  - vm_compute. discriminate.
  - vm_compute. reflexivity.
Defined.

Lemma cache_Stat_Size_zero_witness :
  Open 2 sample_cacheFS "/a/c/d.txt" = Some (Ok sample_opened) /\
  File_bytes sample_opened = Ok Sample.world /\
  exists info, http_File.Stat sample_opened = Ok info /\ os_FileInfo.Size info = 0.
Proof.
  assert (H1 : Open 2 sample_cacheFS "/a/c/d.txt" = Some (Ok sample_opened)).
  { vm_compute. reflexivity. }
  split; [exact H1|]. split; [vm_compute; reflexivity|].
  exact (cache_Stat_Size_zero sample_negotiate 2 sample_cacheFS "/a/c/d.txt"
           sample_request sample_opened (or_introl H1)).
Defined.

Lemma index_request_is_redirected_witness :
  opener sample_site None "/app2/index.html"
    (with_Path sample_index_request "/app2/index.html")
  = Ok (File_provider (Sample.reg "index.html" Sample.hello)) /\
  IndexName sample_Options = "index.html" /\
  GoString.HasSuffix "/app2/index.html" (prefix "index.html" "/") = true /\
  sample_serve sample_site None sample_writer sample_index_request =
    Some {| o_w := {| w_Header := {[ "Location" := "./?x=1" ]}; w_status := Some 301 |};
            o_pushed := [];
            o_served := None;
            o_panic := false |}.
Proof.
  split; [vm_compute; reflexivity|]. split; [reflexivity|].
  split; [vm_compute; reflexivity|].
  apply (index_request_is_redirected sample_ParseTime sample_TimeFormat
           sample_NewResponseWriter sample_ToSlash sample_DirList None 10 sample_site None
           sample_Options sample_writer sample_index_request
           (File_provider (Sample.reg "index.html" Sample.hello))
           (FI_provider (mkProviderInfo "index.html" 2 420 Sample.mtime false))).
  - vm_compute. reflexivity.
  - vm_compute. reflexivity.
  - vm_compute. reflexivity.
  - vm_compute. discriminate.
  - vm_compute. reflexivity.
  - reflexivity.
Defined.

Lemma cached_file_is_served_as_stored_witness :
  sample_serve (Sample.tree false) (Some sample_ropen) sample_writer sample_request
  = Some sample_outcome /\
  o_served sample_outcome = Some sample_call /\
  GetEncoding (Some (content_File (sc_content sample_call))) = ("gzip", true) /\
  Compress sample_Options = true /\
  sc_compress sample_call = None /\
  w_Header (o_w sample_outcome) !! "Content-Encoding" = Some "gzip".
Proof.
  assert (H1 : sample_serve (Sample.tree false) (Some sample_ropen) sample_writer
                 sample_request = Some sample_outcome).
  { vm_compute. reflexivity. }
  assert (H2 : o_served sample_outcome = Some sample_call).
  { vm_compute. reflexivity. }
  assert (H3 : GetEncoding (Some (content_File (sc_content sample_call))) = ("gzip", true)).
  { vm_compute. reflexivity. }
  split; [exact H1|]. split; [exact H2|]. split; [exact H3|]. split; [reflexivity|].
  destruct (cached_file_is_served_as_stored sample_ParseTime sample_TimeFormat
              sample_NewResponseWriter sample_ToSlash sample_DirList None 10
              (Sample.tree false) (Some sample_ropen) sample_Options sample_writer
              sample_request sample_outcome sample_call H1 H2) as (_ & Hcached & _).
  destruct (Hcached "gzip" H3) as [Hplain Hheader].
  split; [exact Hplain|]. apply Hheader. discriminate.
Defined.

(** * Further properties of the code *)

(** ** The string helpers of httpfs.go *)

Lemma HasPrefix_append (p s : string) : GoString.HasPrefix (p +:+ s) p = true.
Proof.
  induction p as [|c p IH]; [by destruct s|].
  change (Ascii.eqb c c && GoString.HasPrefix (p +:+ s) p = true).
  by rewrite Ascii.eqb_refl, IH.
Qed.

(** X1: [prefix(s, p)] always starts with [p], leaves a string that starts
    with [p] as it is, and so changes nothing when applied twice. *)
Theorem prefix_starts_with_prefix (s p : string) :
  GoString.HasPrefix (prefix s p) p = true /\
  (GoString.HasPrefix s p = true -> prefix s p = s) /\
  prefix (prefix s p) p = prefix s p.
Proof.
  assert (H1 : GoString.HasPrefix (prefix s p) p = true).
  { unfold prefix. destruct (GoString.HasPrefix s p) eqn:E; simpl; [exact E|].
    apply HasPrefix_append. }
  split; [exact H1|]. split.
  - intros H. unfold prefix. by rewrite H.
  - unfold prefix at 1. by rewrite H1.
Qed.

Lemma toBaseName_rev_until (c : ascii) (r : list ascii) :
  is_separator c = false -> toBaseName_rev (c :: r) = c :: until_separator r.
Proof.
  intros Hc. simpl. rewrite Hc. reflexivity.
Qed.

Lemma until_separator_split (l : list ascii) :
  exists tl, l = until_separator l ++ tl /\ no_separator (until_separator l) /\
             (tl = [] \/ exists x tl', tl = x :: tl' /\ is_separator x = true).
Proof.
  induction l as [|x l (tl & Heq & Hno & Htl)]; simpl.
  - exists []. split; [done|]. split; [done|]. by left.
  - destruct (is_separator x) eqn:Ex.
    + exists (x :: l). split; [done|]. split; [done|]. right. eauto.
    + exists tl. split; [simpl; by f_equal|]. split; [|done].
      unfold no_separator. simpl. by rewrite Ex.
Qed.

Lemma toBaseName_rev_split (r : list ascii) :
  exists seps tl, r = seps ++ toBaseName_rev r ++ tl /\
    forallb is_separator seps = true /\ no_separator (toBaseName_rev r) /\
    (tl = [] \/ exists x tl', tl = x :: tl' /\ is_separator x = true) /\
    (toBaseName_rev r = [] -> tl = []).
Proof.
  induction r as [|c r (seps & tl & Heq & Hseps & Hno & Htl & Hempty)].
  - exists [], []. simpl. split; [done|]. split; [done|]. split; [done|].
    split; [by left|done].
  - destruct (is_separator c) eqn:Ec.
    + exists (c :: seps), tl. simpl. rewrite Ec. split; [by f_equal|].
      split; [done|]. done.
    + rewrite (toBaseName_rev_until c r Ec).
      destruct (until_separator_split r) as (tl' & Heq' & Hno' & Htl').
      exists [], tl'. simpl. split; [by f_equal|]. split; [done|].
      split; [|done]. unfold no_separator. simpl. by rewrite Ec.
Qed.

Lemma of_bytes_bytes (s : string) : GoString.of_bytes (GoString.bytes s) = s.
Proof. apply string_of_list_ascii_of_string. Qed.

Lemma bytes_of_bytes (l : list ascii) : GoString.bytes (GoString.of_bytes l) = l.
Proof. apply list_ascii_of_string_of_list_ascii. Qed.

Lemma forallb_rev {A : Type} (g : A -> bool) (l : list A) :
  forallb g (rev l) = forallb g l.
Proof.
  induction l as [|x l IH]; simpl; [done|].
  rewrite forallb_app, IH. simpl. rewrite andb_true_r. apply andb_comm.
Qed.

(** X2: [toBaseName(s)] is the last slash- or backslash-free stretch of [s]:
    [s] is some bytes that are empty or end with a separator, then the
    result, then separators only; the result itself holds no separator,
    and it is empty only when [s] holds nothing but separators. *)
Theorem toBaseName_last_element (s : string) :
  exists front seps : list ascii,
    GoString.bytes s = front ++ GoString.bytes (toBaseName s) ++ seps /\
    no_separator (GoString.bytes (toBaseName s)) /\
    forallb is_separator seps = true /\
    (front = [] \/ exists front' x, front = front' ++ [x] /\ is_separator x = true) /\
    (toBaseName s = "" -> front = []).
Proof.
  unfold toBaseName.
  destruct (toBaseName_rev_split (rev (GoString.bytes s)))
    as (seps & tl & Heq & Hseps & Hno & Htl & Hempty).
  remember (toBaseName_rev (rev (GoString.bytes s))) as tb eqn:Etb. clear Etb.
  apply (f_equal (@rev ascii)) in Heq. rewrite rev_involutive in Heq.
  exists (rev tl), (rev seps). rewrite bytes_of_bytes. split; [|split; [|split; [|split]]].
  - rewrite Heq. by rewrite !rev_app_distr, <- app_assoc.
  - unfold no_separator. by rewrite forallb_rev.
  - by rewrite forallb_rev.
  - destruct Htl as [->|(x & tl' & -> & Hx)]; [by left|].
    right. exists (rev tl'), x. simpl. done.
  - intros Hnil. apply (f_equal GoString.bytes) in Hnil.
    rewrite bytes_of_bytes in Hnil. simpl in Hnil.
    apply (f_equal (@rev ascii)) in Hnil. rewrite rev_involutive in Hnil.
    simpl in Hnil. by rewrite (Hempty Hnil).
Qed.

(** ** The walk of [findNames] *)

Lemma findNames_S (fuel : nat) (fs : FileSystem) (name : string) :
  findNames (S fuel) fs name =
  match fs name with
  | Err e => Some (Err e)
  | Ok f =>
      match http_File.Stat f with
      | Err e => Some (Err e)
      | Ok fi =>
          if negb (os_FileInfo.IsDir fi) then Some (Ok [name])
          else match http_File.Readdir f with
               | Err e => Some (Err e)
               | Ok fileinfos =>
                   findNames_children (findNames fuel fs) name fileinfos []
               end
      end
  end.
Proof.
  cbn [findNames].
  destruct (fs name) as [f|e]; [|done].
  destruct (http_File.Stat f) as [fi|e]; [|done].
  destruct (negb (os_FileInfo.IsDir fi)); [done|].
  destruct (http_File.Readdir f) as [infos|e]; [|done].
  generalize (@nil string).
  induction infos as [|info infos IH]; intros files; [done|].
  cbn [findNames_children]. case_bool_decide; [apply IH|].
  destruct (findNames fuel fs _) as [[rfiles|e]|]; [apply IH|done|done].
Qed.

Section FindNamesFacts.
Variable fs : FileSystem.
(** [Q] holds of the names the walk visits, [R] of those it returns. *)
Variables Q R : string -> Prop.
Hypothesis Q_Join : forall name filename, Q name -> Q (Path.Join name filename).
Hypothesis R_file : forall name, Q name -> opens_as_file fs name -> R name.

Lemma findNames_children_Forall rec name infos files out :
  (forall n names, Q n -> rec n = Some (Ok names) -> Forall R names) ->
  Q name -> Forall R files ->
  findNames_children rec name infos files = Some (Ok out) -> Forall R out.
Proof.
  intros Hrec HQ. revert files. induction infos as [|info infos IH]; intros files Hfiles; simpl.
  - by intros [= <-].
  - case_bool_decide; [by apply IH|].
    destruct (rec _) as [[rfiles|e]|] eqn:Er; [|done|done].
    apply IH. apply Forall_app. split; [done|].
    exact (Hrec _ _ (Q_Join _ _ HQ) Er).
Qed.

Lemma findNames_Forall fuel name names :
  Q name -> findNames fuel fs name = Some (Ok names) -> Forall R names.
Proof.
  revert name names. induction fuel as [|fuel IH]; intros name names HQ; [done|].
  rewrite findNames_S.
  destruct (fs name) as [f|e] eqn:Ef; [|done].
  destruct (http_File.Stat f) as [fi|e] eqn:Es; [|done].
  destruct (os_FileInfo.IsDir fi) eqn:Ed; simpl.
  - destruct (http_File.Readdir f) as [infos|e]; [|done].
    apply findNames_children_Forall; [|done|constructor].
    intros n ns Hn. by apply IH.
  - intros [= <-]. constructor; [|constructor].
    apply R_file; [done|]. by exists f, fi.
Qed.
End FindNamesFacts.

(** X3: Every name that [findNames] returns, from whatever directory it
    starts, is a path that the provider opens as a non-directory:
    directories are walked into and never listed themselves. *)
Theorem findNames_returns_files fuel fs name names :
  findNames fuel fs name = Some (Ok names) ->
  forall n, n ∈ names -> opens_as_file fs n.
Proof.
  intros H. apply Forall_forall.
  apply (findNames_Forall fs (fun _ => True) (opens_as_file fs)) with fuel name; auto.
Qed.

Lemma rooted_inv (s : string) : rooted s <-> exists t, s = String "/" t.
Proof.
  unfold rooted. split.
  - destruct s as [|c t]; [done|].
    change (Ascii.eqb "/" c && GoString.HasPrefix t "" = true -> exists t0, String c t = String "/" t0).
    intros H. apply andb_true_iff in H as [H _]. apply Ascii.eqb_eq in H. subst c. eauto.
  - intros [t ->]. by destruct t.
Qed.

Lemma Clean_rooted (p : string) : rooted p -> rooted (Path.Clean p).
Proof.
  intros H. apply rooted_inv in H as [t ->]. unfold Path.Clean.
  change (GoString.is_slash "/") with true. cbv iota.
  destruct (fold_left _ _ _) as [out keep]. apply rooted_inv. eexists. reflexivity.
Qed.

Lemma Join_rooted (a b : string) : rooted a -> rooted (Path.Join a b).
Proof.
  intros H. apply rooted_inv in H as [t ->]. unfold Path.Join.
  apply Clean_rooted, rooted_inv. eexists. reflexivity.
Qed.

Lemma upto_last_slash_rev_last (l : list ascii) :
  exists l', Path.upto_last_slash_rev (l ++ [GoString.slash]) = l' ++ [GoString.slash].
Proof.
  induction l as [|c l [l' IH]]; simpl.
  - exists []. reflexivity.
  - destruct (GoString.is_slash c); [by exists (c :: l)|]. by exists l'.
Qed.

Lemma Dir_rooted (p : string) : rooted p -> rooted (Path.Dir p).
Proof.
  intros H. apply rooted_inv in H as [t ->]. unfold Path.Dir, Path.Split. cbn [fst].
  apply Clean_rooted.
  change (GoString.bytes (String "/" t)) with (GoString.slash :: GoString.bytes t).
  simpl rev. destruct (upto_last_slash_rev_last (rev (GoString.bytes t))) as [l' ->].
  rewrite rev_app_distr. simpl. apply rooted_inv. eexists. reflexivity.
Qed.

(** X4: Started at a path with a leading slash, as [Cache] starts it at "/",
    [findNames] returns only paths with a leading slash. *)
Theorem findNames_returns_rooted fuel fs name names :
  rooted name ->
  findNames fuel fs name = Some (Ok names) ->
  forall n, n ∈ names -> rooted n.
Proof.
  intros Hname H. apply Forall_forall.
  apply (findNames_Forall fs rooted rooted) with fuel name; auto.
  intros n filename Hn. by apply Join_rooted.
Qed.

(** ** What [Cache] puts into its indexes *)

Lemma sort_names_elem (names : list string) (n : string) :
  n ∈ sort_names names <-> n ∈ names.
Proof.
  pose proof (sort_Slice_Permutation slashes names) as H.
  split; intros Hn.
  - by rewrite <- H.
  - by rewrite H.
Qed.

Lemma sort_names_length (names : list string) :
  length (sort_names names) = length names.
Proof. apply Permutation_length, (sort_Slice_Permutation slashes). Qed.

Section CacheIndexFacts.
Variable compress_Write : string -> contents -> result contents.
Variable unicode_ToLower : string -> string.
Variable compress_GetEncoding : Request -> list string -> string * option error.

Abbreviation build := (Cache compress_Write unicode_ToLower).
Abbreviation entry := (cache_entry compress_Write unicode_ToLower).
Abbreviation loop := (compress_loop compress_Write unicode_ToLower).

Lemma Cache_found fuel fs options c :
  build fuel fs options = Some (Ok c) ->
  exists names,
    findNames fuel fs "/" = Some (Ok names) /\
    findDirs fs (sort_names names) = Ok (c_dirs c) /\
    cacheFiles compress_Write unicode_ToLower fs (sort_names names) (Encodings options)
      (CompressMinSize options) (CompressIgnore options) = Ok (c_files c) /\
    c_algs c = Encodings options /\
    c_n c = length names.
Proof.
  unfold Cache. intros H.
  destruct (findNames fuel fs "/") as [[names|e]|]; [|done|done].
  injection H as H. bind_inv H. bind_inv H. inversion H; subst; simpl.
  exists names. rewrite sort_names_length. eauto.
Qed.

Lemma cacheFiles_loop_keys fs algs m ign names (list list' : fileMap) k :
  cacheFiles_loop compress_Write unicode_ToLower fs names algs m ign list = Ok list' ->
  is_Some (list' !! k) <-> k ∈ names \/ is_Some (list !! k).
Proof.
  revert list. induction names as [|n names IH]; intros list Hrun; simpl in Hrun.
  - injection Hrun as <-. split; [auto|]. intros [H|H]; [by apply elem_of_nil in H|done].
  - bind_inv Hrun. rewrite cacheFiles_step_entry in Hx. bind_inv Hx.
    injection Hx as <-. rewrite (IH _ Hrun), elem_of_cons.
    destruct (decide (n = k)) as [->|Hne].
    + rewrite lookup_insert_eq. split; [auto|]. intros _. right. eauto.
    + rewrite lookup_insert_ne by done. split.
      * intros [H|H]; auto.
      * intros [[H|H]|H]; auto. by subst.
Qed.

(** X5: The file index of a cache holds exactly the names that [findNames]
    found from "/", the directory index exactly their [path.Dir]; the
    count is the number of names found and the encodings are the
    configured ones. *)
Theorem Cache_indexes_the_names_found fuel fs options c :
  build fuel fs options = Some (Ok c) ->
  exists names,
    findNames fuel fs "/" = Some (Ok names) /\
    (forall k, is_Some (c_files c !! k) <-> k ∈ names) /\
    (forall k, is_Some (c_dirs c !! k) <-> exists n, n ∈ names /\ k = Path.Dir n) /\
    c_n c = length names /\
    c_algs c = Encodings options.
Proof.
  intros Hc. destruct (Cache_found _ _ _ _ Hc) as (names & Hfound & Hdirs & Hfiles & Halgs & Hn).
  exists names. split; [done|]. split; [|split; [|done]].
  - intros k. unfold cacheFiles in Hfiles.
    rewrite (cacheFiles_loop_keys _ _ _ _ _ _ _ k Hfiles), sort_names_elem, lookup_empty.
    split; [|auto]. intros [H|[x H]]; [done|done].
  - intros k. rewrite <- elem_of_dom, (findDirs_dom _ _ _ Hdirs), elem_of_list_to_set.
    rewrite list_elem_of_fmap. split.
    + intros (n & -> & Hn'). exists n. by rewrite <- sort_names_elem.
    + intros (n & Hn' & ->). exists n. by rewrite sort_names_elem.
Qed.

Lemma rooted_name_rooted (k : string) : rooted k -> rooted_name k = k.
Proof. intros H. apply rooted_inv in H as [t ->]. reflexivity. Qed.

(** X6: Every path of either index of a cache starts with a slash, [Open]
    answers it with a file or directory, and answers the same when the
    caller leaves the leading slash out. *)
Theorem Cache_keys_are_rooted_and_open fuel fs options c k :
  build fuel fs options = Some (Ok c) ->
  is_Some (c_files c !! k) \/ is_Some (c_dirs c !! k) ->
  rooted k /\
  (forall n : nat, exists f, Open (S (S n)) c k = Some (Ok f)) /\
  (forall (n : nat) t, k = "/" +:+ t -> GoString.lacks_leading_slash t = true ->
     Open n c t = Open n c k).
Proof.
  intros Hc Hk.
  destruct (Cache_indexes_the_names_found _ _ _ _ Hc) as (names & Hfound & Hf & Hd & _).
  assert (Hr : rooted k).
  { assert (Hall : forall n, n ∈ names -> rooted n).
    { apply (findNames_returns_rooted fuel fs "/"); [done|exact Hfound]. }
    destruct Hk as [Hk|Hk].
    - apply Hall. exact (proj1 (Hf k) Hk).
    - destruct (proj1 (Hd k) Hk) as (n & Hn & Hkn). rewrite Hkn.
      apply Dir_rooted, Hall, Hn. }
  split; [exact Hr|]. split.
  - intros n. unfold Open. rewrite (rooted_name_rooted k Hr).
    destruct (c_dirs c !! k) as [d|] eqn:Ed; [eauto|].
    destruct Hk as [[f Ef]|[d Hd']]; [|done]. rewrite Ef.
    destruct (Cache_entry_has_original _ _ _ _ _ _ _ _ Hc Ef) as [orig Horig].
    destruct (file_Get_answers n f "" orig Horig) as (g & Hg & _). eauto.
  - intros n t -> Ht. unfold Open, rooted_name. rewrite Ht.
    destruct t as [|a t]; [reflexivity|]. simpl in Ht. reflexivity.
Qed.

Lemma cache_entry_meta fs algs m ign name f :
  entry fs algs m ign name = Ok f ->
  exists pf info, fs name = Ok pf /\ http_File.Stat pf = Ok info /\
    f_name f = name /\ f_baseName f = Path.Base name /\
    f_info f = newFileInfo (Path.Base name) (os_FileInfo.Mode info) (os_FileInfo.ModTime info) /\
    f_alg f = "" /\ f_ReadSeeker f = None.
Proof.
  unfold cache_entry. intros H. bind_inv H. bind_inv H. bind_inv H.
  exists x, x0. split; [done|]. split; [done|].
  destruct (_ && _); [by injection H as <-|].
  destruct (matches ign name); [by injection H as <-|].
  bind_inv H. by injection H as <-.
Qed.

(** X7: What a cache tells about a file is the base name of its path and the
    mode and modification time that the provider's [Stat] gave at build
    time, whatever name the provider's own [Stat] reports: [Open] returns
    a file whose [Stat] says so. *)
Theorem Cache_file_metadata fuel fs options c name f (n : nat) :
  build fuel fs options = Some (Ok c) ->
  c_files c !! name = Some f ->
  c_dirs c !! name = None ->
  exists pf pinfo g info,
    fs name = Ok pf /\ http_File.Stat pf = Ok pinfo /\
    Open (S (S n)) c name = Some (Ok g) /\ http_File.Stat g = Ok info /\
    os_FileInfo.Name info = Path.Base name /\
    os_FileInfo.Mode info = os_FileInfo.Mode pinfo /\
    os_FileInfo.ModTime info = os_FileInfo.ModTime pinfo.
Proof.
  intros Hc Hf Hd.
  destruct (cache_entry_meta _ _ _ _ _ _ (Cache_entry _ _ _ _ _ _ _ _ Hc Hf))
    as (pf & pinfo & Hpf & Hst & _ & _ & Hinfo & _).
  destruct (Cache_entry_has_original _ _ _ _ _ _ _ _ Hc Hf) as [orig Horig].
  destruct (file_Get_answers n f "" orig Horig) as (g & Hg & _ & Hginfo & _).
  assert (Hk : rooted name).
  { apply (Cache_keys_are_rooted_and_open fuel fs options c name Hc). left. eauto. }
  exists pf, pinfo, (File_file g), (FI_fileInfo (f_info g)).
  split; [done|]. split; [done|]. split.
  - unfold Open. by rewrite (rooted_name_rooted _ Hk), Hd, Hf.
  - split; [done|]. rewrite Hginfo, Hinfo. done.
Qed.

(** X8: The names of the variant map of an entry: the empty name always, and,
    unless the file is below a positive minimum size or its path matches
    the ignore pattern, the configured encodings (brotli under br), and no
    other. *)
Theorem Cache_variant_names fuel fs options c name f orig k :
  build fuel fs options = Some (Ok c) ->
  c_files c !! name = Some f ->
  provider_contents fs name = Ok orig ->
  let skipped :=
    (0 <? CompressMinSize options) && (Z.of_nat (length orig) <? CompressMinSize options)
    || matches (CompressIgnore options) name in
  is_Some (f_algs f !! k) <->
  k = "" \/ (skipped = false /\ exists alg, alg ∈ Encodings options /\ k = alg_key alg).
Proof.
  intros Hc Hf Horig skipped. subst skipped.
  destruct (cache_entry_cases _ _ _ _ _ _ _ _ (Cache_entry _ _ _ _ _ _ _ _ Hc Hf))
    as (orig' & Horig' & _ & Hcases).
  rewrite Horig in Horig'. injection Horig' as <-.
  destruct Hcases as [(Hsz & ->) | [(Hsz & Hign & ->) | (Hsz & Hign & Hloop)]].
  - rewrite Hsz. simpl. split.
    + intros [bs Hbs]. apply lookup_singleton_Some in Hbs as [<- _]. by left.
    + intros [->|[? _]]; [|done]. rewrite lookup_singleton_eq. eauto.
  - rewrite Hsz, Hign. simpl. split.
    + intros [bs Hbs]. apply lookup_singleton_Some in Hbs as [<- _]. by left.
    + intros [->|[? _]]; [|done]. rewrite lookup_singleton_eq. eauto.
  - rewrite Hsz, Hign. simpl. split.
    + intros [bs Hbs].
      destruct (compress_loop_origin _ _ _ _ _ _ _ _ Hloop Hbs) as [Hin | (_ & alg & Hel & ->)].
      * apply lookup_singleton_Some in Hin as [<- _]. by left.
      * right. split; [done|]. eauto.
    + intros [->|(_ & alg & Hel & ->)].
      * apply (compress_loop_keeps _ _ _ _ _ _ _ Hloop). rewrite lookup_singleton_eq. eauto.
      * destruct (compress_loop_all _ _ _ _ _ _ alg Hloop Hel) as (bs & Hbs & _). eauto.
Qed.

(** X9: No partial cache: when the walk found a name whose bytes the provider
    fails to read, or one that is to be compressed and that the registry
    fails to compress under a configured encoding, [Cache] returns an
    error. *)
Theorem Cache_fails_as_a_whole fuel fs options names name :
  findNames fuel fs "/" = Some (Ok names) ->
  name ∈ names ->
  (exists e, provider_contents fs name = Err e) \/
  (exists orig alg e,
     provider_contents fs name = Ok orig /\
     (0 <? CompressMinSize options) && (Z.of_nat (length orig) <? CompressMinSize options)
       = false /\
     matches (CompressIgnore options) name = false /\
     alg ∈ Encodings options /\
     compress_Write (strings_ToLower unicode_ToLower (alg_key alg)) orig = Err e) ->
  exists e, build fuel fs options = Some (Err e).
Proof.
  intros Hfound Hname Hfail.
  destruct (build fuel fs options) as [[c|e]|] eqn:Hc; [|eauto|].
  2: { unfold Cache in Hc. by rewrite Hfound in Hc. }
  exfalso.
  destruct (Cache_indexes_the_names_found _ _ _ _ Hc) as (names' & Hfound' & Hkeys & _).
  rewrite Hfound in Hfound'. injection Hfound' as <-.
  destruct (proj2 (Hkeys name) Hname) as [f Hf].
  destruct (cache_entry_cases _ _ _ _ _ _ _ _ (Cache_entry _ _ _ _ _ _ _ _ Hc Hf))
    as (orig' & Horig' & _ & Hcases).
  destruct Hfail as [[e He] | (orig & alg & e & Horig & Hsz & Hign & Hel & Herr)].
  - congruence.
  - rewrite Horig in Horig'. injection Horig' as <-.
    destruct Hcases as [(Hsz' & _) | [(_ & Hign' & _) | (_ & _ & Hloop)]]; [congruence..|].
    destruct (compress_loop_all _ _ _ _ _ _ alg Hloop Hel) as (bs & _ & Hv).
    unfold variant_of in Hv. congruence.
Qed.

End CacheIndexFacts.

(** ** The directory entries that [findDirs] builds *)

Lemma findDirs_step_lookup fs (dirs dirs' : gmap string dir) name k :
  findDirs_step fs dirs name = Ok dirs' ->
  exists inf,
    provider_stat fs name = Ok inf /\
    let dirName := Path.Dir name in
    let fi := newFileInfo (Path.Base name) (os_FileInfo.Mode inf) (os_FileInfo.ModTime inf) in
    dirs' !! k =
      findDirs_touch dirName fi k <$>
        match dirs !! k with
        | Some d => Some d
        | None =>
            if decide (dirName = k)
            then Some (newDir (newFileInfo (Path.Base dirName) os_ModeDir
                                 (os_FileInfo.ModTime inf)) dirName)
            else None
        end.
Proof.
  unfold findDirs_step, provider_stat. intros H. bind_inv H. bind_inv H.
  exists x0. rewrite Hx. simpl. split; [exact Hx0|].
  injection H as <-.
  set (dirName := Path.Dir name).
  set (new := newDir _ dirName).
  set (dirs1 := match dirs !! dirName with Some _ => dirs | None => <[dirName:=new]> dirs end).
  assert (H1 : forall j, dirs1 !! j =
            match dirs !! j with
            | Some d => Some d
            | None => if decide (dirName = j) then Some new else None
            end).
  { intros j. subst dirs1. destruct (dirs !! dirName) as [d0|] eqn:E0.
    - destruct (dirs !! j) eqn:Ej; [done|]. case_decide; [congruence|done].
    - destruct (decide (dirName = j)) as [<-|Hne].
      + by rewrite lookup_insert_eq, E0.
      + rewrite lookup_insert_ne by done. by destruct (dirs !! j). }
  rewrite <- (H1 k). unfold findDirs_touch.
  rewrite lookup_alter.
  destruct (decide (dirName = k)) as [<-|Hk].
  - destruct (decide (Path.Dir dirName = dirName)) as [Hp|Hp].
    + rewrite Hp. destruct (dirs1 !! dirName) as [p|] eqn:Ep;
        [rewrite lookup_alter_eq, Ep | rewrite Ep]; done.
    + destruct (dirs1 !! Path.Dir dirName) as [p|] eqn:Ep;
        [rewrite lookup_alter_ne by done|]; by destruct (dirs1 !! dirName).
  - destruct (decide (Path.Dir dirName = k)) as [<-|Hp].
    + destruct (dirs1 !! Path.Dir dirName) as [p|] eqn:Ep;
        [rewrite lookup_alter_eq, Ep | rewrite Ep]; done.
    + destruct (dirs1 !! Path.Dir dirName) as [p|] eqn:Ep;
        [rewrite lookup_alter_ne by done|]; by destruct (dirs1 !! k).
Qed.

Lemma touch_header dirName fi k d :
  dir_header (findDirs_touch dirName fi k d) = dir_header d.
Proof. unfold findDirs_touch. by repeat case_decide. Qed.

Lemma touch_file_children dirName fi k d :
  file_children (findDirs_touch dirName fi k d) =
  file_children d ++ (if decide (dirName = k) then [fi] else []).
Proof.
  unfold findDirs_touch, file_children.
  repeat case_decide; simpl; rewrite ?omap_app; simpl; by rewrite ?app_nil_r.
Qed.

Lemma touch_children dirName fi k d c :
  c ∈ d_children (findDirs_touch dirName fi k d) <->
  c ∈ d_children d \/ (c = Child_dir dirName /\ Path.Dir dirName = k)
  \/ (c = Child_fileInfo fi /\ dirName = k).
Proof.
  unfold findDirs_touch.
  destruct (decide (Path.Dir dirName = k)) as [Hp|Hp];
    destruct (decide (dirName = k)) as [Hk|Hk]; simpl;
    rewrite ?elem_of_app, ?list_elem_of_singleton; tauto.
Qed.

Lemma findDirs_loop_header fs names (dirs dirs' : gmap string dir) k d' :
  findDirs_loop fs names dirs = Ok dirs' ->
  dirs' !! k = Some d' ->
  match dirs !! k with
  | Some d => dir_header d' = dir_header d
  | None =>
      exists front n back inf,
        names = front ++ n :: back /\ Path.Dir n = k /\
        Forall (fun n' => Path.Dir n' <> k) front /\
        provider_stat fs n = Ok inf /\
        dir_header d' =
          dir_header (newDir (newFileInfo (Path.Base k) os_ModeDir (os_FileInfo.ModTime inf)) k)
  end.
Proof.
  revert dirs. induction names as [|name names IH]; intros dirs Hrun Hk; simpl in Hrun.
  - injection Hrun as <-. by rewrite Hk.
  - bind_inv Hrun.
    destruct (findDirs_step_lookup _ _ _ _ k Hx) as (inf & Hinf & Hstep). simpl in Hstep.
    specialize (IH _ Hrun Hk). rewrite Hstep in IH.
    destruct (dirs !! k) as [d|] eqn:Ed; simpl in IH.
    + by rewrite touch_header in IH.
    + destruct (decide (Path.Dir name = k)) as [Hdn|Hdn]; simpl in IH.
      * rewrite touch_header in IH. subst k. exists [], name, names, inf. done.
      * destruct IH as (front & n & back & inf' & -> & Hn & Hfront & Hinf' & Hd').
        exists (name :: front), n, back, inf'. split; [done|]. split; [done|].
        split; [by constructor|]. done.
Qed.

(** X10: A directory of the cache has the path it is stored under as name, the
    base of that path as base name, exactly [os.ModeDir] as mode, and as
    modification time that of the first file found directly in it, not
    the provider's time for the directory. *)
Theorem findDirs_entry_header fs names (dirs : gmap string dir) k d :
  findDirs fs names = Ok dirs ->
  dirs !! k = Some d ->
  exists front n back inf,
    names = front ++ n :: back /\ Path.Dir n = k /\
    Forall (fun n' => Path.Dir n' <> k) front /\
    provider_stat fs n = Ok inf /\
    d_name d = k /\ d_baseName d = Path.Base k /\
    d_FileInfo d = newFileInfo (Path.Base k) os_ModeDir (os_FileInfo.ModTime inf) /\
    os_FileInfo.IsDir (FI_dir d) = true.
Proof.
  intros Hrun Hk. pose proof (findDirs_loop_header _ _ _ _ _ _ Hrun Hk) as H.
  rewrite lookup_empty in H.
  destruct H as (front & n & back & inf & Hnames & Hn & Hfront & Hinf & Hhead).
  exists front, n, back, inf. repeat (split; [done|]).
  unfold dir_header, newDir in Hhead. simpl in Hhead.
  injection Hhead as H1 H2 H3. rewrite H1, H2, H3. simpl. rewrite H1. done.
Qed.

Lemma findDirs_loop_file_children fs names (dirs dirs' : gmap string dir) k d' :
  findDirs_loop fs names dirs = Ok dirs' ->
  dirs' !! k = Some d' ->
  file_children d' =
    match dirs !! k with Some d => file_children d | None => [] end
    ++ omap (cached_info fs) (filter (fun n => Path.Dir n = k) names).
Proof.
  revert dirs. induction names as [|name names IH]; intros dirs Hrun Hk; simpl in Hrun.
  - injection Hrun as <-. rewrite Hk. simpl. by rewrite app_nil_r.
  - bind_inv Hrun.
    destruct (findDirs_step_lookup _ _ _ _ k Hx) as (inf & Hinf & Hstep). simpl in Hstep.
    rewrite (IH _ Hrun Hk), Hstep. rewrite filter_cons.
    assert (Hci : cached_info fs name = Some (newFileInfo (Path.Base name)
                    (os_FileInfo.Mode inf) (os_FileInfo.ModTime inf))).
    { unfold cached_info. by rewrite Hinf. }
    destruct (dirs !! k) as [d|] eqn:Ed; simpl.
    + rewrite touch_file_children. case_decide; simpl.
      * rewrite Hci. by rewrite <- app_assoc.
      * by rewrite app_nil_r.
    + destruct (decide (Path.Dir name = k)); simpl; [|done].
      rewrite touch_file_children. rewrite decide_True by done. by rewrite Hci.
Qed.

(** X11: The files that a directory of the cache lists are the names handed to
    [findDirs] whose [path.Dir] is the directory, in their order and each
    as often as it is handed over, with the base name, mode and
    modification time of the provider's [Stat]. *)
Theorem findDirs_file_children fs names (dirs : gmap string dir) k d :
  findDirs fs names = Ok dirs ->
  dirs !! k = Some d ->
  file_children d = omap (cached_info fs) (filter (fun n => Path.Dir n = k) names) /\
  length (file_children d) = length (filter (fun n => Path.Dir n = k) names).
Proof.
  intros Hrun Hk. pose proof (findDirs_loop_file_children _ _ _ _ _ _ Hrun Hk) as H.
  rewrite lookup_empty in H. simpl in H. split; [exact H|]. rewrite H.
  clear H Hk. unfold findDirs in Hrun. revert Hrun. generalize (∅ : gmap string dir).
  induction names as [|name names IH]; intros dirs0 Hrun; [done|].
  simpl in Hrun. bind_inv Hrun.
  destruct (findDirs_step_lookup _ _ _ _ k Hx) as (inf & Hinf & _).
  rewrite filter_cons. case_decide; [|by apply (IH x)].
  simpl. unfold cached_info at 1. rewrite Hinf. simpl. f_equal. by apply (IH x).
Qed.

Lemma findDirs_step_keeps fs (dirs dirs' : gmap string dir) name k :
  findDirs_step fs dirs name = Ok dirs' ->
  is_Some (dirs !! k) -> is_Some (dirs' !! k).
Proof.
  intros H Hk. rewrite <- elem_of_dom in *.
  rewrite (findDirs_step_dom _ _ _ _ H). apply elem_of_union. by right.
Qed.

Lemma findDirs_step_sound fs (dirs dirs' : gmap string dir) name :
  findDirs_step fs dirs name = Ok dirs' ->
  children_sound dirs -> children_sound dirs'.
Proof.
  intros Hstep Hinv k d' k' Hk Hel.
  destruct (findDirs_step_lookup _ _ _ _ k Hstep) as (inf & _ & Hlook). simpl in Hlook.
  rewrite Hk in Hlook.
  assert (Hnew : is_Some (dirs' !! Path.Dir name)).
  { rewrite <- elem_of_dom, (findDirs_step_dom _ _ _ _ Hstep).
    apply elem_of_union. left. by apply elem_of_singleton. }
  destruct (dirs !! k) as [d|] eqn:Ed; simpl in Hlook.
  - injection Hlook as ->. apply touch_children in Hel as [Hel|[[[= ->] Hp]|[? _]]]; [| |done].
    + destruct (Hinv _ _ _ Ed Hel) as [Hp Hsome]. split; [done|].
      by apply (findDirs_step_keeps _ _ _ _ _ Hstep).
    + done.
  - destruct (decide (Path.Dir name = k)); [|done]. simpl in Hlook.
    injection Hlook as ->. apply touch_children in Hel as [Hel|[[[= ->] Hp]|[? _]]]; [| |done].
    + simpl in Hel. by apply elem_of_nil in Hel.
    + done.
Qed.

Lemma findDirs_loop_sound fs names (dirs dirs' : gmap string dir) :
  findDirs_loop fs names dirs = Ok dirs' ->
  children_sound dirs -> children_sound dirs'.
Proof.
  revert dirs. induction names as [|name names IH]; intros dirs Hrun Hinv; simpl in Hrun.
  - by injection Hrun as <-.
  - bind_inv Hrun. apply (IH _ Hrun). by apply (findDirs_step_sound _ _ _ _ Hx).
Qed.

Lemma omap_child_length (dirs : gmap string dir) (l : list child) :
  (forall k', Child_dir k' ∈ l -> is_Some (dirs !! k')) ->
  length (omap (child_FileInfo dirs) l) = length l.
Proof.
  induction l as [|c l IH]; intros H; [done|].
  assert (Hl : length (omap (child_FileInfo dirs) l) = length l).
  { apply IH. intros k' Hk'. apply H. by right. }
  change (omap (child_FileInfo dirs) (c :: l))
    with (match child_FileInfo dirs c with
          | Some y => y :: omap (child_FileInfo dirs) l
          | None => omap (child_FileInfo dirs) l
          end).
  destruct c as [fi|key]; cbn [child_FileInfo length]; [by rewrite Hl|].
  destruct (H key) as [d Hd]; [by left|]. rewrite Hd. cbn [fmap option_fmap option_map length].
  by rewrite Hl.
Qed.

(** X12: Whatever a directory of the cache holds as sub-directory is a
    directory of the index whose parent path is that directory, so
    [Readdir] returns an entry for every child, files and directories. *)
Theorem findDirs_children_are_entries fs names (dirs : gmap string dir) k d :
  findDirs fs names = Ok dirs ->
  dirs !! k = Some d ->
  (forall k', k' ∈ dir_children d -> Path.Dir k' = k /\ is_Some (dirs !! k')) /\
  exists infos, http_File.Readdir (File_dir dirs d) = Ok infos /\
                length infos = length (d_children d).
Proof.
  intros Hrun Hk.
  assert (Hinv : children_sound dirs).
  { apply (findDirs_loop_sound _ _ _ _ Hrun). intros k0 d0 k' H. by rewrite lookup_empty in H. }
  assert (Hch : forall k', Child_dir k' ∈ d_children d ->
                  Path.Dir k' = k /\ is_Some (dirs !! k')).
  { intros k' Hel. exact (Hinv _ _ _ Hk Hel). }
  split.
  - intros k' Hel. apply Hch. unfold dir_children in Hel.
    apply list_elem_of_omap in Hel as (c & Hc & Hck). by destruct c as [|key]; simplify_eq.
  - eexists. split; [reflexivity|]. apply omap_child_length.
    intros k' Hel. by apply Hch.
Qed.

Lemma findDirs_loop_app fs l1 l2 (dirs dirs' : gmap string dir) :
  findDirs_loop fs (l1 ++ l2) dirs = Ok dirs' ->
  exists mid, findDirs_loop fs l1 dirs = Ok mid /\ findDirs_loop fs l2 mid = Ok dirs'.
Proof.
  revert dirs. induction l1 as [|n l1 IH]; intros dirs H; simpl in *; [eauto|].
  bind_inv H. destruct (IH _ H) as (mid & H1 & H2). exists mid. by rewrite Hx.
Qed.

Lemma findDirs_step_children_keep fs (dirs dirs' : gmap string dir) name k d c :
  findDirs_step fs dirs name = Ok dirs' ->
  dirs !! k = Some d -> c ∈ d_children d ->
  exists d', dirs' !! k = Some d' /\ c ∈ d_children d'.
Proof.
  intros Hstep Hk Hc.
  destruct (findDirs_step_lookup _ _ _ _ k Hstep) as (inf & _ & Hlook). simpl in Hlook.
  rewrite Hk in Hlook. simpl in Hlook. eexists. split; [exact Hlook|].
  apply touch_children. by left.
Qed.

Lemma findDirs_loop_children_keep fs names (dirs dirs' : gmap string dir) k d c :
  findDirs_loop fs names dirs = Ok dirs' ->
  dirs !! k = Some d -> c ∈ d_children d ->
  exists d', dirs' !! k = Some d' /\ c ∈ d_children d'.
Proof.
  revert dirs d. induction names as [|name names IH]; intros dirs d Hrun Hk Hc; simpl in Hrun.
  - injection Hrun as <-. eauto.
  - bind_inv Hrun.
    destruct (findDirs_step_children_keep _ _ _ _ _ _ _ Hx Hk Hc) as (d1 & Hk1 & Hc1).
    exact (IH _ _ Hrun Hk1 Hc1).
Qed.

Lemma findDirs_loop_keeps fs names (dirs dirs' : gmap string dir) k :
  findDirs_loop fs names dirs = Ok dirs' ->
  is_Some (dirs !! k) -> is_Some (dirs' !! k).
Proof.
  intros H Hk. rewrite <- elem_of_dom in *.
  rewrite (findDirs_loop_dom _ _ _ _ H). apply elem_of_union. by right.
Qed.

(** X13: A directory is listed in its parent when the names handed to
    [findDirs] have a file directly in the parent before, or at, the
    file of the directory that is being handled: the parent has an entry
    by then.  The root, being its own [path.Dir], so lists itself once a
    file lies directly in it. *)
Theorem findDirs_lists_subdirectory fs front n back m (dirs : gmap string dir) :
  findDirs fs (front ++ n :: back) = Ok dirs ->
  m ∈ front ++ [n] ->
  Path.Dir m = Path.Dir (Path.Dir n) ->
  exists d, dirs !! Path.Dir (Path.Dir n) = Some d /\
            Path.Dir n ∈ dir_children d.
Proof.
  unfold findDirs. intros Hrun Hm Hparent.
  apply findDirs_loop_app in Hrun as (mid & Hfront & Hrest). simpl in Hrest.
  bind_inv Hrest.
  assert (Hp1 : is_Some (x !! Path.Dir (Path.Dir n))).
  { assert (Hx' : findDirs_loop fs (front ++ [n]) ∅ = Ok x).
    { clear Hrest Hm. revert Hfront. generalize (∅ : gmap string dir).
      induction front as [|a front IH]; intros dirs0 Hf; simpl in *.
      - injection Hf as <-. by rewrite Hx.
      - bind_inv Hf. rewrite Hx0. simpl. by apply IH. }
    rewrite <- elem_of_dom, (findDirs_loop_dom _ _ _ _ Hx'), elem_of_union. left.
    apply elem_of_list_to_set, list_elem_of_fmap. exists m. done. }
  destruct (findDirs_step_lookup _ _ _ _ (Path.Dir (Path.Dir n)) Hx) as (inf & _ & Hlook).
  simpl in Hlook. destruct Hp1 as [d1 Hd1]. rewrite Hd1 in Hlook.
  assert (Hc : Child_dir (Path.Dir n) ∈ d_children d1).
  { destruct (mid !! Path.Dir (Path.Dir n)) as [d0|]; simpl in Hlook.
    - injection Hlook as ->. apply touch_children. right; left. done.
    - destruct (decide (Path.Dir n = Path.Dir (Path.Dir n))); [|done].
      simpl in Hlook. injection Hlook as ->. apply touch_children. right; left. done. }
  destruct (findDirs_loop_children_keep _ _ _ _ _ _ _ Hrest Hd1 Hc) as (d & Hd & Hcd).
  exists d. split; [done|]. unfold dir_children.
  apply list_elem_of_omap. exists (Child_dir (Path.Dir n)). done.
Qed.

(** ** [file.Get], [Open] and [Ropen] *)

Lemma file_Get_no_original (fuel : nat) (f : file) (alg : string) :
  f_algs f !! alg = None -> f_algs f !! "" = None -> file_Get fuel f alg = None.
Proof.
  intros Halg Horig. revert alg Halg.
  induction fuel as [|fuel IH]; intros alg Halg; [done|].
  simpl. rewrite Halg. by apply IH.
Qed.

(** X14: A file that [Get] returned is no store entry: its variant map is nil,
    and [Get] on it, for whatever name, calls itself without end. *)
Theorem file_Get_on_served_file_never_returns (fuel : nat) (f : file) (alg : string) (g : file) :
  file_Get fuel f alg = Some (Ok (File_file g)) ->
  f_algs g = ∅ /\ forall fuel' a, file_Get fuel' g a = None.
Proof.
  revert alg. induction fuel as [|fuel IH]; intros alg; [done|]. simpl.
  destruct (f_algs f !! alg) as [c|]; [|apply IH].
  intros [= <-]. simpl. split; [done|].
  intros fuel' a. by apply file_Get_no_original.
Qed.

Section OpenFacts.
Variable compress_GetEncoding : Request -> list string -> string * option error.

(** X15: [Open] does not negotiate.  For a path held as a file it returns the
    bytes stored under the empty name and [GetEncoding] reports the empty
    encoding of a cached file; it is [Ropen] for a request whose
    negotiation gives the empty encoding.  For a path held as a
    directory [Open] and [Ropen] return the same directory, which
    [GetEncoding] reports as not cached. *)
Theorem Open_serves_the_original (n : nat) (c : cacheFS) (name : string) (r : Request) :
  (forall f orig,
     c_dirs c !! rooted_name name = None ->
     c_files c !! rooted_name name = Some f ->
     f_algs f !! "" = Some orig ->
     exists g, Open (S n) c name = Some (Ok g) /\
               File_bytes g = Ok orig /\ GetEncoding (Some g) = ("", true) /\
               ((compress_GetEncoding r (c_algs c)).1 = "" ->
                Ropen compress_GetEncoding (S n) c name r = Some (Ok g)))
  /\ (forall d,
        c_dirs c !! rooted_name name = Some d ->
        Open n c name = Some (Ok (File_dir (c_dirs c) d)) /\
        Ropen compress_GetEncoding n c name r = Some (Ok (File_dir (c_dirs c) d)) /\
        GetEncoding (Some (File_dir (c_dirs c) d)) = ("", false)).
Proof.
  split.
  - intros f orig Hd Hf Horig. unfold Open, Ropen. rewrite Hd, Hf. simpl. rewrite Horig.
    eexists. split; [reflexivity|]. split; [reflexivity|]. split; [reflexivity|].
    destruct (compress_GetEncoding r (c_algs c)) as [enc err]. simpl. intros ->.
    by rewrite Horig.
  - intros d Hd. unfold Open, Ropen. by rewrite Hd.
Qed.
End OpenFacts.

(** ** The handler: what it writes itself *)

Section HandlerFacts.
Variable http_ParseTime : string -> Time + string.
Variable http_TimeFormat : Time -> string.
Variable compress_NewResponseWriter : Request -> result string.
Variable filepath_ToSlash : string -> string.
Variable default_DirList : DirListFunc.
Variable pusher : option (string -> option (gmap string string) -> option error).

Abbreviation check := (checkIfModifiedSince http_ParseTime).
Abbreviation setup := (FileServer_options filepath_ToSlash default_DirList).
Abbreviation run := (handler http_ParseTime http_TimeFormat compress_NewResponseWriter pusher).
Abbreviation serve :=
  (FileServer http_ParseTime http_TimeFormat compress_NewResponseWriter
     filepath_ToSlash default_DirList pusher).
Abbreviation pushes := (push_targets pusher).
Abbreviation encoded := (encode compress_NewResponseWriter).

Lemma substitute_index_Stat (open : string -> Request -> result File)
    options name r info0 f0 :
  http_File.Stat f0 = Ok info0 ->
  http_File.Stat (substitute_index open options name r info0 f0).2
  = Ok (substitute_index open options name r info0 f0).1.2.
Proof.
  intros H0. unfold substitute_index.
  destruct (os_FileInfo.IsDir info0 && bool_decide (IndexName options ≠ "")); [|done].
  destruct (open _ r) as [fi|e]; [|done].
  by destruct (http_File.Stat fi) eqn:Es.
Qed.

Lemma substitute_index_found (open : string -> Request -> result File)
    options name r info0 f0 :
  (substitute_index open options name r info0 f0).1.1 = true ->
  os_FileInfo.IsDir info0 = true /\ IndexName options <> "" /\
  open (GoString.TrimSuffix name "/" +:+ IndexName options) r
  = Ok (substitute_index open options name r info0 f0).2.
Proof.
  unfold substitute_index.
  destruct (os_FileInfo.IsDir info0); simpl; [|done].
  case_bool_decide; simpl; [|done].
  destruct (open _ r) as [fi|e]; [|done].
  by destruct (http_File.Stat fi).
Qed.

(** A run that pushed or served got to the push block. *)
Lemma handler_push_block fuel fs ropen options w r o :
  run fuel fs ropen options w r = Some o ->
  o_served o <> None \/ o_pushed o <> [] ->
  let open := opener fs ropen in
  let name := prefix (URL_Path r) "/" in
  let r' := with_Path r name in
  exists f0 info0 w1 w2 w3 content compressing encoding,
    open name r' = Ok f0 /\ http_File.Stat f0 = Ok info0 /\
    let s := substitute_index open options name r' info0 f0 in
    os_FileInfo.IsDir s.1.2 = false /\
    bool_decide (IndexName options ≠ "") && GoString.HasSuffix name (IndexName options)
      = false /\
    match Allow options with Some allow => allow w r' name | None => (w, true) end
      = (w1, true) /\
    attach options s.1.1 s.1.2 s.2 w1 = (w2, content) /\
    encoded options r' s.2 w2 = (w3, compressing, encoding) /\
    pushes fuel fs options r' name s.1.1 encoding = Some (o_pushed o, o_panic o) /\
    o_w o = w3 /\
    o_served o =
      if o_panic o then None
      else Some {| sc_compress := compressing; sc_name := os_FileInfo.Name s.1.2;
                   sc_modtime := os_FileInfo.ModTime s.1.2; sc_content := content |}.
Proof.
  unfold handler.
  set (name := prefix (URL_Path r) "/"). set (r' := with_Path r name).
  set (open := opener fs ropen).
  intros Hrun Hgot. simpl.
  assert (Hstop : forall w', o = finish w' -> False).
  { intros w' ->. by destruct Hgot. }
  assert (Hnil : forall w', o = panicked w' [] -> False).
  { intros w' ->. by destruct Hgot. }
  destruct (open name r') as [f0|e] eqn:Hopen.
  2: { injection Hrun as <-. exfalso. eauto. }
  destruct (http_File.Stat f0) as [info0|e] eqn:Hstat.
  2: { injection Hrun as <-. exfalso. eauto. }
  exists f0, info0.
  destruct (substitute_index open options name r' info0 f0) as [[indexFound info] f].
  cbn [fst snd].
  destruct (os_FileInfo.IsDir info) eqn:Hdir.
  { exfalso.
    destruct (negb (ShowList options)); [injection Hrun as <-; eauto|].
    destruct (check r' (os_FileInfo.ModTime info)) as [[|] [err|]];
      try (destruct (DirList options) as [list|];
           [destruct (list _ _ _ _ _) as [w1 [err1|]]|]);
      injection Hrun as <-; eauto; by destruct Hgot. }
  destruct (bool_decide (IndexName options ≠ "") && GoString.HasSuffix name (IndexName options))
    eqn:Hred; [injection Hrun as <-; exfalso; eauto|].
  destruct (match Allow options with Some allow => allow w r' name | None => (w, true) end)
    as [w1 allowed].
  destruct allowed; simpl in Hrun; [|injection Hrun as <-; exfalso; eauto].
  destruct (attach options indexFound info f w1) as [w2 content0] eqn:Hatt.
  destruct (encode compress_NewResponseWriter options r' f w2)
    as [[w3 compressing] encoding0] eqn:Henc.
  destruct (push_targets _ _ _ _ _ _ _ _) as [[pushed [|]]|] eqn:Hpush; [| |done].
  - injection Hrun as <-.
    exists w1, w2, w3, content0, compressing, encoding0. simpl.
    repeat (split; [done|]). done.
  - injection Hrun as <-.
    exists w1, w2, w3, content0, compressing, encoding0. simpl.
    repeat (split; [done|]). done.
Qed.

(** The run of the handler behind a call of [http.ServeContent]. *)
Lemma handler_served fuel fs ropen options w r o call :
  run fuel fs ropen options w r = Some o ->
  o_served o = Some call ->
  let open := opener fs ropen in
  let name := prefix (URL_Path r) "/" in
  let r' := with_Path r name in
  exists f0 info0 w1 w2 w3 content compressing encoding,
    open name r' = Ok f0 /\ http_File.Stat f0 = Ok info0 /\
    let s := substitute_index open options name r' info0 f0 in
    os_FileInfo.IsDir s.1.2 = false /\
    bool_decide (IndexName options ≠ "") && GoString.HasSuffix name (IndexName options)
      = false /\
    match Allow options with Some allow => allow w r' name | None => (w, true) end
      = (w1, true) /\
    attach options s.1.1 s.1.2 s.2 w1 = (w2, content) /\
    encoded options r' s.2 w2 = (w3, compressing, encoding) /\
    pushes fuel fs options r' name s.1.1 encoding = Some (o_pushed o, false) /\
    o_w o = w3 /\
    call = {| sc_compress := compressing; sc_name := os_FileInfo.Name s.1.2;
              sc_modtime := os_FileInfo.ModTime s.1.2; sc_content := content |}.
Proof.
  intros Hrun Hserved.
  assert (Hgot : o_served o <> None \/ o_pushed o <> []).
  { left. by rewrite Hserved. }
  destruct (handler_push_block _ _ _ _ _ _ _ Hrun Hgot)
    as (f0 & info0 & w1 & w2 & w3 & content0 & compressing & encoding & Hopen & Hstat & H).
  cbn zeta in H. destruct H as (H1 & H2 & H3 & H4 & H5 & H6 & H7 & H8).
  rewrite Hserved in H8.
  exists f0, info0, w1, w2, w3, content0, compressing, encoding. cbn zeta.
  destruct (o_panic o); [discriminate H8|]. injection H8 as ->.
  repeat (split; [done|]). done.
Qed.

Lemma attach_content options indexFound info f w w' content0 :
  attach options indexFound info f w = (w', content0) -> content_File content0 = f.
Proof.
  unfold attach. destruct (_ && _).
  - destruct (0 <? _); by intros [= _ <-].
  - by intros [= _ <-].
Qed.

(** X16: What the handler passes to [http.ServeContent] is never a directory:
    the stream reads a file whose [Stat] is not a directory, and the name
    and modification time passed along are those of that [Stat]. *)
Theorem handler_serves_files_only fuel fs ropen options w r o call :
  serve fuel fs ropen options w r = Some o ->
  o_served o = Some call ->
  exists info,
    http_File.Stat (content_File (sc_content call)) = Ok info /\
    os_FileInfo.IsDir info = false /\
    sc_name call = os_FileInfo.Name info /\
    sc_modtime call = os_FileInfo.ModTime info.
Proof.
  unfold FileServer. intros Hrun Hserved.
  destruct (handler_served _ _ _ _ _ _ _ _ Hrun Hserved)
    as (f0 & info0 & w1 & w2 & w3 & content0 & compressing & encoding & Hopen & Hstat & H).
  simpl in H. destruct H as (Hfile & _ & _ & Hatt & _ & _ & _ & ->).
  exists (substitute_index (opener fs ropen) (setup options) (prefix (URL_Path r) "/")
            (with_Path r (prefix (URL_Path r) "/")) info0 f0).1.2.
  simpl. rewrite (attach_content _ _ _ _ _ _ _ Hatt).
  split; [by apply substitute_index_Stat|]. done.
Qed.

Lemma push_literal_panic push pushOpts uri (indexAssets : list string) :
  (push_literal push pushOpts uri indexAssets).2 = true -> "" ∈ indexAssets.
Proof.
  induction indexAssets as [|a rest IH]; simpl; [done|].
  destruct (GoString.bytes a) as [|c l] eqn:Ea.
  - intros _. destruct a; [left|discriminate Ea].
  - destruct (push _ pushOpts); [done|].
    destruct (push_literal push pushOpts uri rest) as [pushed panic]. simpl.
    intros ->. right. by apply IH.
Qed.

Lemma push_literal_no_panic push pushOpts uri (indexAssets : list string) :
  "" ∉ indexAssets -> (push_literal push pushOpts uri indexAssets).2 = false.
Proof.
  intros Hno. destruct (push_literal push pushOpts uri indexAssets).2 eqn:E; [|done].
  destruct Hno. by apply (push_literal_panic push pushOpts uri).
Qed.

Lemma push_targets_nonempty fuel fs options r name indexFound encoding pushed panic :
  pushes fuel fs options r name indexFound encoding = Some (pushed, panic) ->
  pushed <> [] \/ panic = true ->
  pusher <> None /\ indexFound = true /\ Enable (opt_Attachments options) = false /\
  (PushTargets options <> ∅ \/ PushTargetsRegexp options <> ∅).
Proof.
  assert (Hnone : Some (@nil (string * option (gmap string string)), false)
                  = Some (pushed, panic) -> pushed <> [] \/ panic = true -> False).
  { intros [= <- <-] [H|H]; done. }
  unfold push_targets. destruct pusher as [push|]; [|by intros H1 H2; destruct (Hnone H1 H2)].
  destruct (_ || _) eqn:Et; simpl; [|by intros H1 H2; destruct (Hnone H1 H2)].
  destruct indexFound; simpl; [|by intros H1 H2; destruct (Hnone H1 H2)].
  destruct (Enable (opt_Attachments options)); simpl;
    [by intros H1 H2; destruct (Hnone H1 H2)|].
  intros _ _. split; [done|]. split; [done|]. split; [done|].
  apply orb_true_iff in Et as [Et|Et]; apply bool_decide_eq_true in Et; auto.
Qed.

Lemma push_targets_panic fuel fs options r name indexFound encoding pushed :
  pushes fuel fs options r name indexFound encoding = Some (pushed, true) ->
  exists indexAssets, PushTargets options !! URL_Path r = Some indexAssets /\
                      "" ∈ indexAssets.
Proof.
  unfold push_targets. destruct pusher as [push|]; [|done].
  destruct (_ && _); [|done].
  set (pushOpts := if bool_decide (encoding ≠ "") then Some (Header r) else None).
  destruct (PushTargets options !! URL_Path r) as [indexAssets|] eqn:Et.
  - pose proof (push_literal_panic push pushOpts (RequestURI r) indexAssets) as Hp.
    destruct (push_literal push pushOpts (RequestURI r) indexAssets) as [literal [|]].
    + intros _. exists indexAssets. split; [done|]. by apply Hp.
    + destruct (PushTargetsRegexp options !! URL_Path r); [|done].
      by destruct (findNames fuel fs name) as [[names|e]|].
  - destruct (PushTargetsRegexp options !! URL_Path r); [|done].
    by destruct (findNames fuel fs name) as [[names|e]|].
Qed.

(** The push block ends, and without panic, when no literal target of
    the path is empty and the walk for the pattern of the path ends. *)
Lemma push_targets_total fuel fs options r name indexFound encoding :
  (forall indexAssets, PushTargets options !! URL_Path r = Some indexAssets ->
                       "" ∉ indexAssets) ->
  PushTargetsRegexp options !! URL_Path r = None \/ is_Some (findNames fuel fs name) ->
  exists pushed, pushes fuel fs options r name indexFound encoding = Some (pushed, false).
Proof.
  intros Hno Hwalk. unfold push_targets. destruct pusher as [push|]; [|eauto].
  destruct (_ && _); [|eauto].
  set (pushOpts := if bool_decide (encoding ≠ "") then Some (Header r) else None).
  assert (Hlit : exists literal,
            match PushTargets options !! URL_Path r with
            | Some indexAssets => push_literal push pushOpts (RequestURI r) indexAssets
            | None => ([], false)
            end = (literal, false)).
  { destruct (PushTargets options !! URL_Path r) as [indexAssets|] eqn:Et; [|eauto].
    pose proof (push_literal_no_panic push pushOpts (RequestURI r) indexAssets
                  (Hno indexAssets eq_refl)) as Hp.
    destruct (push_literal push pushOpts (RequestURI r) indexAssets) as [literal panic].
    simpl in Hp. subst panic. eauto. }
  destruct Hlit as [literal ->].
  destruct (PushTargetsRegexp options !! URL_Path r) as [regex|]; [|eauto].
  destruct Hwalk as [Hwalk|[names Hwalk]]; [done|]. rewrite Hwalk.
  destruct names; eauto.
Qed.

(** X17: The handler pushes only on a request that opened a directory and
    found the index file of that directory, with a writer that can push,
    attachments off and push targets configured; a request for a file is
    never followed by a push.  After the pushes the index file is
    served, unless the run stopped in the panic of an empty literal
    target of the path, with nothing served. *)
Theorem handler_pushes_only_with_index fuel fs ropen options w r o :
  serve fuel fs ropen options w r = Some o ->
  o_pushed o <> [] ->
  let options' := setup options in
  let name := prefix (URL_Path r) "/" in
  let r' := with_Path r name in
  pusher <> None /\
  Enable (opt_Attachments options) = false /\
  (PushTargets options' <> ∅ \/ PushTargetsRegexp options <> ∅) /\
  exists f0 info0 findex,
    opener fs ropen name r' = Ok f0 /\ http_File.Stat f0 = Ok info0 /\
    os_FileInfo.IsDir info0 = true /\
    opener fs ropen (GoString.TrimSuffix name "/" +:+ IndexName options') r' = Ok findex /\
    if o_panic o
    then o_served o = None /\
         exists indexAssets, PushTargets options' !! name = Some indexAssets /\
                             "" ∈ indexAssets
    else exists call, o_served o = Some call /\ sc_content call = Content_file findex.
Proof.
  unfold FileServer. intros Hrun Hpushed. cbn zeta.
  destruct (handler_push_block _ _ _ _ _ _ _ Hrun (or_intror Hpushed))
    as (f0 & info0 & w1 & w2 & w3 & content0 & compressing & encoding & Hopen & Hstat & H).
  cbn zeta in H. destruct H as (Hfile & _ & _ & Hatt & _ & Hpush & _ & Hserved).
  destruct (push_targets_nonempty _ _ _ _ _ _ _ _ _ Hpush (or_introl Hpushed))
    as (Hp & Hfound & Hen & Ht).
  destruct (substitute_index_found _ _ _ _ _ _ Hfound) as (Hdir & _ & Hindex).
  split; [done|]. split; [exact Hen|]. split; [exact Ht|].
  eexists f0, info0, _. split; [done|]. split; [done|]. split; [done|].
  split; [exact Hindex|].
  destruct (o_panic o).
  - split; [exact Hserved|]. exact (push_targets_panic _ _ _ _ _ _ _ _ Hpush).
  - eexists. split; [exact Hserved|]. simpl.
    unfold attach in Hatt. rewrite Hfound in Hatt. simpl in Hatt. by injection Hatt as _ <-.
Qed.

Lemma substitute_index_file (open : string -> Request -> result File)
    options name r info0 f0 :
  os_FileInfo.IsDir info0 = false ->
  substitute_index open options name r info0 f0 = (false, info0, f0).
Proof. intros H. unfold substitute_index. by rewrite H. Qed.

Lemma substitute_index_not_found (open : string -> Request -> result File)
    options name r info0 f0 :
  (substitute_index open options name r info0 f0).1.1 = false ->
  substitute_index open options name r info0 f0 = (false, info0, f0).
Proof.
  unfold substitute_index. destruct (_ && _); [|done].
  destruct (open _ r) as [fi|e]; [|done].
  by destruct (http_File.Stat fi).
Qed.

Lemma push_targets_no_index fuel fs options r name encoding :
  pushes fuel fs options r name false encoding = Some ([], false).
Proof.
  unfold push_targets. destruct pusher; [|done].
  by rewrite andb_false_r.
Qed.

Lemma encode_keeps_header options r f w w' compressing encoding key :
  encoded options r f w = (w', compressing, encoding) ->
  key <> "Content-Encoding" -> key <> "Vary" ->
  w_Header w' !! key = w_Header w !! key.
Proof.
  unfold encode. intros H H1 H2.
  destruct (GetEncoding (Some f)) as [enc isCached]. destruct isCached.
  - case_bool_decide; injection H as <- _ _; [|done].
    unfold AddCompressHeaders, Header_Set. simpl. by rewrite !lookup_insert_ne.
  - destruct (Compress options); [destruct (compress_NewResponseWriter r)|];
      by injection H as <- _ _.
Qed.

(** X18: A request that opens a file with attachments enabled, an access
    predicate absent and no redirect due, is served with the header
    Content-Disposition "attachment;filename=" and the name of the file,
    changed by [NameFunc] when there is one; the stream is rate limited
    exactly when [Limit] is positive; nothing is pushed. *)
Theorem handler_sends_attachment fuel fs ropen options w r f0 info0 :
  let options' := setup options in
  let name := prefix (URL_Path r) "/" in
  let r' := with_Path r name in
  let a := opt_Attachments options in
  opener fs ropen name r' = Ok f0 ->
  http_File.Stat f0 = Ok info0 ->
  os_FileInfo.IsDir info0 = false ->
  bool_decide (IndexName options' ≠ "") && GoString.HasSuffix name (IndexName options')
    = false ->
  Allow options = None ->
  Enable a = true ->
  exists o call,
    serve fuel fs ropen options w r = Some o /\
    o_served o = Some call /\
    o_pushed o = [] /\
    w_Header (o_w o) !! "Content-Disposition" =
      Some ("attachment;filename=" +:+
            match NameFunc a with
            | Some nameFunc => nameFunc (os_FileInfo.Name info0)
            | None => os_FileInfo.Name info0
            end) /\
    sc_content call =
      (if 0 <? Limit a then Content_rate f0 (Limit a) (Burst a) else Content_file f0).
Proof.
  intros options' name r' a Hopen Hstat Hfile Hred Hallow Hen.
  unfold FileServer, handler. fold options' name r'.
  rewrite Hopen, Hstat, (substitute_index_file _ _ _ _ _ _ Hfile), Hfile, Hred.
  change (Allow options') with (Allow options). rewrite Hallow. simpl.
  destruct (attach options' false info0 f0 w) as [w2 content0] eqn:Hatt.
  destruct (encode compress_NewResponseWriter options' r' f0 w2)
    as [[w3 compressing] encoding] eqn:Henc.
  rewrite push_targets_no_index.
  eexists _, _. split; [reflexivity|]. split; [reflexivity|]. split; [reflexivity|]. simpl.
  rewrite (encode_keeps_header _ _ _ _ _ _ _ "Content-Disposition" Henc) by done.
  unfold attach in Hatt. change (opt_Attachments options') with a in Hatt.
  rewrite Hen in Hatt. simpl in Hatt.
  destruct (0 <? Limit a); injection Hatt as <- <-; simpl;
    (split; [by rewrite lookup_insert_eq|done]).
Qed.

(** X19: The index file that answers a request for a directory is never sent
    as an attachment: the stream is not rate limited and, when no access
    predicate is set, the Content-Disposition header is the one the
    writer came with. *)
Theorem handler_index_is_no_attachment fuel fs ropen options w r o call f0 info0 :
  let name := prefix (URL_Path r) "/" in
  let r' := with_Path r name in
  serve fuel fs ropen options w r = Some o ->
  o_served o = Some call ->
  opener fs ropen name r' = Ok f0 ->
  http_File.Stat f0 = Ok info0 ->
  os_FileInfo.IsDir info0 = true ->
  (exists findex,
     opener fs ropen (GoString.TrimSuffix name "/" +:+ IndexName (setup options)) r'
     = Ok findex /\ sc_content call = Content_file findex) /\
  (Allow options = None ->
   w_Header (o_w o) !! "Content-Disposition" = w_Header w !! "Content-Disposition").
Proof.
  intros name r'. unfold FileServer. intros Hrun Hserved Hopen Hstat Hdir.
  destruct (handler_served _ _ _ _ _ _ _ _ Hrun Hserved)
    as (f0' & info0' & w1 & w2 & w3 & content0 & compressing & encoding & Hopen' & Hstat' & H).
  fold name r' in Hopen', H. rewrite Hopen in Hopen'. injection Hopen' as <-.
  rewrite Hstat in Hstat'. injection Hstat' as <-.
  simpl in H. destruct H as (Hfile & _ & Hallow & Hatt & Henc & _ & Hw & ->).
  set (s := substitute_index (opener fs ropen) (setup options) name r' info0 f0) in *.
  assert (Hfound : s.1.1 = true).
  { destruct (s.1.1) eqn:E; [done|]. subst s.
    rewrite (substitute_index_not_found _ _ _ _ _ _ E) in Hfile. simpl in Hfile. congruence. }
  destruct (substitute_index_found _ _ _ _ _ _ Hfound) as (_ & _ & Hindex).
  unfold attach in Hatt. rewrite Hfound in Hatt. simpl in Hatt. injection Hatt as <- <-.
  split.
  - exists s.2. done.
  - intros Hnone. change (Allow (setup options)) with (Allow options) in Hallow.
    rewrite Hnone in Hallow. injection Hallow as <-. rewrite Hw.
    by rewrite (encode_keeps_header _ _ _ _ _ _ _ "Content-Disposition" Henc).
Qed.

(** X20: When the access predicate refuses a file, the handler stops there:
    the response is what the predicate left, with nothing served or
    pushed.  The handler does not ask the predicate when the request
    ends in the redirect of an index request or in a directory: there
    the outcome is the same under any predicate, for a listing as long
    as the renderer, which receives the options, answers the same. *)
Theorem handler_access_predicate fuel fs ropen options w r f0 info0 :
  let options' := setup options in
  let name := prefix (URL_Path r) "/" in
  let r' := with_Path r name in
  let s := substitute_index (opener fs ropen) options' name r' info0 f0 in
  let list := default default_DirList (DirList options) in
  let w' := writeLastModified http_TimeFormat w (os_FileInfo.ModTime s.1.2) in
  opener fs ropen name r' = Ok f0 ->
  http_File.Stat f0 = Ok info0 ->
  (forall allow w1,
     os_FileInfo.IsDir s.1.2 = false ->
     bool_decide (IndexName options' ≠ "") && GoString.HasSuffix name (IndexName options')
       = false ->
     Allow options = Some allow -> allow w r' name = (w1, false) ->
     serve fuel fs ropen options w r = Some (finish w1))
  /\ (forall allow,
        (os_FileInfo.IsDir s.1.2 = false /\
         bool_decide (IndexName options' ≠ "") && GoString.HasSuffix name (IndexName options')
           = true)
        \/ (os_FileInfo.IsDir s.1.2 = true /\
            (ShowList options = false \/
             check r' (os_FileInfo.ModTime s.1.2) = (false, None) \/
             list w' r' (dirOptions (setup (with_Allow options allow)))
               (os_FileInfo.Name s.1.2) s.2
             = list w' r' (dirOptions options') (os_FileInfo.Name s.1.2) s.2)) ->
        serve fuel fs ropen (with_Allow options allow) w r = serve fuel fs ropen options w r).
Proof.
  intros options' name r' s list w' Hopen Hstat. split.
  - intros allow w1 Hfile Hred Hallow Hdeny.
    unfold FileServer, handler. fold options' name r'. rewrite Hopen, Hstat. fold s.
    destruct s as [[indexFound info] f]. simpl in Hfile. rewrite Hfile, Hred.
    change (Allow options') with (Allow options). by rewrite Hallow, Hdeny.
  - intros allow Hcase.
    unfold FileServer, handler.
    change (setup (with_Allow options allow)) with (with_Allow options' allow) in *.
    fold options' name r'. rewrite Hopen, Hstat.
    change (substitute_index (opener fs ropen) (with_Allow options' allow) name r' info0 f0)
      with s. fold s.
    subst w'. destruct s as [[indexFound info] f]. cbn [fst snd] in Hcase.
    change (IndexName (with_Allow options' allow)) with (IndexName options').
    change (ShowList (with_Allow options' allow)) with (ShowList options).
    change (ShowList options') with (ShowList options).
    change (DirList (with_Allow options' allow)) with (DirList options').
    destruct Hcase as [[Hfile Hred] | [Hdir Hsame]].
    + by rewrite Hfile, Hred.
    + rewrite Hdir. destruct (ShowList options) eqn:Hshow; [|reflexivity]. cbn [negb].
      destruct Hsame as [Hoff | [Hcheck | Hsame]]; [done|by rewrite Hcheck|].
      assert (Hlist : DirList options' = Some list).
      { subst list options'. simpl. rewrite Hshow. by destruct (DirList options). }
      rewrite Hlist, Hsame. reflexivity.
Qed.

(** X21: Three ways to a 404 with the headers untouched and nothing rendered
    or served: the path does not open, its [Stat] fails, or it is a
    directory without usable index file while listing is off, which a
    client cannot tell from a missing path. *)
Theorem handler_not_found fuel fs ropen options w r :
  let options' := setup options in
  let name := prefix (URL_Path r) "/" in
  let r' := with_Path r name in
  (exists e, opener fs ropen name r' = Err e) \/
  (exists f0 e, opener fs ropen name r' = Ok f0 /\ http_File.Stat f0 = Err e) \/
  (exists f0 info0,
     opener fs ropen name r' = Ok f0 /\ http_File.Stat f0 = Ok info0 /\
     os_FileInfo.IsDir (substitute_index (opener fs ropen) options' name r' info0 f0).1.2
       = true /\
     ShowList options = false) ->
  serve fuel fs ropen options w r = Some (finish (WriteHeader StatusNotFound w)).
Proof.
  intros options' name r' H. unfold FileServer, handler. fold options' name r'.
  destruct H as [[e He] | [(f0 & e & Hf & He) | (f0 & info0 & Hf & Hi & Hd & Hl)]].
  - by rewrite He.
  - by rewrite Hf, He.
  - rewrite Hf, Hi. destruct (substitute_index _ _ _ _ _ _) as [[indexFound info] f].
    simpl in Hd. rewrite Hd. change (ShowList options') with (ShowList options).
    by rewrite Hl.
Qed.


(** X23: A request for a directory that has the index file is served with the
    index file, under the name and modification time of the index file,
    as long as the request path does not itself end with the index name;
    the index path is the request path, less one trailing slash, plus
    the index name.  The handler gets there when the access predicate,
    if there is one, admits the request, no literal push target of the
    path is empty, and the walk for a push pattern of the path ends. *)
Theorem handler_substitutes_index fuel fs ropen options w r f0 info0 findex infoindex :
  let options' := setup options in
  let name := prefix (URL_Path r) "/" in
  let r' := with_Path r name in
  opener fs ropen name r' = Ok f0 ->
  http_File.Stat f0 = Ok info0 ->
  os_FileInfo.IsDir info0 = true ->
  IndexName options <> "" ->
  opener fs ropen (GoString.TrimSuffix name "/" +:+ IndexName options') r' = Ok findex ->
  http_File.Stat findex = Ok infoindex ->
  os_FileInfo.IsDir infoindex = false ->
  GoString.HasSuffix name (IndexName options') = false ->
  (forall allow, Allow options = Some allow -> exists w1, allow w r' name = (w1, true)) ->
  (forall indexAssets, PushTargets options' !! name = Some indexAssets -> "" ∉ indexAssets) ->
  PushTargetsRegexp options !! name = None \/ is_Some (findNames fuel fs name) ->
  exists o call,
    serve fuel fs ropen options w r = Some o /\
    o_panic o = false /\
    o_served o = Some call /\
    sc_name call = os_FileInfo.Name infoindex /\
    sc_modtime call = os_FileInfo.ModTime infoindex /\
    sc_content call = Content_file findex.
Proof.
  intros options' name r' Hopen Hstat Hdir Hname Hindex Histat Hifile Hsuffix Hallow
    Hassets Hwalk.
  unfold FileServer, handler. fold options' name r'. rewrite Hopen, Hstat.
  destruct (FileServer_options_IndexName filepath_ToSlash default_DirList options Hname)
    as [_ Hname']. fold options' in Hname'.
  unfold substitute_index. rewrite Hdir, (bool_decide_eq_true_2 _ Hname'). cbn [andb].
  rewrite Hindex, Histat, Hifile, Hsuffix. cbn [andb].
  change (Allow options') with (Allow options).
  assert (Hpush : forall encoding, exists pushed,
            pushes fuel fs options' r' name true encoding = Some (pushed, false)).
  { intros encoding. apply push_targets_total; [exact Hassets|exact Hwalk]. }
  destruct (Allow options) as [allow|] eqn:Ha.
  - destruct (Hallow allow eq_refl) as [w1 Hw1]. rewrite Hw1. simpl.
    destruct (encode _ _ _ _ _) as [[w3 cm] en].
    destruct (Hpush en) as [pushed ->]. eexists _, _. split; [reflexivity|]. done.
  - simpl. destruct (encode _ _ _ _ _) as [[w3 cm] en].
    destruct (Hpush en) as [pushed ->]. eexists _, _. split; [reflexivity|]. done.
Qed.

End HandlerFacts.

(** ** [FormatBytes] *)

Lemma int64_small (z : Z) : - 2 ^ 63 <= z < 2 ^ 63 -> int64 z = z.
Proof. intros H. unfold int64. rewrite Z.mod_small; lia. Qed.

Lemma FormatBytes_loop_spec (b : Z) (fuel : nat) (n div : Z) (exp : nat) :
  0 <= b < 2 ^ 63 ->
  div = 1000 ^ (Z.of_nat exp + 1) ->
  n = b / div -> 1 <= n ->
  (6 <= exp + fuel)%nat ->
  exists div' exp',
    FormatBytes_loop fuel n div exp = Some (div', exp') /\
    div' = 1000 ^ (Z.of_nat exp' + 1) /\ div' <= b < 1000 * div' /\ (exp' <= 5)%nat.
Proof.
  intros Hb. revert n div exp.
  induction fuel as [|fuel IH]; intros n div exp Hdiv Hn Hn1 Hexp.
  - exfalso.
    assert (Hbig : 1000 ^ 7 <= div).
    { subst div. apply Z.pow_le_mono_r; lia. }
    assert (Hzero : b / div = 0) by (apply Z.div_small; lia).
    lia.
  - assert (Hdpos : 0 < div) by (subst div; apply Z.pow_pos_nonneg; lia).
    assert (Hlow : div * n <= b).
    { subst n. apply Z.mul_div_le. lia. }
    assert (Hup : b < div * (n + 1)).
    { subst n. pose proof (Z.mod_pos_bound b div Hdpos) as Hm.
      pose proof (Z.div_mod b div ltac:(lia)) as Hdm.
      rewrite Z.mul_add_distr_l. lia. }
    assert (Hexp5 : (exp <= 5)%nat).
    { destruct (le_lt_dec exp 5) as [|Hgt]; [done|]. exfalso.
      assert (1000 ^ 7 <= div) by (subst div; apply Z.pow_le_mono_r; lia).
      assert (div <= div * n) by (apply Z.le_mul_diag_r; lia). lia. }
    simpl. destruct (1000 <=? n) eqn:En.
    + apply Z.leb_le in En.
      assert (Hq : Z.quot n 1000 = n / 1000) by (apply Z.quot_div_nonneg; lia).
      assert (Hqb : 1 <= n / 1000 <= n).
      { split; [apply Z.div_le_lower_bound; lia|].
        apply Z.div_le_upper_bound; lia. }
      assert (Hd1000 : div * 1000 <= b).
      { apply Z.le_trans with (div * n); [|done]. apply Z.mul_le_mono_nonneg_l; lia. }
      assert (Hnb : n <= b).
      { apply Z.le_trans with (div * n); [|done].
        rewrite <- (Z.mul_1_l n) at 1. apply Z.mul_le_mono_nonneg_r; lia. }
      rewrite Hq, (int64_small (n / 1000)) by lia.
      rewrite (int64_small (div * 1000)) by lia.
      apply IH.
      * subst div. rewrite Nat2Z.inj_succ.
        replace (Z.succ (Z.of_nat exp) + 1) with (Z.succ (Z.of_nat exp + 1)) by lia.
        rewrite Z.pow_succ_r by lia. lia.
      * subst n. rewrite Z.div_div by lia. reflexivity.
      * lia.
      * lia.
    + apply Z.leb_gt in En. exists div, exp. split; [done|]. split; [done|].
      split; [|done]. split.
      * apply Z.le_trans with (div * n); [|done]. apply Z.le_mul_diag_r; lia.
      * apply Z.lt_le_trans with (div * (n + 1)); [done|].
        rewrite (Z.mul_comm 1000 div). apply Z.mul_le_mono_nonneg_l; lia.
Qed.

(** X24: For every int64 [b], [FormatBytes] finds its unit within seven
    rounds of its loop and never reads past the unit table: below 1000
    it prints the number itself; from 1000 on it divides by the power of
    1000 that brings the number into [1, 1000) and takes the letter of
    that power from "kMGTPE", without overflow of the divisor. *)
Theorem FormatBytes_unit (b : Z) :
  - 2 ^ 63 <= b < 2 ^ 63 ->
  exists r,
    FormatBytes 7 b = Some r /\
    match r with
    | Format_bytes b' => b' = b /\ b < 1000
    | Format_scaled b' div c =>
        b' = b /\ 1000 <= b /\ div <= b < 1000 * div /\
        exists exp : nat, (exp <= 5)%nat /\ div = 1000 ^ (Z.of_nat exp + 1) /\
                          unit_letters !! exp = Some c
    | Format_panic => False
    end.
Proof.
  intros Hb. unfold FormatBytes. destruct (b <? 1000) eqn:E.
  - apply Z.ltb_lt in E. eexists. split; [reflexivity|]. done.
  - apply Z.ltb_ge in E.
    assert (Hq : Z.quot b 1000 = b / 1000) by (apply Z.quot_div_nonneg; lia).
    assert (Hqb : 1 <= b / 1000 <= b).
    { split; [apply Z.div_le_lower_bound; lia|]. apply Z.div_le_upper_bound; lia. }
    rewrite Hq, int64_small by lia.
    destruct (FormatBytes_loop_spec b 7 (b / 1000) 1000 O) as (div & exp & Hrun & Hdiv & Hbd & Hexp);
      [lia|reflexivity|reflexivity|lia|lia|].
    rewrite Hrun.
    assert (Hletter : exists c, unit_letters !! exp = Some c).
    { apply lookup_lt_is_Some. simpl. lia. }
    destruct Hletter as [c Hc]. rewrite Hc. eexists. split; [reflexivity|].
    split; [done|]. split; [done|]. split; [done|]. exists exp. done.
Qed.

(** ** The further properties on the samples *)

Lemma findNames_returns_files_witness :
  findNames 10 (Sample.tree false) "/" = Some (Ok sample_names) /\
  "/a/c/d.txt" ∈ sample_names /\
  opens_as_file (Sample.tree false) "/a/c/d.txt".
Proof.
  assert (H1 : findNames 10 (Sample.tree false) "/" = Some (Ok sample_names))
    by (vm_compute; reflexivity).
  assert (H2 : "/a/c/d.txt" ∈ sample_names)
    by (apply list_elem_of_In; simpl; tauto).
  exact (conj H1 (conj H2
    (findNames_returns_files 10 (Sample.tree false) "/" sample_names H1 "/a/c/d.txt" H2))).
Defined.

Lemma findNames_returns_rooted_witness :
  rooted "/" /\
  findNames 10 (Sample.tree false) "/" = Some (Ok sample_names) /\
  "/a/c/d.txt" ∈ sample_names /\
  rooted "/a/c/d.txt".
Proof.
  assert (H0 : rooted "/") by (vm_compute; reflexivity).
  assert (H1 : findNames 10 (Sample.tree false) "/" = Some (Ok sample_names))
    by (vm_compute; reflexivity).
  assert (H2 : "/a/c/d.txt" ∈ sample_names)
    by (apply list_elem_of_In; simpl; tauto).
  exact (conj H0 (conj H1 (conj H2
    (findNames_returns_rooted 10 (Sample.tree false) "/" sample_names H0 H1
       "/a/c/d.txt" H2)))).
Defined.

Lemma Cache_indexes_the_names_found_witness :
  sample_cache false = Some (Ok sample_cacheFS) /\
  exists names,
    findNames 10 (Sample.tree false) "/" = Some (Ok names) /\
    (forall k, is_Some (c_files sample_cacheFS !! k) <-> k ∈ names) /\
    (forall k, is_Some (c_dirs sample_cacheFS !! k) <->
               exists n, n ∈ names /\ k = Path.Dir n) /\
    c_n sample_cacheFS = length names /\
    c_algs sample_cacheFS = Encodings sample_options.
Proof.
  assert (H1 : sample_cache false = Some (Ok sample_cacheFS)).
  { vm_compute. reflexivity. }
  exact (conj H1
    (Cache_indexes_the_names_found Sample.codec Sample.no_unicode 10 (Sample.tree false)
       sample_options sample_cacheFS H1)).
Defined.

Lemma Cache_keys_are_rooted_and_open_witness :
  sample_cache false = Some (Ok sample_cacheFS) /\
  c_dirs sample_cacheFS !! "/a/c" <> None /\
  rooted "/a/c" /\
  (forall n, exists f, Open (S (S n)) sample_cacheFS "/a/c" = Some (Ok f)) /\
  Open 2 sample_cacheFS "a/c" = Open 2 sample_cacheFS "/a/c".
Proof.
  assert (H1 : sample_cache false = Some (Ok sample_cacheFS)).
  { vm_compute. reflexivity. }
  assert (H2 : is_Some (c_dirs sample_cacheFS !! "/a/c")).
  { vm_compute. eexists. reflexivity. }
  destruct (Cache_keys_are_rooted_and_open Sample.codec Sample.no_unicode 10
              (Sample.tree false) sample_options sample_cacheFS "/a/c" H1 (or_intror H2))
    as (Hrooted & Hopen & Hrel).
  split; [exact H1|]. split; [vm_compute; discriminate|].
  split; [exact Hrooted|]. split; [exact Hopen|].
  apply (Hrel 2%nat "a/c"); reflexivity.
Defined.

Lemma Cache_file_metadata_witness :
  sample_cache false = Some (Ok sample_cacheFS) /\
  c_files sample_cacheFS !! "/a/c/d.txt" = Some sample_entry /\
  c_dirs sample_cacheFS !! "/a/c/d.txt" = None /\
  exists pf pinfo g info,
    Sample.tree false "/a/c/d.txt" = Ok pf /\
    http_File.Stat pf = Ok pinfo /\
    Open 2 sample_cacheFS "/a/c/d.txt" = Some (Ok g) /\
    http_File.Stat g = Ok info /\
    os_FileInfo.Name info = Path.Base "/a/c/d.txt" /\
    os_FileInfo.Mode info = os_FileInfo.Mode pinfo /\
    os_FileInfo.ModTime info = os_FileInfo.ModTime pinfo.
Proof.
  assert (H1 : sample_cache false = Some (Ok sample_cacheFS)).
  { vm_compute. reflexivity. }
  assert (H2 : c_files sample_cacheFS !! "/a/c/d.txt" = Some sample_entry).
  { vm_compute. reflexivity. }
  assert (H3 : c_dirs sample_cacheFS !! "/a/c/d.txt" = None).
  { vm_compute. reflexivity. }
  exact (conj H1 (conj H2 (conj H3
    (Cache_file_metadata Sample.codec Sample.no_unicode 10 (Sample.tree false)
       sample_options sample_cacheFS "/a/c/d.txt" sample_entry O H1 H2 H3)))).
Defined.

Lemma Cache_variant_names_witness :
  sample_cache false = Some (Ok sample_cacheFS) /\
  c_files sample_cacheFS !! "/a/c/d.txt" = Some sample_entry /\
  provider_contents (Sample.tree false) "/a/c/d.txt" = Ok Sample.world /\
  is_Some (f_algs sample_entry !! "br") /\
  f_algs sample_entry !! "brotli" = None.
Proof.
  assert (H1 : sample_cache false = Some (Ok sample_cacheFS)).
  { vm_compute. reflexivity. }
  assert (H2 : c_files sample_cacheFS !! "/a/c/d.txt" = Some sample_entry).
  { vm_compute. reflexivity. }
  assert (H3 : provider_contents (Sample.tree false) "/a/c/d.txt" = Ok Sample.world).
  { vm_compute. reflexivity. }
  split; [exact H1|]. split; [exact H2|]. split; [exact H3|]. split.
  - apply (Cache_variant_names Sample.codec Sample.no_unicode 10 (Sample.tree false)
             sample_options sample_cacheFS "/a/c/d.txt" sample_entry Sample.world "br"
             H1 H2 H3).
    right. split; [vm_compute; reflexivity|].
    exists "brotli". split; [|vm_compute; reflexivity].
    apply list_elem_of_In. simpl. tauto.
  - apply eq_None_not_Some. intros Hsome.
    apply (Cache_variant_names Sample.codec Sample.no_unicode 10 (Sample.tree false)
             sample_options sample_cacheFS "/a/c/d.txt" sample_entry Sample.world "brotli"
             H1 H2 H3) in Hsome.
    destruct Hsome as [Hk | (_ & alg & Halg & Hk)]; [discriminate Hk|].
    apply list_elem_of_In in Halg. simpl in Halg.
    destruct Halg as [<- | [<- | []]]; vm_compute in Hk; discriminate Hk.
Defined.

Lemma Cache_fails_as_a_whole_witness :
  findNames 10 (Sample.tree false) "/" = Some (Ok sample_names) /\
  "/a/b.txt" ∈ sample_names /\
  provider_contents (Sample.tree false) "/a/b.txt" = Ok Sample.hello /\
  Sample.codec (strings_ToLower Sample.no_unicode (alg_key "lzma")) Sample.hello
    = Err (ext_error "compress: not supported") /\
  exists e,
    Cache Sample.codec Sample.no_unicode 10 (Sample.tree false) sample_bad_options
    = Some (Err e).
Proof.
  assert (H1 : findNames 10 (Sample.tree false) "/" = Some (Ok sample_names)).
  { vm_compute. reflexivity. }
  assert (H2 : "/a/b.txt" ∈ sample_names).
  { apply list_elem_of_In. simpl. tauto. }
  assert (H3 : provider_contents (Sample.tree false) "/a/b.txt" = Ok Sample.hello).
  { vm_compute. reflexivity. }
  assert (H4 : Sample.codec (strings_ToLower Sample.no_unicode (alg_key "lzma"))
                 Sample.hello = Err (ext_error "compress: not supported")).
  { vm_compute. reflexivity. }
  split; [exact H1|]. split; [exact H2|]. split; [exact H3|]. split; [exact H4|].
  apply (Cache_fails_as_a_whole Sample.codec Sample.no_unicode 10 (Sample.tree false)
           sample_bad_options sample_names "/a/b.txt" H1 H2).
  right. exists Sample.hello, "lzma", (ext_error "compress: not supported").
  split; [exact H3|]. split; [vm_compute; reflexivity|].
  split; [vm_compute; reflexivity|]. split; [|exact H4].
  apply list_elem_of_In. simpl. tauto.
Defined.

Lemma findDirs_entry_header_witness :
  findDirs (Sample.tree false) sample_names = Ok (c_dirs sample_cacheFS) /\
  c_dirs sample_cacheFS !! "/a" = Some sample_dir_a /\
  d_name sample_dir_a = "/a" /\
  d_baseName sample_dir_a = Path.Base "/a" /\
  os_FileInfo.IsDir (FI_dir sample_dir_a) = true.
Proof.
  assert (H1 : findDirs (Sample.tree false) sample_names = Ok (c_dirs sample_cacheFS)).
  { vm_compute. reflexivity. }
  assert (H2 : c_dirs sample_cacheFS !! "/a" = Some sample_dir_a).
  { vm_compute. reflexivity. }
  destruct (findDirs_entry_header (Sample.tree false) sample_names (c_dirs sample_cacheFS)
              "/a" sample_dir_a H1 H2)
    as (front & n & back & inf & _ & _ & _ & _ & Hname & Hbase & _ & Hdir).
  exact (conj H1 (conj H2 (conj Hname (conj Hbase Hdir)))).
Defined.

Lemma findDirs_file_children_witness :
  findDirs (Sample.tree false) sample_names = Ok (c_dirs sample_cacheFS) /\
  c_dirs sample_cacheFS !! "/a" = Some sample_dir_a /\
  file_children sample_dir_a =
    omap (cached_info (Sample.tree false))
         (filter (fun n => Path.Dir n = "/a") sample_names) /\
  length (file_children sample_dir_a) =
    length (filter (fun n => Path.Dir n = "/a") sample_names).
Proof.
  assert (H1 : findDirs (Sample.tree false) sample_names = Ok (c_dirs sample_cacheFS)).
  { vm_compute. reflexivity. }
  assert (H2 : c_dirs sample_cacheFS !! "/a" = Some sample_dir_a).
  { vm_compute. reflexivity. }
  exact (conj H1 (conj H2
    (findDirs_file_children (Sample.tree false) sample_names (c_dirs sample_cacheFS)
       "/a" sample_dir_a H1 H2))).
Defined.

Lemma findDirs_children_are_entries_witness :
  findDirs (Sample.tree false) sample_names = Ok (c_dirs sample_cacheFS) /\
  c_dirs sample_cacheFS !! "/a" = Some sample_dir_a /\
  (forall k', k' ∈ dir_children sample_dir_a ->
     Path.Dir k' = "/a" /\ is_Some (c_dirs sample_cacheFS !! k')) /\
  exists infos,
    http_File.Readdir (File_dir (c_dirs sample_cacheFS) sample_dir_a) = Ok infos /\
    length infos = length (d_children sample_dir_a).
Proof.
  assert (H1 : findDirs (Sample.tree false) sample_names = Ok (c_dirs sample_cacheFS)).
  { vm_compute. reflexivity. }
  assert (H2 : c_dirs sample_cacheFS !! "/a" = Some sample_dir_a).
  { vm_compute. reflexivity. }
  exact (conj H1 (conj H2
    (findDirs_children_are_entries (Sample.tree false) sample_names
       (c_dirs sample_cacheFS) "/a" sample_dir_a H1 H2))).
Defined.

Lemma findDirs_lists_subdirectory_witness :
  findDirs (Sample.tree false) (["/a/b.txt"] ++ "/a/c/d.txt" :: [])
    = Ok (c_dirs sample_cacheFS) /\
  Path.Dir "/a/b.txt" = Path.Dir (Path.Dir "/a/c/d.txt") /\
  exists d,
    c_dirs sample_cacheFS !! Path.Dir (Path.Dir "/a/c/d.txt") = Some d /\
    Path.Dir "/a/c/d.txt" ∈ dir_children d.
Proof.
  assert (H1 : findDirs (Sample.tree false) (["/a/b.txt"] ++ "/a/c/d.txt" :: [])
               = Ok (c_dirs sample_cacheFS)).
  { vm_compute. reflexivity. }
  assert (H2 : "/a/b.txt" ∈ ["/a/b.txt"] ++ ["/a/c/d.txt"]).
  { apply list_elem_of_In. simpl. tauto. }
  assert (H3 : Path.Dir "/a/b.txt" = Path.Dir (Path.Dir "/a/c/d.txt")).
  { vm_compute. reflexivity. }
  exact (conj H1 (conj H3
    (findDirs_lists_subdirectory (Sample.tree false) ["/a/b.txt"] "/a/c/d.txt" []
       "/a/b.txt" (c_dirs sample_cacheFS) H1 H2 H3))).
Defined.

Lemma file_Get_on_served_file_never_returns_witness :
  file_Get 2 sample_entry "" = Some (Ok (File_file sample_served)) /\
  f_algs sample_served = ∅ /\
  forall fuel' a, file_Get fuel' sample_served a = None.
Proof.
  assert (H1 : file_Get 2 sample_entry "" = Some (Ok (File_file sample_served))).
  { vm_compute. reflexivity. }
  exact (conj H1
    (file_Get_on_served_file_never_returns 2 sample_entry "" sample_served H1)).
Defined.

Lemma Open_serves_the_original_witness :
  c_dirs sample_cacheFS !! rooted_name "/a/c/d.txt" = None /\
  c_files sample_cacheFS !! rooted_name "/a/c/d.txt" = Some sample_entry /\
  f_algs sample_entry !! "" = Some Sample.world /\
  exists g,
    Open 2 sample_cacheFS "/a/c/d.txt" = Some (Ok g) /\
    File_bytes g = Ok Sample.world /\
    GetEncoding (Some g) = ("", true).
Proof.
  assert (H1 : c_dirs sample_cacheFS !! rooted_name "/a/c/d.txt" = None).
  { vm_compute. reflexivity. }
  assert (H2 : c_files sample_cacheFS !! rooted_name "/a/c/d.txt" = Some sample_entry).
  { vm_compute. reflexivity. }
  assert (H3 : f_algs sample_entry !! "" = Some Sample.world).
  { vm_compute. reflexivity. }
  destruct (Open_serves_the_original sample_negotiate 1 sample_cacheFS "/a/c/d.txt"
              sample_request) as [Hfile _].
  destruct (Hfile sample_entry Sample.world H1 H2 H3) as (g & Hg & Hbytes & Henc & _).
  split; [exact H1|]. split; [exact H2|]. split; [exact H3|].
  exists g. split; [exact Hg|]. split; [exact Hbytes|exact Henc].
Defined.

Lemma FormatBytes_unit_witness :
  - 2 ^ 63 <= 1500000 < 2 ^ 63 /\
  exists r,
    FormatBytes 7 1500000 = Some r /\
    match r with
    | Format_bytes b' => b' = 1500000 /\ 1500000 < 1000
    | Format_scaled b' div c =>
        b' = 1500000 /\ 1000 <= 1500000 /\ div <= 1500000 < 1000 * div /\
        exists exp : nat, (exp <= 5)%nat /\ div = 1000 ^ (Z.of_nat exp + 1) /\
                          unit_letters !! exp = Some c
    | Format_panic => False
    end.
Proof.
  assert (H : - 2 ^ 63 <= 1500000 < 2 ^ 63) by lia.
  exact (conj H (FormatBytes_unit 1500000 H)).
Defined.

Lemma handler_serves_files_only_witness :
  sample_server sample_pusher sample_site None sample_push_Options sample_writer
    sample_dir_request = Some sample_push_outcome /\
  o_served sample_push_outcome = Some sample_index_call /\
  exists info,
    http_File.Stat (content_File (sc_content sample_index_call)) = Ok info /\
    os_FileInfo.IsDir info = false /\
    sc_name sample_index_call = os_FileInfo.Name info /\
    sc_modtime sample_index_call = os_FileInfo.ModTime info.
Proof.
  assert (H1 : sample_server sample_pusher sample_site None sample_push_Options
                 sample_writer sample_dir_request = Some sample_push_outcome).
  { vm_compute. reflexivity. }
  assert (H2 : o_served sample_push_outcome = Some sample_index_call).
  { vm_compute. reflexivity. }
  exact (conj H1 (conj H2
    (handler_serves_files_only sample_ParseTime sample_TimeFormat
       sample_NewResponseWriter sample_ToSlash sample_DirList sample_pusher 10
       sample_site None sample_push_Options sample_writer sample_dir_request
       sample_push_outcome sample_index_call H1 H2))).
Defined.

Lemma handler_pushes_only_with_index_witness :
  sample_server sample_pusher sample_site None sample_push_Options sample_writer
    sample_dir_request = Some sample_push_outcome /\
  o_pushed sample_push_outcome = [("/app2/main.js", None)] /\
  (exists f0 info0 findex call,
     opener sample_site None "/app2" (with_Path sample_dir_request "/app2") = Ok f0 /\
     http_File.Stat f0 = Ok info0 /\
     os_FileInfo.IsDir info0 = true /\
     opener sample_site None "/app2/index.html" (with_Path sample_dir_request "/app2")
       = Ok findex /\
     o_served sample_push_outcome = Some call /\
     sc_content call = Content_file findex) /\
  sample_server sample_pusher sample_site None sample_panic_Options sample_writer
    sample_dir_request = Some sample_panic_outcome /\
  o_pushed sample_panic_outcome = [("/app2/main.js", None)] /\
  o_panic sample_panic_outcome = true /\
  o_served sample_panic_outcome = None.
Proof.
  assert (H1 : sample_server sample_pusher sample_site None sample_push_Options
                 sample_writer sample_dir_request = Some sample_push_outcome).
  { vm_compute. reflexivity. }
  assert (H2 : o_pushed sample_push_outcome = [("/app2/main.js", None)]).
  { vm_compute. reflexivity. }
  assert (H3 : o_pushed sample_push_outcome <> []).
  { rewrite H2. discriminate. }
  assert (P1 : sample_server sample_pusher sample_site None sample_panic_Options
                 sample_writer sample_dir_request = Some sample_panic_outcome).
  { vm_compute. reflexivity. }
  assert (P2 : o_pushed sample_panic_outcome = [("/app2/main.js", None)]).
  { vm_compute. reflexivity. }
  assert (P3 : o_pushed sample_panic_outcome <> []).
  { rewrite P2. discriminate. }
  destruct (handler_pushes_only_with_index sample_ParseTime sample_TimeFormat
              sample_NewResponseWriter sample_ToSlash sample_DirList sample_pusher 10
              sample_site None sample_push_Options sample_writer sample_dir_request
              sample_push_outcome H1 H3)
    as (_ & _ & _ & f0 & info0 & findex & Ho & Hs & Hd & Hi & Hserved).
  change (o_panic sample_push_outcome) with false in Hserved.
  destruct Hserved as (call & Hcall & Hcontent).
  destruct (handler_pushes_only_with_index sample_ParseTime sample_TimeFormat
              sample_NewResponseWriter sample_ToSlash sample_DirList sample_pusher 10
              sample_site None sample_panic_Options sample_writer sample_dir_request
              sample_panic_outcome P1 P3)
    as (_ & _ & _ & g0 & ginfo0 & gindex & _ & _ & _ & _ & Hpanic).
  change (o_panic sample_panic_outcome) with true in Hpanic.
  destruct Hpanic as [Hnone _].
  split; [exact H1|]. split; [exact H2|]. split.
  - exists f0, info0, findex, call. done.
  - split; [exact P1|]. split; [exact P2|]. split; [reflexivity|exact Hnone].
Defined.

Lemma handler_sends_attachment_witness :
  opener (Sample.tree false) None "/a/b.txt" (with_Path sample_file_request "/a/b.txt")
    = Ok sample_b_file /\
  http_File.Stat sample_b_file = Ok sample_b_info /\
  os_FileInfo.IsDir sample_b_info = false /\
  Enable (opt_Attachments sample_attach_Options) = true /\
  exists o call,
    sample_server sample_pusher (Sample.tree false) None sample_attach_Options
      sample_writer sample_file_request = Some o /\
    o_served o = Some call /\
    o_pushed o = [] /\
    w_Header (o_w o) !! "Content-Disposition" = Some "attachment;filename=b.txt" /\
    sc_content call = Content_rate sample_b_file 50 100.
Proof.
  assert (H1 : opener (Sample.tree false) None "/a/b.txt"
                 (with_Path sample_file_request "/a/b.txt") = Ok sample_b_file).
  { vm_compute. reflexivity. }
  assert (H2 : http_File.Stat sample_b_file = Ok sample_b_info).
  { vm_compute. reflexivity. }
  assert (H3 : os_FileInfo.IsDir sample_b_info = false).
  { reflexivity. }
  assert (H4 : Enable (opt_Attachments sample_attach_Options) = true).
  { reflexivity. }
  split; [exact H1|]. split; [exact H2|]. split; [exact H3|]. split; [exact H4|].
  apply (handler_sends_attachment sample_ParseTime sample_TimeFormat
           sample_NewResponseWriter sample_ToSlash sample_DirList sample_pusher 10
           (Sample.tree false) None sample_attach_Options sample_writer
           sample_file_request sample_b_file sample_b_info H1 H2 H3).
  - vm_compute. reflexivity.
  - reflexivity.
  - exact H4.
Defined.

Lemma handler_index_is_no_attachment_witness :
  sample_server None sample_site None sample_attach_Options sample_writer
    sample_dir_request = Some sample_index_outcome /\
  o_served sample_index_outcome = Some sample_index_call /\
  opener sample_site None "/app2" (with_Path sample_dir_request "/app2")
    = Ok sample_app2 /\
  http_File.Stat sample_app2 = Ok sample_app2_info /\
  os_FileInfo.IsDir sample_app2_info = true /\
  Enable (opt_Attachments sample_attach_Options) = true /\
  sc_content sample_index_call = Content_file sample_index_file /\
  w_Header (o_w sample_index_outcome) !! "Content-Disposition" = None.
Proof.
  assert (H1 : sample_server None sample_site None sample_attach_Options sample_writer
                 sample_dir_request = Some sample_index_outcome).
  { vm_compute. reflexivity. }
  assert (H2 : o_served sample_index_outcome = Some sample_index_call).
  { vm_compute. reflexivity. }
  assert (H3 : opener sample_site None "/app2" (with_Path sample_dir_request "/app2")
               = Ok sample_app2).
  { vm_compute. reflexivity. }
  assert (H4 : http_File.Stat sample_app2 = Ok sample_app2_info).
  { vm_compute. reflexivity. }
  assert (H5 : os_FileInfo.IsDir sample_app2_info = true).
  { reflexivity. }
  destruct (handler_index_is_no_attachment sample_ParseTime sample_TimeFormat
              sample_NewResponseWriter sample_ToSlash sample_DirList None 10
              sample_site None sample_attach_Options sample_writer sample_dir_request
              sample_index_outcome sample_index_call sample_app2 sample_app2_info
              H1 H2 H3 H4 H5) as [(findex & Hopen & Hcontent) Hheader].
  split; [exact H1|]. split; [exact H2|]. split; [exact H3|]. split; [exact H4|].
  split; [exact H5|]. split; [reflexivity|]. split.
  - assert (Hsame : Ok findex = Ok sample_index_file).
    { rewrite <- Hopen. vm_compute. reflexivity. }
    injection Hsame as ->. exact Hcontent.
  - rewrite (Hheader eq_refl). reflexivity.
Defined.

Lemma handler_access_predicate_witness :
  opener (Sample.tree false) None "/a/b.txt" (with_Path sample_file_request "/a/b.txt")
    = Ok sample_b_file /\
  http_File.Stat sample_b_file = Ok sample_b_info /\
  Allow sample_deny_Options = Some sample_deny /\
  sample_server None (Sample.tree false) None sample_deny_Options sample_writer
    sample_file_request = Some (finish (WriteHeader 403 sample_writer)) /\
  opener (Sample.tree false) None "/a" (with_Path sample_list_request "/a") = Ok sample_a /\
  http_File.Stat sample_a = Ok sample_a_info /\
  sample_server None (Sample.tree false) None sample_deny_Options sample_writer
    sample_list_request
  = sample_server None (Sample.tree false) None sample_attach_Options sample_writer
      sample_list_request.
Proof.
  assert (H1 : opener (Sample.tree false) None "/a/b.txt"
                 (with_Path sample_file_request "/a/b.txt") = Ok sample_b_file).
  { vm_compute. reflexivity. }
  assert (H2 : http_File.Stat sample_b_file = Ok sample_b_info).
  { vm_compute. reflexivity. }
  assert (L1 : opener (Sample.tree false) None "/a" (with_Path sample_list_request "/a")
               = Ok sample_a).
  { vm_compute. reflexivity. }
  assert (L2 : http_File.Stat sample_a = Ok sample_a_info).
  { vm_compute. reflexivity. }
  destruct (handler_access_predicate sample_ParseTime sample_TimeFormat
              sample_NewResponseWriter sample_ToSlash sample_DirList None 10
              (Sample.tree false) None sample_deny_Options sample_writer
              sample_file_request sample_b_file sample_b_info H1 H2) as [Hdeny _].
  destruct (handler_access_predicate sample_ParseTime sample_TimeFormat
              sample_NewResponseWriter sample_ToSlash sample_DirList None 10
              (Sample.tree false) None sample_attach_Options sample_writer
              sample_list_request sample_a sample_a_info L1 L2) as [_ Hsame].
  split; [exact H1|]. split; [exact H2|]. split; [reflexivity|]. split.
  - apply (Hdeny sample_deny (WriteHeader 403 sample_writer)).
    + vm_compute. reflexivity.
    + vm_compute. reflexivity.
    + reflexivity.
    + reflexivity.
  - split; [exact L1|]. split; [exact L2|].
    apply (Hsame (Some sample_deny)). right. split; [reflexivity|].
    right. right. reflexivity.
Defined.

Lemma handler_not_found_witness :
  opener (Sample.tree false) None "/missing"
    (with_Path sample_missing_request "/missing") = Err os_ErrNotExist /\
  sample_server None (Sample.tree false) None sample_attach_Options sample_writer
    sample_missing_request = Some (finish (WriteHeader StatusNotFound sample_writer)).
Proof.
  assert (H1 : opener (Sample.tree false) None "/missing"
                 (with_Path sample_missing_request "/missing") = Err os_ErrNotExist).
  { vm_compute. reflexivity. }
  split; [exact H1|].
  apply (handler_not_found sample_ParseTime sample_TimeFormat sample_NewResponseWriter
           sample_ToSlash sample_DirList None 10 (Sample.tree false) None
           sample_attach_Options sample_writer sample_missing_request).
  left. exists os_ErrNotExist. exact H1.
Defined.


Lemma handler_substitutes_index_witness :
  opener sample_site None "/app2" (with_Path sample_dir_request "/app2")
    = Ok sample_app2 /\
  http_File.Stat sample_app2 = Ok sample_app2_info /\
  os_FileInfo.IsDir sample_app2_info = true /\
  opener sample_site None "/app2/index.html" (with_Path sample_dir_request "/app2")
    = Ok sample_index_file /\
  http_File.Stat sample_index_file = Ok sample_index_info /\
  PushTargets sample_push_Options !! "/app2" = Some ["main.js"] /\
  exists o call,
    sample_server sample_pusher sample_site None sample_push_Options sample_writer
      sample_dir_request = Some o /\
    o_panic o = false /\
    o_served o = Some call /\
    sc_name call = os_FileInfo.Name sample_index_info /\
    sc_modtime call = os_FileInfo.ModTime sample_index_info /\
    sc_content call = Content_file sample_index_file.
Proof.
  assert (H1 : opener sample_site None "/app2" (with_Path sample_dir_request "/app2")
               = Ok sample_app2).
  { vm_compute. reflexivity. }
  assert (H2 : http_File.Stat sample_app2 = Ok sample_app2_info).
  { vm_compute. reflexivity. }
  assert (H3 : os_FileInfo.IsDir sample_app2_info = true).
  { reflexivity. }
  assert (H4 : opener sample_site None "/app2/index.html"
                 (with_Path sample_dir_request "/app2") = Ok sample_index_file).
  { vm_compute. reflexivity. }
  assert (H5 : http_File.Stat sample_index_file = Ok sample_index_info).
  { vm_compute. reflexivity. }
  split; [exact H1|]. split; [exact H2|]. split; [exact H3|]. split; [exact H4|].
  split; [exact H5|]. split; [vm_compute; reflexivity|].
  apply (handler_substitutes_index sample_ParseTime sample_TimeFormat
           sample_NewResponseWriter sample_ToSlash sample_DirList sample_pusher 10
           sample_site None sample_push_Options sample_writer sample_dir_request
           sample_app2 sample_app2_info sample_index_file
           sample_index_info H1 H2 H3).
  - discriminate.
  - vm_compute. reflexivity.
  - exact H5.
  - reflexivity.
  - vm_compute. reflexivity.
  - intros allow Hallow. discriminate Hallow.
  - intros indexAssets Hassets.
    assert (Hmain : indexAssets = ["main.js"]).
    { vm_compute in Hassets. by injection Hassets as <-. }
    rewrite Hmain. intros Hin. apply list_elem_of_In in Hin. simpl in Hin.
    destruct Hin as [Hin|[]]. discriminate Hin.
  - left. reflexivity.
Defined.
